(** * The orchestration engine of multi-ai-pro-mcp

    A shallow embedding of [src/orchestrator/engine.ts] (class
    [OrchestrationEngine]), of the context store it writes to
    ([src/db/context-manager.ts], class [ContextManager]), of the types of
    [src/types/index.ts], of the provider [src/providers/openrouter.ts] and
    of the tool handlers of [src/index.ts].

    Conventions of the embedding.
    - An [async] method is a computation in the monad [M]: it threads the
      world (the context store and the trace of observable events) and either
      returns a value or throws.  What was done before a throw stays done.
    - The completion provider is outside the engine: it is an oracle that
      answers a call with a text or with an exception, and may look at
      everything that happened before the call.  [JSON.parse] is the host's:
      it is an oracle from texts to values or a [SyntaxError].
    - The store is PostgreSQL plus a Redis cache in the source; here the two
      tables are lists in insertion order (which is the order of the
      [timestamp] column), the cache is a list of keys with their lists, and
      [uuidv4] draws from a counter.  The database and the cache are
      reachable and the current conversation, when there is one, is recorded
      (the server never deletes one), so a statement fails only where the
      schema of [createTables] refuses the row: [addMessage] throws on a
      model name that does not fit [model VARCHAR(100)].  Wall-clock fields
      ([timestamp], [created_at], cache expiry) are left out.
    - A JavaScript number that the engine only carries around or prints is
      kept as the text that printing it gives. *)

From Stdlib Require Import String Ascii List ZArith QArith Bool Arith Lia DecimalString.
Import ListNotations.
Close Scope Q_scope.
Open Scope string_scope.
Open Scope list_scope.

Set Warnings "-register-all".


(** ** Strings as the engine uses them *)

Definition nl : string := String (ascii_of_nat 10) EmptyString.
Definition dq : string := String (ascii_of_nat 34) EmptyString.

Definition cat (l : list string) : string := fold_right String.append EmptyString l.

(** [Array.prototype.join] on an array of strings. *)
Fixpoint join (sep : string) (l : list string) : string :=
  match l with
  | [] => EmptyString
  | [x] => x
  | x :: rest => (x ++ sep ++ join sep rest)%string
  end.

Definition string_of_nat (n : nat) : string := NilZero.string_of_uint (Nat.to_uint n).
Definition string_of_Z (z : Z) : string := NilZero.string_of_int (Z.to_int z).

(** [String.prototype.startsWith] and [String.prototype.includes]. *)
Fixpoint startsWith (s pre : string) : bool :=
  match pre, s with
  | EmptyString, _ => true
  | String a pre', String b s' => Ascii.eqb a b && startsWith s' pre'
  | String _ _, EmptyString => false
  end.


(** [embeds sub s]: the text [sub] occurs verbatim inside [s]. *)
Definition embeds (sub s : string) : Prop :=
  exists pre post, s = (pre ++ sub ++ post)%string.

(** The first binding of a key in a list of bindings. *)
Fixpoint assoc {A} (l : list (string * A)) (key : string) : option A :=
  match l with
  | [] => None
  | (k, v) :: rest => if String.eqb k key then Some v else assoc rest key
  end.

(** [Array.prototype.includes] on an array of strings. *)
Definition arr_includes (l : list string) (x : string) : bool :=
  existsb (String.eqb x) l.

(** ** JavaScript values, as far as [JSON.parse] can produce them *)

Inductive JsValue : Type :=
| JUndefined
| JNull
| JBool (b : bool)
| JNum (text : string)
| JStr (s : string)
| JArr (elems : list JsValue)
| JObj (props : list (string * JsValue)).

(** ToString, which a template literal and a property key apply. *)
Fixpoint toString (v : JsValue) : string :=
  match v with
  | JUndefined => "undefined"
  | JNull => "null"
  | JBool true => "true"
  | JBool false => "false"
  | JNum text => text
  | JStr s => s
  | JArr elems =>
      join ","
        ((fix each (l : list JsValue) : list string :=
            match l with
            | [] => []
            | JUndefined :: l' => EmptyString :: each l'
            | JNull :: l' => EmptyString :: each l'
            | x :: l' => toString x :: each l'
            end) elems)
  | JObj _ => "[object Object]"
  end.

(** [v === 'text']. *)
Definition strictEqualsString (v : JsValue) (text : string) : bool :=
  match v with
  | JStr s => String.eqb s text
  | _ => false
  end.

(** An own property of an object read from JSON; of two equal keys the later
    one wins. *)
Fixpoint ownProperty (props : list (string * JsValue)) (key : string) : option JsValue :=
  match props with
  | [] => None
  | (k, v) :: rest =>
      match ownProperty rest key with
      | Some v' => Some v'
      | None => if String.eqb k key then Some v else None
      end
  end.

(** ** Exceptions and results *)

Inductive Exn : Type :=
| ErrorExn (message : string)
| TypeErrorExn (message : string)
| SyntaxErrorExn (message : string)
| DatabaseErrorExn (message : string).

Inductive Res (A : Type) : Type :=
| Ok (a : A)
| Throw (e : Exn).
Arguments Ok {A} a.
Arguments Throw {A} e.

(** ** src/types/index.ts *)

Inductive Role : Type := user | assistant | system.

Module ContextMessage.
Record t : Type := mk { role : Role; content : string }.
End ContextMessage.

Module OrchestrationOptions.
Record t : Type := mk {
  maxRounds : option Z;
  temperature : option Q;
  includeReasoning : option bool
}.
End OrchestrationOptions.

(** The options object a provider call receives.  The engine builds it either
    literally or as [{...request.options, model}], so the request's own keys
    travel with it. *)
Module CompletionOptions.
Record t : Type := mk {
  model : option string;
  temperature : option Q;
  maxRounds : option Z;
  includeReasoning : option bool
}.
End CompletionOptions.

Definition OrchestrationStrategy_Sequential : string := "sequential".
Definition OrchestrationStrategy_Parallel : string := "parallel".
Definition OrchestrationStrategy_Debate : string := "debate".
Definition OrchestrationStrategy_Consensus : string := "consensus".
Definition OrchestrationStrategy_Specialist : string := "specialist".

Module OrchestrationRequest.
Record t : Type := mk {
  prompt : string;
  strategy : string;
  models : option (list string);
  options : option OrchestrationOptions.t;
  useContext : option bool
}.
End OrchestrationRequest.

(** Without its [timestamp], which is the wall clock's. *)
Module ProviderResponse.
Record t : Type := mk { model : string; response : string }.
End ProviderResponse.

Module DebateRound.
Record t : Type := mk { round : nat; responses : list ProviderResponse.t }.
End DebateRound.

Module OrchestrationResult.
Record t : Type := mk {
  strategy : string;
  models : list string;
  responses : option (list ProviderResponse.t);
  rounds : option (list DebateRound.t);
  synthesis : option string;
  consensus : option string;
  conclusion : option string;
  conversationId : option string
}.
Definition withConversationId (r : t) (c : string) : t :=
  mk (strategy r) (models r) (responses r) (rounds r) (synthesis r)
     (consensus r) (conclusion r) (Some c).
End OrchestrationResult.

(** The ids of [PROGRAMMING_MODELS], in the order of the table. *)
Definition PROGRAMMING_MODELS_ids : list string :=
  [ "deepseek/deepseek-v3";
    "deepseek/deepseek-r1-0528";
    "anthropic/claude-sonnet-4";
    "google/gemini-2.5-pro";
    "google/gemini-2.5-flash";
    "x-ai/grok-3-beta";
    "openai/gpt-4.1";
    "meta-llama/llama-4-maverick";
    "qwen/qwen-2.5-coder-32b-instruct";
    "mistralai/codestral-2501" ].

(** ** src/db/context-manager.ts *)

Definition Metadata : Type := list (string * JsValue).

Module Message.
Record t : Type := mk {
  id : string;
  conversationId : string;
  role : Role;
  content : string;
  model : option string;
  metadata : option Metadata
}.
End Message.

(** [Omit<Message, 'id' | 'conversationId' | 'timestamp'>]. *)
Module NewMessage.
Record t : Type := mk {
  role : Role;
  content : string;
  model : option string;
  metadata : option Metadata
}.
End NewMessage.

Module Conversation.
Record t : Type := mk { id : string; title : string }.
End Conversation.

Module Summary.
Record t : Type := mk {
  totalConversations : nat;
  totalMessages : nat;
  currentConversationId : string
}.
End Summary.

Module ContextManager.

(** The Redis database: list keys and their elements.  A key that is not
    bound is an empty list, and no key is bound to an empty list. *)
Definition Redis : Type := list (string * list Message.t).

Definition lRange (r : Redis) (key : string) : list Message.t :=
  match assoc r key with
  | Some l => l
  | None => []
  end.

Definition del (r : Redis) (key : string) : Redis :=
  filter (fun kv => negb (String.eqb (fst kv) key)) r.

(** [rPush] of the elements of [l], in order; nothing to push, nothing done. *)
Definition rPush (r : Redis) (key : string) (l : list Message.t) : Redis :=
  match l with
  | [] => r
  | _ :: _ => (key, lRange r key ++ l) :: del r key
  end.

Record t : Type := mk {
  conversations : list Conversation.t;     (* table conversations *)
  messages : list Message.t;               (* table messages, oldest first *)
  redis : Redis;
  currentConversationId : string;
  uuids : nat                              (* how many ids were drawn *)
}.

Definition uuidv4 (cm : t) : string * t :=
  (("uuid-" ++ string_of_nat (uuids cm))%string,
   mk (conversations cm) (messages cm) (redis cm) (currentConversationId cm)
      (S (uuids cm))).

Definition cacheKey (convId : string) : string := ("conversation:" ++ convId)%string.

Definition startNewConversation (title : option string) (cm : t) : string * t :=
  let '(cur, cm1) := uuidv4 cm in
  let title' := match title with
                | Some s => if String.eqb s EmptyString then "New Conversation" else s
                | None => "New Conversation"
                end in
  (cur,
   mk (conversations cm1 ++ [Conversation.mk cur title'])
      (messages cm1)
      (del (redis cm1) (cacheKey cur))
      cur
      (uuids cm1)).

(** A column of type [VARCHAR(n)]: PostgreSQL refuses a value of more than
    [n] characters, unless the characters beyond the [n]-th are all spaces,
    which it cuts off. *)
Definition onlySpaces (s : string) : bool :=
  forallb (Ascii.eqb " "%char) (list_ascii_of_string s).

Definition VARCHAR (n : nat) (value : string) : option string :=
  if (String.length value <=? n)%nat then Some value
  else if onlySpaces (substring n (String.length value - n) value)
       then Some (substring 0 n value)
       else None.

(** What column [model VARCHAR(100)] takes for [message.model || null]:
    [Some None] is [NULL], and [None] is a refused INSERT. *)
Definition modelColumn (model : option string) : option (option string) :=
  match model with
  | Some name =>
      if String.eqb name EmptyString then Some None
      else match VARCHAR 100 name with
           | Some stored => Some (Some stored)
           | None => None
           end
  | None => Some None
  end.

(** The INSERT of [addMessage] goes through. *)
Definition accepts (message : NewMessage.t) : bool :=
  match modelColumn (NewMessage.model message) with
  | Some _ => true
  | None => false
  end.

(** The [DatabaseError] of a refused INSERT. *)
Definition valueTooLong : Exn :=
  DatabaseErrorExn "value too long for type character varying(100)".

(** [addMessage] with an INSERT that goes through; [savedMessage] is the row
    as the table holds it ([RETURNING *]). *)
Definition addMessage (message : NewMessage.t) (cm : t) : Message.t * t :=
  let cm1 := if String.eqb (currentConversationId cm) EmptyString
             then snd (startNewConversation (Some "Auto-created conversation") cm)
             else cm in
  let '(id, cm2) := uuidv4 cm1 in
  let savedMessage :=
    Message.mk id (currentConversationId cm2) (NewMessage.role message)
               (NewMessage.content message)
               match modelColumn (NewMessage.model message) with
               | Some column => column
               | None => None
               end
               (NewMessage.metadata message) in
  let key := cacheKey (currentConversationId cm2) in
  (savedMessage,
   mk (conversations cm2)
      (messages cm2 ++ [savedMessage])
      (rPush (redis cm2) key [savedMessage])
      (currentConversationId cm2)
      (uuids cm2)).

(** [addMessage] with an INSERT that is refused: the conversation was
    created if there was none and the id of the row was drawn; the exception
    leaves the method before the cache and the conversation are touched. *)
Definition addMessageRefused (cm : t) : t :=
  let cm1 := if String.eqb (currentConversationId cm) EmptyString
             then snd (startNewConversation (Some "Auto-created conversation") cm)
             else cm in
  snd (uuidv4 cm1).

Definition getConversationHistory (conversationId : option string) (limit : nat) (cm : t)
  : list Message.t * t :=
  let convId := match conversationId with
                | Some c => if String.eqb c EmptyString then currentConversationId cm else c
                | None => currentConversationId cm
                end in
  let key := cacheKey convId in
  let cached := lRange (redis cm) key in
  match cached with
  | _ :: _ => (cached, cm)
  | [] =>
      let rows :=
        firstn limit
          (filter (fun m => String.eqb (Message.conversationId m) convId) (messages cm)) in
      (rows,
       mk (conversations cm) (messages cm) (rPush (redis cm) key rows)
          (currentConversationId cm) (uuids cm))
  end.

Definition getSummary (cm : t) : Summary.t :=
  Summary.mk (List.length (conversations cm)) (List.length (messages cm))
             (currentConversationId cm).

End ContextManager.

(** ** The world an orchestration runs in *)

Inductive ProviderCall : Type :=
| complete (prompt : string) (options : CompletionOptions.t)
| completeWithContext (messages : list ContextMessage.t) (options : CompletionOptions.t).

(** What an observer of the two collaborators sees, in order: a call of the
    provider, an [addMessage] that returned, an [addMessage] that threw. *)
Inductive Event : Type :=
| ProviderCalled (call : ProviderCall)
| MessageAdded (message : NewMessage.t)
| MessageRefused (message : NewMessage.t).

Record World : Type := mkWorld {
  contextManager : ContextManager.t;
  events : list Event
}.

Definition M (A : Type) : Type := World -> Res A * World.

Definition ret {A} (a : A) : M A := fun w => (Ok a, w).

Definition bind {A B} (m : M A) (k : A -> M B) : M B :=
  fun w =>
    match m w with
    | (Ok a, w') => k a w'
    | (Throw e, w') => (Throw e, w')
    end.

Definition throw {A} (e : Exn) : M A := fun w => (Throw e, w).

(** [try { m } catch { h }]. *)
Definition tryCatch {A} (m : M A) (h : Exn -> M A) : M A :=
  fun w =>
    match m w with
    | (Ok a, w') => (Ok a, w')
    | (Throw e, w') => h e w'
    end.

Definition liftRes {A} (r : Res A) : M A := fun w => (r, w).

Declare Scope engine_scope.
Delimit Scope engine_scope with engine.
Notation "x <- m ;; k" := (bind m (fun x => k))
  (at level 61, m at next level, right associativity) : engine_scope.
Notation "m ;;; k" := (bind m (fun _ => k))
  (at level 61, right associativity) : engine_scope.
Open Scope engine_scope.

(** [Array.prototype.filter(Boolean)] over an array of objects and nulls. *)
Fixpoint filterBoolean {A} (l : list (option A)) : list A :=
  match l with
  | [] => []
  | Some a :: rest => a :: filterBoolean rest
  | None :: rest => filterBoolean rest
  end.

(** The provider calls among the events, oldest first. *)
Fixpoint providerCalls (evs : list Event) : list ProviderCall :=
  match evs with
  | [] => []
  | ProviderCalled c :: rest => c :: providerCalls rest
  | MessageAdded _ :: rest => providerCalls rest
  | MessageRefused _ :: rest => providerCalls rest
  end.

(** The store writes among the events, oldest first. *)
Fixpoint messagesAdded (evs : list Event) : list NewMessage.t :=
  match evs with
  | [] => []
  | ProviderCalled _ :: rest => messagesAdded rest
  | MessageAdded m :: rest => m :: messagesAdded rest
  | MessageRefused _ :: rest => messagesAdded rest
  end.

(** The messages the store refused, oldest first. *)
Fixpoint messagesRefused (evs : list Event) : list NewMessage.t :=
  match evs with
  | [] => []
  | ProviderCalled _ :: rest => messagesRefused rest
  | MessageAdded _ :: rest => messagesRefused rest
  | MessageRefused m :: rest => m :: messagesRefused rest
  end.

(** ** src/orchestrator/engine.ts *)

Module Specialist.
Record t : Type := mk { model : string; reason : string }.
End Specialist.

(** [request.useContext !== false] *)
Definition usesContext (request : OrchestrationRequest.t) : bool :=
  match OrchestrationRequest.useContext request with
  | Some false => false
  | _ => true
  end.

(** [{...request.options, model}] *)
Definition withModel (options : option OrchestrationOptions.t) (model : string)
  : CompletionOptions.t :=
  match options with
  | Some o =>
      CompletionOptions.mk (Some model) (OrchestrationOptions.temperature o)
        (OrchestrationOptions.maxRounds o) (OrchestrationOptions.includeReasoning o)
  | None => CompletionOptions.mk (Some model) None None None
  end.

(** [{ temperature: 0.3, model }] *)
Definition fixedModel (model : string) : CompletionOptions.t :=
  CompletionOptions.mk (Some model) (Some (3 # 10)%Q) None None.

(** [history.forEach(msg => messages.push({role: msg.role, content: msg.content}))] *)
Definition historyMessages (history : list Message.t) : list ContextMessage.t :=
  map (fun msg => ContextMessage.mk (Message.role msg) (Message.content msg)) history.

(** [request.options?.maxRounds] *)
Definition requestedRounds (request : OrchestrationRequest.t) : option Z :=
  match OrchestrationRequest.options request with
  | Some o => OrchestrationOptions.maxRounds o
  | None => None
  end.

(** [request.options?.maxRounds || 3]: zero is falsy. *)
Definition maxRoundsOf (request : OrchestrationRequest.t) : Z :=
  match requestedRounds request with
  | Some z => if (z =? 0)%Z then 3%Z else z
  | None => 3%Z
  end.

(** The prompt the loop of [sequentialProcessing] leaves for the next model. *)
Definition refinementPrompt (prompt model response : string) : string :=
  cat [ "Original prompt: "; prompt; nl; nl;
        "Previous "; model; " response:"; nl; response; nl; nl;
        "Please improve, refine, or add to this response." ].

Definition formatResponses (responses : list ProviderResponse.t) : string :=
  join (cat [nl; nl; "---"; nl; nl])
       (map (fun r => cat [ProviderResponse.model r; ":"; nl; ProviderResponse.response r])
            responses).

Definition synthesisPrompt (responses : list ProviderResponse.t) (originalPrompt : string)
  : string :=
  cat [ "Original question: "; originalPrompt; nl; nl;
        "I have received the following responses from different AI models:"; nl; nl;
        formatResponses responses; nl; nl;
        "Please synthesize these responses into a comprehensive, balanced answer that:"; nl;
        "1. Incorporates the best insights from each model"; nl;
        "2. Resolves any contradictions"; nl;
        "3. Provides a clear, actionable response"; nl;
        "4. Highlights any important considerations or caveats" ].

Definition consensusPrompt (responses : list ProviderResponse.t) (originalPrompt : string)
  : string :=
  cat [ "Original question: "; originalPrompt; nl; nl;
        "Different AI models provided these responses:"; nl; nl;
        formatResponses responses; nl; nl;
        "Analyze these responses and provide:"; nl;
        "1. Common themes and points of agreement"; nl;
        "2. Key differences in approach or content"; nl;
        "3. A consensus view that represents the shared understanding"; nl;
        "4. Any important caveats or considerations" ].

Definition formatRound (round : DebateRound.t) : string :=
  cat [ "Round "; string_of_nat (DebateRound.round round); ":"; nl;
        join (cat [nl; nl])
             (map (fun r => cat [ProviderResponse.model r; ": "; ProviderResponse.response r])
                  (DebateRound.responses round)) ].

Definition formatDebateHistory (rounds : list DebateRound.t) : string :=
  join (cat [nl; nl; "---"; nl; nl]) (map formatRound rounds).

(** The prompt of [debateMode] for a model in round [round] (counted from 0),
    [rounds] being the rounds completed so far. *)
Definition debatePrompt (debateContext : string) (round : nat) (rounds : list DebateRound.t)
  : string :=
  match round with
  | O => debateContext
  | S _ =>
      cat [ debateContext; nl; nl; "Previous responses in the debate:"; nl;
            formatDebateHistory rounds; nl; nl;
            "Provide your perspective, counter-arguments, or refinements:" ]
  end.

Definition conclusionPrompt (rounds : list DebateRound.t) (originalPrompt : string) : string :=
  cat [ "Original topic: "; originalPrompt; nl; nl;
        "Debate history:"; nl;
        formatDebateHistory rounds; nl; nl;
        "Based on this debate, provide a balanced conclusion that:"; nl;
        "1. Summarizes the key points raised by each model"; nl;
        "2. Identifies areas of agreement and disagreement"; nl;
        "3. Provides a well-reasoned final perspective"; nl;
        "4. Suggests the most practical approach or solution" ].

Definition analysisPrompt (prompt : string) : string :=
  cat [ "Analyze this prompt and categorize it:"; nl;
        "    "; dq; prompt; dq; nl;
        "    "; nl;
        "    Categories: coding, debugging, architecture, planning, analysis, creative"; nl;
        "    "; nl;
        "    Respond with: { "; dq; "primary"; dq; ": "; dq; "category"; dq; ", ";
        dq; "secondary"; dq; ": "; dq; "category"; dq; ", ";
        dq; "complexity"; dq; ": "; dq; "low|medium|high"; dq; " }" ].

(** [{ primary: 'coding', secondary: 'general', complexity: 'medium' }] *)
Definition defaultClassification : JsValue :=
  JObj [ ("primary", JStr "coding"); ("secondary", JStr "general");
         ("complexity", JStr "medium") ].

(** *** selectSpecialists *)

Definition specialistMap : list (string * list string) :=
  [ ("coding", ["anthropic/claude-opus-4"; "deepseek/deepseek-r1"; "mistralai/codestral-2501"]);
    ("debugging", ["deepseek/deepseek-r1"; "anthropic/claude-3.5-sonnet"; "openai/gpt-4o"]);
    ("architecture",
      ["anthropic/claude-opus-4"; "openai/gpt-4o"; "google/gemini-2.5-pro-preview"]);
    ("planning",
      ["openai/gpt-4o"; "anthropic/claude-3.5-sonnet"; "google/gemini-2.5-pro-preview"]);
    ("analysis",
      ["google/gemini-2.5-pro-preview"; "anthropic/claude-3.5-sonnet"; "deepseek/deepseek-r1"]);
    ("creative",
      ["anthropic/claude-3.5-sonnet"; "openai/gpt-4o"; "google/gemini-2.5-pro-preview"]) ].

(** What every object literal inherits from [Object.prototype]: functions,
    and the prototype itself under [__proto__].  All are truthy and none can
    be iterated. *)
Definition Object_prototype_keys : list string :=
  [ "constructor"; "hasOwnProperty"; "isPrototypeOf"; "propertyIsEnumerable";
    "toLocaleString"; "toString"; "valueOf"; "__proto__";
    "__defineGetter__"; "__defineSetter__"; "__lookupGetter__"; "__lookupSetter__" ].

Inductive MapEntry : Type :=
| OwnEntry (models : list string)
| InheritedEntry
| NoEntry.

(** [specialistMap[key]] *)
Definition specialistMap_get (key : JsValue) : MapEntry :=
  match assoc specialistMap (toString key) with
  | Some models => OwnEntry models
  | None =>
      if arr_includes Object_prototype_keys (toString key) then InheritedEntry else NoEntry
  end.

(** [analysis.key] for one of the keys [primary], [secondary], [complexity],
    which no prototype defines. *)
Definition getProperty (analysis : JsValue) (key : string) : Res JsValue :=
  match analysis with
  | JNull =>
      Throw (TypeErrorExn (cat ["Cannot read properties of null (reading '"; key; "')"]))
  | JUndefined =>
      Throw (TypeErrorExn (cat ["Cannot read properties of undefined (reading '"; key; "')"]))
  | JObj props =>
      match ownProperty props key with
      | Some v => Ok v
      | None => Ok JUndefined
      end
  | _ => Ok JUndefined
  end.

(** [analysis.complexity === 'high' ? 3 : analysis.complexity === 'medium' ? 2 : 1] *)
Definition numModelsOf (complexity : JsValue) : nat :=
  if strictEqualsString complexity "high" then 3
  else if strictEqualsString complexity "medium" then 2
  else 1.

(** [specialists.find(s => s.model === model)], as a truth value. *)
Definition alreadyChosen (specialists : list Specialist.t) (model : string) : bool :=
  existsb (fun s => String.eqb (Specialist.model s) model) specialists.

Definition addPrimary (availableModels : list string) (numModels : nat) (primary : JsValue)
    (specialists : list Specialist.t) (model : string) : list Specialist.t :=
  if arr_includes availableModels model && (List.length specialists <? numModels)%nat
  then specialists ++ [Specialist.mk model (cat ["Selected for "; toString primary; " tasks"])]
  else specialists.

Definition addSecondary (availableModels : list string) (numModels : nat)
    (secondary : JsValue) (specialists : list Specialist.t) (model : string)
  : list Specialist.t :=
  if arr_includes availableModels model && negb (alreadyChosen specialists model)
     && (List.length specialists <? numModels)%nat
  then specialists ++
       [Specialist.mk model (cat ["Secondary specialist for "; toString secondary])]
  else specialists.

Definition addFallback (availableModels : list string) (specialists : list Specialist.t)
  : list Specialist.t :=
  match specialists, availableModels with
  | [], first :: _ => [Specialist.mk first "Default model"]
  | _, _ => specialists
  end.

(** [specialistMap[analysis.primary] || ['openai/gpt-4o']], when it can be
    iterated. *)
Definition primarySpecialistsOf (primary : JsValue) : list string :=
  match specialistMap_get primary with
  | OwnEntry models => models
  | _ => ["openai/gpt-4o"]
  end.

(** [specialistMap[analysis.secondary] || []], when it can be iterated. *)
Definition secondarySpecialistsOf (secondary : JsValue) : list string :=
  match specialistMap_get secondary with
  | OwnEntry models => models
  | _ => []
  end.

Definition selectSpecialists (analysis : JsValue) (availableModels : list string)
  : Res (list Specialist.t) :=
  match getProperty analysis "primary",
        getProperty analysis "secondary",
        getProperty analysis "complexity" with
  | Ok primary, Ok secondary, Ok complexity =>
      let numModels := numModelsOf complexity in
      match specialistMap_get primary, specialistMap_get secondary with
      | InheritedEntry, _ => Throw (TypeErrorExn "primarySpecialists is not iterable")
      | _, InheritedEntry => Throw (TypeErrorExn "secondarySpecialists is not iterable")
      | _, _ =>
          let specialists :=
            fold_left (addPrimary availableModels numModels primary)
                      (primarySpecialistsOf primary) [] in
          let specialists' :=
            fold_left (addSecondary availableModels numModels secondary)
                      (secondarySpecialistsOf secondary) specialists in
          Ok (addFallback availableModels specialists')
      end
  | Throw e, _, _ => Throw e
  | _, Throw e, _ => Throw e
  | _, _, Throw e => Throw e
  end.

Definition userMessage (content : string) : NewMessage.t :=
  NewMessage.mk user content None None.

Definition assistantMessage (content model : string) (metadata : option Metadata)
  : NewMessage.t :=
  NewMessage.mk assistant content (Some model) metadata.

(** [{ models: models.join(', ') }] *)
Definition modelsMetadata (models : list string) : Metadata :=
  [("models", JStr (join ", " models))].

Section Engine.

(** The provider behind [this.provider]: its answer to a call, given the
    events before it. *)
Variable provider : list Event -> ProviderCall -> Res string.

(** [JSON.parse]: a value, or a [SyntaxError]. *)
Variable JSON_parse : string -> Res JsValue.

Definition callProvider (call : ProviderCall) : M string :=
  fun w =>
    (provider (events w) call,
     mkWorld (contextManager w) (events w ++ [ProviderCalled call])).

Definition contextManager_addMessage (message : NewMessage.t) : M Message.t :=
  fun w =>
    if ContextManager.accepts message then
      let '(saved, cm) := ContextManager.addMessage message (contextManager w) in
      (Ok saved, mkWorld cm (events w ++ [MessageAdded message]))
    else
      (Throw ContextManager.valueTooLong,
       mkWorld (ContextManager.addMessageRefused (contextManager w))
               (events w ++ [MessageRefused message])).

Definition contextManager_getConversationHistory : M (list Message.t) :=
  fun w =>
    let '(history, cm) :=
      ContextManager.getConversationHistory None 50 (contextManager w) in
    (Ok history, mkWorld cm (events w)).

Definition contextManager_getSummary : M Summary.t :=
  fun w => (Ok (ContextManager.getSummary (contextManager w)), w).

(** [if (cond) { await m }] *)
Definition when (cond : bool) (m : M Message.t) : M unit :=
  if cond then m ;;; ret tt else ret tt.

(** The history both [sequentialProcessing] and [parallelProcessing] start
    from. *)
Definition readHistory (request : OrchestrationRequest.t) : M (list Message.t) :=
  if usesContext request then contextManager_getConversationHistory else ret [].

(** *** sequentialProcessing *)

Fixpoint sequentialLoop (request : OrchestrationRequest.t) (history : list Message.t)
    (models : list string) (currentPrompt : string)
    (responses : list ProviderResponse.t) : M (list ProviderResponse.t) :=
  match models with
  | [] => ret responses
  | model :: rest =>
      let messages :=
        historyMessages history ++ [ContextMessage.mk user currentPrompt] in
      response <- callProvider
                    (completeWithContext messages
                       (withModel (OrchestrationRequest.options request) model)) ;;
      let responses' := responses ++ [ProviderResponse.mk model response] in
      when (usesContext request)
           (contextManager_addMessage (assistantMessage response model None)) ;;;
      sequentialLoop request history rest
        (refinementPrompt (OrchestrationRequest.prompt request) model response)
        responses'
  end.

Definition sequentialProcessing (request : OrchestrationRequest.t) (models : list string)
  : M OrchestrationResult.t :=
  history <- readHistory request ;;
  responses <- sequentialLoop request history models
                 (OrchestrationRequest.prompt request) [] ;;
  ret (OrchestrationResult.mk OrchestrationStrategy_Sequential models (Some responses)
         None None None None None).

(** *** parallelProcessing

    The arrow functions of [models.map] run, one after the other, up to
    their provider call, so the calls are issued in list order;
    [Promise.all] hands back the outcomes in list order however they
    settle. *)

Definition parallelCall (request : OrchestrationRequest.t) (history : list Message.t)
    (model : string) : M (option ProviderResponse.t) :=
  tryCatch
    (let messages :=
       historyMessages history
         ++ [ContextMessage.mk user (OrchestrationRequest.prompt request)] in
     response <- callProvider
                   (completeWithContext messages
                      (withModel (OrchestrationRequest.options request) model)) ;;
     ret (Some (ProviderResponse.mk model response)))
    (fun _ => ret None).

Fixpoint promiseAll {A B} (f : A -> M B) (l : list A) : M (list B) :=
  match l with
  | [] => ret []
  | a :: rest =>
      b <- f a ;;
      bs <- promiseAll f rest ;;
      ret (b :: bs)
  end.

Definition synthesizeResponses (responses : list ProviderResponse.t)
    (originalPrompt : string) : M string :=
  callProvider (complete (synthesisPrompt responses originalPrompt)
                  (fixedModel "anthropic/claude-3.5-sonnet")).

Definition parallelProcessing (request : OrchestrationRequest.t) (models : list string)
  : M OrchestrationResult.t :=
  history <- readHistory request ;;
  outcomes <- promiseAll (parallelCall request history) models ;;
  let responses := filterBoolean outcomes in
  synthesis <- synthesizeResponses responses (OrchestrationRequest.prompt request) ;;
  when (usesContext request && negb (String.eqb synthesis EmptyString))
       (contextManager_addMessage
          (assistantMessage synthesis "synthesis" (Some (modelsMetadata models)))) ;;;
  ret (OrchestrationResult.mk OrchestrationStrategy_Parallel models (Some responses)
         None (Some synthesis) None None None).

(** *** debateMode *)

Fixpoint debateRound (request : OrchestrationRequest.t) (debateContext : string)
    (round : nat) (rounds : list DebateRound.t) (models : list string)
    (roundResponses : list ProviderResponse.t) : M (list ProviderResponse.t) :=
  match models with
  | [] => ret roundResponses
  | model :: rest =>
      let prompt := debatePrompt debateContext round rounds in
      response <- callProvider
                    (complete prompt
                       (withModel (OrchestrationRequest.options request) model)) ;;
      debateRound request debateContext round rounds rest
        (roundResponses ++ [ProviderResponse.mk model response])
  end.

(** [for (let round = ...; round < maxRounds; round++)], with [todo] rounds
    still to run. *)
Fixpoint debateLoop (request : OrchestrationRequest.t) (debateContext : string)
    (models : list string) (todo : nat) (round : nat) (rounds : list DebateRound.t)
  : M (list DebateRound.t) :=
  match todo with
  | O => ret rounds
  | S todo' =>
      roundResponses <- debateRound request debateContext round rounds models [] ;;
      debateLoop request debateContext models todo' (S round)
        (rounds ++ [DebateRound.mk (round + 1) roundResponses])
  end.

Definition generateDebateConclusion (rounds : list DebateRound.t)
    (originalPrompt : string) : M string :=
  callProvider (complete (conclusionPrompt rounds originalPrompt)
                  (fixedModel "openai/gpt-4o")).

Definition debateMode (request : OrchestrationRequest.t) (models : list string)
  : M OrchestrationResult.t :=
  let maxRounds := maxRoundsOf request in
  let debateContext := OrchestrationRequest.prompt request in
  rounds <- debateLoop request debateContext models (Z.to_nat maxRounds) 0 [] ;;
  conclusion <- generateDebateConclusion rounds (OrchestrationRequest.prompt request) ;;
  when (usesContext request)
       (contextManager_addMessage
          (assistantMessage conclusion "debate-conclusion"
             (Some [ ("models", JStr (join ", " models));
                     ("rounds", JNum (string_of_Z maxRounds)) ]))) ;;;
  ret (OrchestrationResult.mk OrchestrationStrategy_Debate models None (Some rounds)
         None None (Some conclusion) None).

(** *** consensusMode *)

Definition findConsensus (responses : list ProviderResponse.t) (originalPrompt : string)
  : M string :=
  callProvider (complete (consensusPrompt responses originalPrompt)
                  (fixedModel "google/gemini-2.5-pro-preview")).

Definition consensusMode (request : OrchestrationRequest.t) (models : list string)
  : M OrchestrationResult.t :=
  parallelResult <- parallelProcessing request models ;;
  let responses :=
    match OrchestrationResult.responses parallelResult with
    | Some l => l
    | None => []
    end in
  consensus <- findConsensus responses (OrchestrationRequest.prompt request) ;;
  when (usesContext request)
       (contextManager_addMessage
          (assistantMessage consensus "consensus" (Some (modelsMetadata models)))) ;;;
  ret (OrchestrationResult.mk OrchestrationStrategy_Consensus models (Some responses)
         None None (Some consensus) None None).

(** *** specialistRouting *)

Definition analyzePromptType (prompt : string) : M JsValue :=
  response <- callProvider
                (complete (analysisPrompt prompt) (fixedModel "openai/gpt-4o-mini")) ;;
  tryCatch (liftRes (JSON_parse response)) (fun _ => ret defaultClassification).

Fixpoint specialistLoop (request : OrchestrationRequest.t)
    (specialists : list Specialist.t) (responses : list ProviderResponse.t)
  : M (list ProviderResponse.t) :=
  match specialists with
  | [] => ret responses
  | specialist :: rest =>
      response <- callProvider
                    (complete (OrchestrationRequest.prompt request)
                       (withModel (OrchestrationRequest.options request)
                          (Specialist.model specialist))) ;;
      let responses' :=
        responses ++ [ProviderResponse.mk (Specialist.model specialist) response] in
      when (usesContext request)
           (contextManager_addMessage
              (assistantMessage response (Specialist.model specialist)
                 (Some [("reason", JStr (Specialist.reason specialist))]))) ;;;
      specialistLoop request rest responses'
  end.

Definition specialistRouting (request : OrchestrationRequest.t) (models : list string)
  : M OrchestrationResult.t :=
  analysis <- analyzePromptType (OrchestrationRequest.prompt request) ;;
  specialists <- liftRes (selectSpecialists analysis models) ;;
  responses <- specialistLoop request specialists [] ;;
  ret (OrchestrationResult.mk OrchestrationStrategy_Specialist
         (map Specialist.model specialists) (Some responses) None None None None None).

(** *** orchestrate *)

(** [this.defaultModels = PROGRAMMING_MODELS.map(m => m.id)] *)
Definition defaultModels : list string := PROGRAMMING_MODELS_ids.

(** [request.models || this.defaultModels.slice(0, 3)]: an array, empty or
    not, is truthy. *)
Definition modelsOf (request : OrchestrationRequest.t) : list string :=
  match OrchestrationRequest.models request with
  | Some models => models
  | None => firstn 3 defaultModels
  end.

Definition unknownStrategy (strategy : string) : Exn :=
  ErrorExn (cat ["Unknown orchestration strategy: "; strategy]).

Definition dispatch (request : OrchestrationRequest.t) (models : list string)
  : M OrchestrationResult.t :=
  let strategy := OrchestrationRequest.strategy request in
  if String.eqb strategy OrchestrationStrategy_Sequential then
    sequentialProcessing request models
  else if String.eqb strategy OrchestrationStrategy_Parallel then
    parallelProcessing request models
  else if String.eqb strategy OrchestrationStrategy_Debate then
    debateMode request models
  else if String.eqb strategy OrchestrationStrategy_Consensus then
    consensusMode request models
  else if String.eqb strategy OrchestrationStrategy_Specialist then
    specialistRouting request models
  else throw (unknownStrategy strategy).

Definition orchestrate (request : OrchestrationRequest.t) : M OrchestrationResult.t :=
  let models := modelsOf request in
  when (usesContext request)
       (contextManager_addMessage (userMessage (OrchestrationRequest.prompt request))) ;;;
  result <- dispatch request models ;;
  summary <- contextManager_getSummary ;;
  ret (OrchestrationResult.withConversationId result
         (Summary.currentConversationId summary)).

End Engine.

(** ** Observations on a run *)

(** The five values of the enum [OrchestrationStrategy]. *)
Definition OrchestrationStrategy_values : list string :=
  [ OrchestrationStrategy_Sequential; OrchestrationStrategy_Parallel;
    OrchestrationStrategy_Debate; OrchestrationStrategy_Consensus;
    OrchestrationStrategy_Specialist ].

(** A computation that leaves the context store as it found it and adds no
    message. *)
Definition storeFrame {A} (m : M A) : Prop :=
  forall w,
    contextManager (snd (m w)) = contextManager w /\
    messagesAdded (events (snd (m w))) = messagesAdded (events w).

(** The answers of a provider to a batch of calls issued one after the other,
    the first of them after the events [evs]. *)
Fixpoint providerOutcomes (provider : list Event -> ProviderCall -> Res string)
    (evs : list Event) (calls : list ProviderCall) : list (Res string) :=
  match calls with
  | [] => []
  | call :: rest =>
      provider evs call :: providerOutcomes provider (evs ++ [ProviderCalled call]) rest
  end.

(** What [parallelProcessing] keeps of the answers to its per-model calls. *)
Fixpoint successes (models : list string) (outcomes : list (Res string))
  : list ProviderResponse.t :=
  match models, outcomes with
  | model :: models', Ok response :: outcomes' =>
      ProviderResponse.mk model response :: successes models' outcomes'
  | _ :: models', Throw _ :: outcomes' => successes models' outcomes'
  | _, _ => []
  end.

Definition failed {A} (r : Res A) : bool :=
  match r with Ok _ => false | Throw _ => true end.

(** How many of the answers are failures. *)
Definition failures (outcomes : list (Res string)) : nat :=
  List.length (filter failed outcomes).

(** The per-model call of [parallelProcessing]. *)
Definition parallelRequestOf (request : OrchestrationRequest.t) (history : list Message.t)
    (model : string) : ProviderCall :=
  completeWithContext
    (historyMessages history
       ++ [ContextMessage.mk user (OrchestrationRequest.prompt request)])
    (withModel (OrchestrationRequest.options request) model).

(** The world in which the strategy of an [orchestrate] call starts. *)
Definition afterUserMessage (request : OrchestrationRequest.t) (w : World) : World :=
  if usesContext request then
    mkWorld
      (snd (ContextManager.addMessage (userMessage (OrchestrationRequest.prompt request))
              (contextManager w)))
      (events w ++ [MessageAdded (userMessage (OrchestrationRequest.prompt request))])
  else w.

(** The history [sequentialProcessing] and [parallelProcessing] read, once,
    in the world [w], and the world the reading leaves (the cache may have
    been filled). *)
Definition historyAt (request : OrchestrationRequest.t) (w : World) : list Message.t :=
  if usesContext request then
    fst (ContextManager.getConversationHistory None 50 (contextManager w))
  else [].

Definition afterRead (request : OrchestrationRequest.t) (w : World) : World :=
  if usesContext request then
    mkWorld (snd (ContextManager.getConversationHistory None 50 (contextManager w)))
            (events w)
  else w.

(** The history an [orchestrate] call in the world [w] reads, after it has
    stored the prompt and before the first provider call. *)
Definition historySnapshot (request : OrchestrationRequest.t) (w : World)
  : list Message.t :=
  historyAt request (afterUserMessage request w).

(** The message list of a call of [sequentialProcessing]. *)
Definition sequentialMessages (history : list Message.t) (currentPrompt : string)
  : list ContextMessage.t :=
  historyMessages history ++ [ContextMessage.mk user currentPrompt].

(** The events of the loop of [sequentialProcessing] with the store in use:
    for each model its call, then the write of its response. *)
Fixpoint sequentialEvents (request : OrchestrationRequest.t) (history : list Message.t)
    (currentPrompt : string) (responses : list ProviderResponse.t) : list Event :=
  match responses with
  | [] => []
  | r :: rest =>
      ProviderCalled
        (completeWithContext (sequentialMessages history currentPrompt)
           (withModel (OrchestrationRequest.options request) (ProviderResponse.model r)))
      :: MessageAdded
           (assistantMessage (ProviderResponse.response r) (ProviderResponse.model r) None)
      :: sequentialEvents request history
           (refinementPrompt (OrchestrationRequest.prompt request)
              (ProviderResponse.model r) (ProviderResponse.response r))
           rest
  end.


(** The calls of round [round] of a debate whose rounds are [rounds]. *)
Definition debateRoundCalls (request : OrchestrationRequest.t) (models : list string)
    (rounds : list DebateRound.t) (round : nat) : list Event :=
  map (fun model =>
         ProviderCalled
           (complete
              (debatePrompt (OrchestrationRequest.prompt request) round (firstn round rounds))
              (withModel (OrchestrationRequest.options request) model)))
      models.

(** What [Promise.all] hands back for the per-model calls: an object for an
    answer, [null] for a failure. *)
Fixpoint settled (models : list string) (outcomes : list (Res string))
  : list (option ProviderResponse.t) :=
  match models, outcomes with
  | model :: models', Ok response :: outcomes' =>
      Some (ProviderResponse.mk model response) :: settled models' outcomes'
  | _ :: models', Throw _ :: outcomes' => None :: settled models' outcomes'
  | _, _ => []
  end.

(** The per-model calls of a parallel [orchestrate] call in the world [w],
    the provider's answers to them, and its answer to the synthesis call that
    follows. *)
Definition parallelCalls (request : OrchestrationRequest.t) (w : World)
  : list ProviderCall :=
  map (parallelRequestOf request (historySnapshot request w)) (modelsOf request).

Definition parallelOutcomes (provider : list Event -> ProviderCall -> Res string)
    (request : OrchestrationRequest.t) (w : World) : list (Res string) :=
  providerOutcomes provider (events (afterUserMessage request w))
    (parallelCalls request w).

Definition synthesisCall (provider : list Event -> ProviderCall -> Res string)
    (request : OrchestrationRequest.t) (w : World) : ProviderCall :=
  complete
    (synthesisPrompt (successes (modelsOf request) (parallelOutcomes provider request w))
       (OrchestrationRequest.prompt request))
    (fixedModel "anthropic/claude-3.5-sonnet").

Definition synthesisOutcome (provider : list Event -> ProviderCall -> Res string)
    (request : OrchestrationRequest.t) (w : World) : Res string :=
  provider
    (events (afterUserMessage request w) ++ map ProviderCalled (parallelCalls request w))
    (synthesisCall provider request w).

(** The world right after the synthesis call of a parallel [orchestrate]
    call, and the world once a synthesis text has been dealt with. *)
Definition afterSynthesisCall (provider : list Event -> ProviderCall -> Res string)
    (request : OrchestrationRequest.t) (w : World) : World :=
  mkWorld
    (contextManager (afterRead request (afterUserMessage request w)))
    (events (afterUserMessage request w)
       ++ map ProviderCalled (parallelCalls request w)
       ++ [ProviderCalled (synthesisCall provider request w)]).

Definition afterSynthesis (provider : list Event -> ProviderCall -> Res string)
    (request : OrchestrationRequest.t) (w : World) (synthesis : string) : World :=
  if usesContext request && negb (String.eqb synthesis EmptyString) then
    mkWorld
      (snd (ContextManager.addMessage
              (assistantMessage synthesis "synthesis"
                 (Some (modelsMetadata (modelsOf request))))
              (contextManager (afterSynthesisCall provider request w))))
      (events (afterSynthesisCall provider request w)
         ++ [MessageAdded
               (assistantMessage synthesis "synthesis"
                  (Some (modelsMetadata (modelsOf request))))])
  else afterSynthesisCall provider request w.

(** The message [debateMode] stores for a conclusion. *)
Definition conclusionMessage (request : OrchestrationRequest.t) (models : list string)
    (conclusion : string) : NewMessage.t :=
  assistantMessage conclusion "debate-conclusion"
    (Some [ ("models", JStr (join ", " models));
            ("rounds", JNum (string_of_Z (maxRoundsOf request))) ]).

(** What the two loops of [selectSpecialists] keep true of [specialists]. *)
Definition withinSelection (availableModels : list string) (numModels : nat)
    (specialists : list Specialist.t) : Prop :=
  List.length specialists <= numModels
  /\ forall s, In s specialists -> In (Specialist.model s) availableModels.

(** A provider that answers every call. *)
Definition alwaysAnswers (provider : list Event -> ProviderCall -> Res string) : Prop :=
  forall evs call, exists text, provider evs call = Ok text.

(** ** A reader for a subset of JSON

    An instance of the [JSON.parse] oracle for the examples below: the three
    literals, strings without [\u] escapes, integers of at most 15 digits,
    arrays and objects.  It throws on every text that is not JSON. *)

Module JsonSubset.

Definition code (c : ascii) : nat := nat_of_ascii c.

Definition isWhitespace (c : ascii) : bool :=
  (code c =? 32)%nat || (code c =? 9)%nat || (code c =? 10)%nat || (code c =? 13)%nat.

Definition isDigit (c : ascii) : bool :=
  (48 <=? code c)%nat && (code c <=? 57)%nat.

Fixpoint skipWhitespace (s : string) : string :=
  match s with
  | String c s' => if isWhitespace c then skipWhitespace s' else s
  | EmptyString => EmptyString
  end.

Fixpoint dropChars (n : nat) (s : string) : string :=
  match n, s with
  | S n', String _ s' => dropChars n' s'
  | _, _ => s
  end.

Fixpoint takeDigits (s : string) : string * string :=
  match s with
  | String c s' =>
      if isDigit c
      then let '(digits, rest) := takeDigits s' in (String c digits, rest)
      else (EmptyString, s)
  | EmptyString => (EmptyString, EmptyString)
  end.

(** An integer; the value is kept as the text that printing it gives, so
    minus zero is kept as zero. *)
Definition readNumber (s : string) : option (JsValue * string) :=
  let '(negative, s1) :=
    match s with
    | String c s' => if (code c =? 45)%nat then (true, s') else (false, s)
    | EmptyString => (false, s)
    end in
  let '(digits, rest) := takeDigits s1 in
  let followed :=
    match rest with
    | String c _ => (code c =? 46)%nat || (code c =? 101)%nat || (code c =? 69)%nat
    | EmptyString => false
    end in
  match digits with
  | EmptyString => None
  | String d more =>
      if (code d =? 48)%nat && negb (String.eqb more EmptyString) then None
      else if (15 <? String.length digits)%nat then None
      else if followed then None
      else if negative && negb (String.eqb digits "0")
           then Some (JNum (String (ascii_of_nat 45) digits), rest)
           else Some (JNum digits, rest)
  end.

Definition unescape (c : ascii) : option ascii :=
  let n := code c in
  if (n =? 34)%nat || (n =? 92)%nat || (n =? 47)%nat then Some c
  else if (n =? 98)%nat then Some (ascii_of_nat 8)
  else if (n =? 102)%nat then Some (ascii_of_nat 12)
  else if (n =? 110)%nat then Some (ascii_of_nat 10)
  else if (n =? 114)%nat then Some (ascii_of_nat 13)
  else if (n =? 116)%nat then Some (ascii_of_nat 9)
  else None.

(** The rest of a string literal, after its opening quote. *)
Fixpoint readString (s : string) : option (string * string) :=
  match s with
  | EmptyString => None
  | String c s' =>
      if (code c =? 34)%nat then Some (EmptyString, s')
      else if (code c =? 92)%nat then
        match s' with
        | String e s'' =>
            match unescape e, readString s'' with
            | Some ch, Some (text, rest) => Some (String ch text, rest)
            | _, _ => None
            end
        | EmptyString => None
        end
      else if (code c <? 32)%nat then None
      else
        match readString s' with
        | Some (text, rest) => Some (String c text, rest)
        | None => None
        end
  end.

Fixpoint readValue (fuel : nat) (s : string) : option (JsValue * string) :=
  match fuel with
  | O => None
  | S fuel' =>
      match skipWhitespace s with
      | EmptyString => None
      | String c s' =>
          let s0 := String c s' in
          if (code c =? 34)%nat then
            match readString s' with
            | Some (text, rest) => Some (JStr text, rest)
            | None => None
            end
          else if (code c =? 91)%nat then
            match skipWhitespace s' with
            | String c2 s2 =>
                if (code c2 =? 93)%nat then Some (JArr [], s2)
                else readElements fuel' s' []
            | EmptyString => None
            end
          else if (code c =? 123)%nat then
            match skipWhitespace s' with
            | String c2 s2 =>
                if (code c2 =? 125)%nat then Some (JObj [], s2)
                else readMembers fuel' s' []
            | EmptyString => None
            end
          else if startsWith s0 "null" then Some (JNull, dropChars 4 s0)
          else if startsWith s0 "true" then Some (JBool true, dropChars 4 s0)
          else if startsWith s0 "false" then Some (JBool false, dropChars 5 s0)
          else readNumber s0
      end
  end

with readElements (fuel : nat) (s : string) (acc : list JsValue)
  : option (JsValue * string) :=
  match fuel with
  | O => None
  | S fuel' =>
      match readValue fuel' s with
      | Some (v, rest) =>
          match skipWhitespace rest with
          | String c rest' =>
              if (code c =? 44)%nat then readElements fuel' rest' (acc ++ [v])
              else if (code c =? 93)%nat then Some (JArr (acc ++ [v]), rest')
              else None
          | EmptyString => None
          end
      | None => None
      end
  end

with readMembers (fuel : nat) (s : string) (acc : list (string * JsValue))
  : option (JsValue * string) :=
  match fuel with
  | O => None
  | S fuel' =>
      match skipWhitespace s with
      | String c s' =>
          if (code c =? 34)%nat then
            match readString s' with
            | Some (key, rest) =>
                match skipWhitespace rest with
                | String c2 rest2 =>
                    if (code c2 =? 58)%nat then
                      match readValue fuel' rest2 with
                      | Some (v, rest3) =>
                          match skipWhitespace rest3 with
                          | String c3 rest4 =>
                              if (code c3 =? 44)%nat
                              then readMembers fuel' rest4 (acc ++ [(key, v)])
                              else if (code c3 =? 125)%nat
                              then Some (JObj (acc ++ [(key, v)]), rest4)
                              else None
                          | EmptyString => None
                          end
                      | None => None
                      end
                    else None
                | EmptyString => None
                end
            | None => None
            end
          else None
      | EmptyString => None
      end
  end.

Definition parse (text : string) : Res JsValue :=
  match readValue (2 * String.length text + 2) text with
  | Some (v, rest) =>
      match skipWhitespace rest with
      | EmptyString => Ok v
      | String _ _ => Throw (SyntaxErrorExn "Unexpected non-whitespace character after JSON")
      end
  | None => Throw (SyntaxErrorExn "Unexpected token in JSON")
  end.

End JsonSubset.

(** ** Worlds, providers and requests of the examples *)

Module Examples.

(** A store as [initialize] leaves it on an empty database. *)
Definition store0 : ContextManager.t :=
  ContextManager.mk [Conversation.mk "uuid-0" "Default conversation"] []
    [] "uuid-0" 1.

Definition world0 : World := mkWorld store0 [].

Definition modelOfCall (call : ProviderCall) : option string :=
  match call with
  | complete _ options => CompletionOptions.model options
  | completeWithContext _ options => CompletionOptions.model options
  end.

(** A provider whose answer depends on the model asked. *)
Definition answerBy (answers : list (string * Res string)) (otherwise : Res string)
  : list Event -> ProviderCall -> Res string :=
  fun _ call =>
    match modelOfCall call with
    | Some model =>
        match assoc answers model with
        | Some answer => answer
        | None => otherwise
        end
    | None => otherwise
    end.

Definition request (prompt strategy : string) (models : option (list string))
    (useContext : option bool) : OrchestrationRequest.t :=
  OrchestrationRequest.mk prompt strategy models None useContext.

Definition greek : list Event -> ProviderCall -> Res string :=
  answerBy [ ("A", Ok "ALPHA"); ("B", Ok "BETA"); ("C", Ok "GAMMA") ] (Ok "OMEGA").

Definition unavailable : Exn := ErrorExn "OpenRouter completion failed: 503".

(** A model name of 101 characters, one more than column [model] takes. *)
Definition longName : string :=
  cat [ "provider-with-a-long-name/"; "model-with-a-long-name-";
        "0123456789012345678901234567890123456789012345678901" ].

(** Every model answers, except the one [synthesizeResponses] asks. *)
Definition noSynthesis : list Event -> ProviderCall -> Res string :=
  answerBy [ ("A", Ok "ALPHA"); ("B", Ok "BETA");
             ("anthropic/claude-3.5-sonnet", Throw unavailable) ] (Ok "OMEGA").

(** Model B is down. *)
Definition withoutB : list Event -> ProviderCall -> Res string :=
  answerBy [ ("A", Ok "ALPHA"); ("B", Throw unavailable); ("C", Ok "GAMMA") ] (Ok "OMEGA").

(** The classifier answers in prose. *)
Definition proseClassifier : list Event -> ProviderCall -> Res string :=
  answerBy [ ("openai/gpt-4o-mini", Ok "This looks like a coding task.") ] (Ok "OMEGA").

(** The classifier answers [null]: JSON, but not the object it was asked
    for. *)
Definition nullClassifier : list Event -> ProviderCall -> Res string :=
  answerBy [ ("openai/gpt-4o-mini", Ok "null") ] (Ok "OMEGA").

(** The classifier answers with the object it was asked for. *)
Definition jsonClassifier : list Event -> ProviderCall -> Res string :=
  answerBy
    [ ("openai/gpt-4o-mini",
       Ok (cat [ "{ "; dq; "primary"; dq; ": "; dq; "debugging"; dq; ", ";
                 dq; "secondary"; dq; ": "; dq; "planning"; dq; ", ";
                 dq; "complexity"; dq; ": "; dq; "high"; dq; " }" ])) ]
    (Ok "OMEGA").

(** The result of a run that returned one. *)
Definition resultOf (run : Res OrchestrationResult.t * World) : OrchestrationResult.t :=
  match fst run with
  | Ok result => result
  | Throw _ =>
      OrchestrationResult.mk EmptyString [] None None None None None None
  end.

Definition sequentialABC : OrchestrationRequest.t :=
  request "p" "sequential" (Some ["A"; "B"; "C"]) None.

Definition debateAB (rounds : Z) : OrchestrationRequest.t :=
  OrchestrationRequest.mk "p" "debate" (Some ["A"; "B"])
    (Some (OrchestrationOptions.mk (Some rounds) None None)) (Some false).

End Examples.

(** ** Sequences of store operations *)

(** [addMessage] called for each message of a list, in order: the rows saved
    and the store left. *)
Fixpoint addMessages (messages : list NewMessage.t) (cm : ContextManager.t)
  : list Message.t * ContextManager.t :=
  match messages with
  | [] => ([], cm)
  | message :: rest =>
      let '(saved, cm1) := ContextManager.addMessage message cm in
      let '(rows, cm2) := addMessages rest cm1 in
      (saved :: rows, cm2)
  end.

(** The rows of a conversation in the table of messages, oldest first. *)
Definition rowsOf (convId : string) (cm : ContextManager.t) : list Message.t :=
  filter (fun m => String.eqb (Message.conversationId m) convId)
         (ContextManager.messages cm).

(** The cached list of the current conversation. *)
Definition cachedHistory (cm : ContextManager.t) : list Message.t :=
  ContextManager.lRange (ContextManager.redis cm)
    (ContextManager.cacheKey (ContextManager.currentConversationId cm)).

Module StoreExamples.

Definition row (id content : string) : Message.t :=
  Message.mk id "uuid-0" user content None None.

(** A store whose table holds two rows of the current conversation and whose
    cache holds nothing, as after the cache key has expired. *)
Definition expired : ContextManager.t :=
  ContextManager.mk [Conversation.mk "uuid-0" "Default conversation"]
    [row "uuid-1" "first"; row "uuid-2" "second"] [] "uuid-0" 3.

(** A store with no current conversation. *)
Definition noConversation : ContextManager.t :=
  ContextManager.mk [] [] [] EmptyString 0.

Definition three : list NewMessage.t :=
  [userMessage "one"; userMessage "two"; userMessage "three"].

End StoreExamples.

(** ** Relations between the world before and after a computation *)

(** A computation that takes every world to a world related to it by [R],
    whether it returns or throws. *)
Definition preserves (R : World -> World -> Prop) {A} (m : M A) : Prop :=
  forall w, R w (snd (m w)).

(** Every exception of the computation satisfies [P]. *)
Definition throwsOnly (P : Exn -> Prop) {A} (m : M A) : Prop :=
  forall w e w', m w = (Throw e, w') -> P e.

(** The store follows the trace: the table of messages of [w'] is that of [w]
    with rows appended, one for each [addMessage] that returned between [w]
    and [w'], in order, with its role and content, and none for an
    [addMessage] that threw, which was given a message the store does not
    accept; and a conversation that is current in [w] is still the current
    one, no conversation was recorded, and the rows are filed under it. *)
Definition storedAsTraced (w w' : World) : Prop :=
  exists rows added refused,
    ContextManager.messages (contextManager w')
    = ContextManager.messages (contextManager w) ++ rows
    /\ messagesAdded (events w') = messagesAdded (events w) ++ added
    /\ messagesRefused (events w') = messagesRefused (events w) ++ refused
    /\ map (fun r => (Message.role r, Message.content r)) rows
       = map (fun m => (NewMessage.role m, NewMessage.content m)) added
    /\ Forall (fun m => ContextManager.accepts m = true) added
    /\ Forall (fun m => ContextManager.accepts m = false) refused
    /\ (ContextManager.currentConversationId (contextManager w) <> EmptyString ->
        ContextManager.currentConversationId (contextManager w')
        = ContextManager.currentConversationId (contextManager w)
        /\ ContextManager.conversations (contextManager w')
           = ContextManager.conversations (contextManager w)
        /\ Forall (fun r => Message.conversationId r
                            = ContextManager.currentConversationId (contextManager w))
                  rows).

(** The name of a model does not fit column [model]. *)
Definition tooLong (model : string) : Prop :=
  ContextManager.modelColumn (Some model) = None.

(** What can escape [orchestrate]: the error of the [default] branch, a
    [TypeError] of [selectSpecialists], what the provider threw, or, with the
    store in use, the [DatabaseError] for a model of the request whose name
    does not fit its column. *)
Definition escapes (provider : list Event -> ProviderCall -> Res string)
    (request : OrchestrationRequest.t) (e : Exn) : Prop :=
  e = unknownStrategy (OrchestrationRequest.strategy request)
  \/ (exists analysis message,
        selectSpecialists analysis (modelsOf request) = Throw e
        /\ e = TypeErrorExn message)
  \/ (exists evs call, provider evs call = Throw e)
  \/ (e = ContextManager.valueTooLong
      /\ usesContext request = true
      /\ exists model, In model (modelsOf request) /\ tooLong model).

(** The prompt the loop of [sequentialProcessing] holds after the responses
    [done], having started from [currentPrompt]. *)
Fixpoint promptAfter (request : OrchestrationRequest.t) (currentPrompt : string)
    (done : list ProviderResponse.t) : string :=
  match done with
  | [] => currentPrompt
  | r :: rest =>
      promptAfter request
        (refinementPrompt (OrchestrationRequest.prompt request)
           (ProviderResponse.model r) (ProviderResponse.response r))
        rest
  end.

(** The call of [sequentialProcessing] for [model] after the responses
    [done]. *)
Definition sequentialCall (request : OrchestrationRequest.t) (history : list Message.t)
    (done : list ProviderResponse.t) (model : string) : ProviderCall :=
  completeWithContext
    (sequentialMessages history
       (promptAfter request (OrchestrationRequest.prompt request) done))
    (withModel (OrchestrationRequest.options request) model).

(** The messages [sequentialProcessing] stores for the responses [done]. *)
Definition responseMessages (done : list ProviderResponse.t) : list NewMessage.t :=
  map (fun r => assistantMessage (ProviderResponse.response r)
                  (ProviderResponse.model r) None)
      done.

(** In a Sequential run with the store in use that has the events [evs]
    behind it and [currentPrompt] in hand, the models of [done] are called in
    turn, each answers with its response in [done], and the store accepts
    each response. *)
Fixpoint answersInTurn (provider : list Event -> ProviderCall -> Res string)
    (request : OrchestrationRequest.t) (history : list Message.t)
    (evs : list Event) (currentPrompt : string) (done : list ProviderResponse.t)
  : Prop :=
  match done with
  | [] => True
  | r :: rest =>
      provider evs
        (completeWithContext (sequentialMessages history currentPrompt)
           (withModel (OrchestrationRequest.options request) (ProviderResponse.model r)))
      = Ok (ProviderResponse.response r)
      /\ ContextManager.accepts
           (assistantMessage (ProviderResponse.response r) (ProviderResponse.model r) None)
         = true
      /\ answersInTurn provider request history
           (evs ++ sequentialEvents request history currentPrompt [r])
           (refinementPrompt (OrchestrationRequest.prompt request)
              (ProviderResponse.model r) (ProviderResponse.response r))
           rest
  end.

(** The classification call of [analyzePromptType] and the call of
    [specialistRouting] for a selected model. *)
Definition classificationCall (request : OrchestrationRequest.t) : ProviderCall :=
  complete (analysisPrompt (OrchestrationRequest.prompt request))
           (fixedModel "openai/gpt-4o-mini").

Definition specialistCall (request : OrchestrationRequest.t) (model : string)
  : ProviderCall :=
  complete (OrchestrationRequest.prompt request)
           (withModel (OrchestrationRequest.options request) model).

(** The messages [parallelProcessing] and [consensusMode] store. *)
Definition synthesisMessage (request : OrchestrationRequest.t) (synthesis : string)
  : NewMessage.t :=
  assistantMessage synthesis "synthesis" (Some (modelsMetadata (modelsOf request))).

Definition consensusMessage (request : OrchestrationRequest.t) (consensus : string)
  : NewMessage.t :=
  assistantMessage consensus "consensus" (Some (modelsMetadata (modelsOf request))).

(** The messages a parallel run that got the text [synthesis] adds. *)
Definition parallelWrites (request : OrchestrationRequest.t) (synthesis : string)
  : list NewMessage.t :=
  if usesContext request then
    userMessage (OrchestrationRequest.prompt request)
    :: (if String.eqb synthesis EmptyString then []
        else [synthesisMessage request synthesis])
  else [].

(** The consensus call that follows a parallel phase which got [synthesis]. *)
Definition consensusCall (provider : list Event -> ProviderCall -> Res string)
    (request : OrchestrationRequest.t) (w : World) : ProviderCall :=
  complete
    (consensusPrompt (successes (modelsOf request) (parallelOutcomes provider request w))
       (OrchestrationRequest.prompt request))
    (fixedModel "google/gemini-2.5-pro-preview").

(** The message [specialistRouting] stores for the response of a
    specialist. *)
Definition specialistMessage (specialist : Specialist.t) (response : ProviderResponse.t)
  : NewMessage.t :=
  assistantMessage (ProviderResponse.response response) (Specialist.model specialist)
    (Some [("reason", JStr (Specialist.reason specialist))]).

(** The messages a specialist run adds: the prompt, then one per response. *)
Definition specialistWrites (request : OrchestrationRequest.t)
    (specialists : list Specialist.t) (responses : list ProviderResponse.t)
  : list NewMessage.t :=
  if usesContext request then
    userMessage (OrchestrationRequest.prompt request)
    :: map (fun p => specialistMessage (fst p) (snd p)) (combine specialists responses)
  else [].

(** ** src/index.ts: the tool handlers

    The handlers are modelled from the point where the schema of the tool has
    parsed the arguments ([useContext] is then a boolean) and the components
    are initialized.  A handler returns the text of its one content item. *)

(** [error instanceof Error ? error.message : String(error)] *)
Definition messageOf (e : Exn) : string :=
  match e with
  | ErrorExn message => message
  | TypeErrorExn message => message
  | SyntaxErrorExn message => message
  | DatabaseErrorExn message => message
  end.

(** The [catch] of the request handler: the text [Error: ] and the message. *)
Definition handled (body : M string) : M string :=
  tryCatch body (fun e => ret (cat ["Error: "; messageOf e])).

(** A string that is truthy: not [undefined] and not empty. *)
Definition truthy (s : option string) : option string :=
  match s with
  | Some text => if String.eqb text EmptyString then None else Some text
  | None => None
  end.

(** *** formatOrchestrationResult *)

Definition formatHeader (result : OrchestrationResult.t) : string :=
  cat [ "# Orchestration Result"; nl; nl;
        "**Strategy:** "; OrchestrationResult.strategy result; nl;
        "**Models Used:** "; join ", " (OrchestrationResult.models result); nl;
        match truthy (OrchestrationResult.conversationId result) with
        | Some id => cat ["**Conversation ID:** "; id; nl]
        | None => EmptyString
        end;
        nl ].

(** [responses.forEach((r, i) => output += `### Step ${i + 1}: ...`)], from
    index [i] on. *)
Fixpoint formatSteps (i : nat) (responses : list ProviderResponse.t) : string :=
  match responses with
  | [] => EmptyString
  | r :: rest =>
      cat [ "### Step "; string_of_nat (i + 1); ": "; ProviderResponse.model r; nl;
            ProviderResponse.response r; nl; nl;
            formatSteps (S i) rest ]
  end.

(** [responses.forEach(r => output += `### ${r.model}\n${r.response}\n\n`)] *)
Definition formatSections (responses : list ProviderResponse.t) : string :=
  cat (map (fun r => cat [ "### "; ProviderResponse.model r; nl;
                           ProviderResponse.response r; nl; nl ])
           responses).

Fixpoint formatRounds (i : nat) (rounds : list DebateRound.t) : string :=
  match rounds with
  | [] => EmptyString
  | round :: rest =>
      cat [ "### Round "; string_of_nat (i + 1); nl;
            cat (map (fun r => cat [ "**"; ProviderResponse.model r; ":** ";
                                     ProviderResponse.response r; nl; nl ])
                     (DebateRound.responses round));
            formatRounds (S i) rest ]
  end.

(** [if (text) { output += `\n## Title\n${text}\n` }] *)
Definition formatClosing (title : string) (text : option string) : string :=
  match truthy text with
  | Some t => cat [nl; "## "; title; nl; t; nl]
  | None => EmptyString
  end.

Definition forEachOfUndefined : Exn :=
  TypeErrorExn "Cannot read properties of undefined (reading 'forEach')".

Definition formatOrchestrationResult (result : OrchestrationResult.t) : Res string :=
  let output := formatHeader result in
  let strategy := OrchestrationResult.strategy result in
  if String.eqb strategy "sequential" then
    match OrchestrationResult.responses result with
    | Some responses =>
        Ok (cat [output; "## Sequential Refinement"; nl; nl; formatSteps 0 responses])
    | None => Throw forEachOfUndefined
    end
  else if String.eqb strategy "parallel" then
    match OrchestrationResult.responses result with
    | Some responses =>
        Ok (cat [ output; "## Parallel Responses"; nl; nl; formatSections responses;
                  formatClosing "Synthesis" (OrchestrationResult.synthesis result) ])
    | None => Throw forEachOfUndefined
    end
  else if String.eqb strategy "debate" then
    match OrchestrationResult.rounds result with
    | Some rounds =>
        Ok (cat [ output; "## Debate Rounds"; nl; nl; formatRounds 0 rounds;
                  formatClosing "Conclusion" (OrchestrationResult.conclusion result) ])
    | None => Throw forEachOfUndefined
    end
  else if String.eqb strategy "consensus" then
    match OrchestrationResult.responses result with
    | Some responses =>
        Ok (cat [ output; "## Individual Perspectives"; nl; nl; formatSections responses;
                  formatClosing "Consensus" (OrchestrationResult.consensus result) ])
    | None => Throw forEachOfUndefined
    end
  else if String.eqb strategy "specialist" then
    match OrchestrationResult.responses result with
    | Some responses =>
        Ok (cat [output; "## Specialist Responses"; nl; nl; formatSections responses])
    | None => Throw forEachOfUndefined
    end
  else Ok output.

(** The texts of the models in a result. *)
Definition resultTexts (result : OrchestrationResult.t) : list string :=
  match OrchestrationResult.responses result with
  | Some responses => map ProviderResponse.response responses
  | None => []
  end
  ++ match OrchestrationResult.rounds result with
     | Some rounds =>
         flat_map (fun round => map ProviderResponse.response (DebateRound.responses round))
                  rounds
     | None => []
     end.

(** *** The arguments of the tools, as parsed *)

Module OrchestrateArgs.
Record t : Type := mk {
  prompt : string;
  strategy : string;
  models : option (list string);
  useContext : bool;
  options : option OrchestrationOptions.t
}.
End OrchestrateArgs.

Module CompareArgs.
Record t : Type := mk {
  prompt : string;
  models : option (list string);
  useContext : bool
}.
End CompareArgs.

Module AskArgs.
Record t : Type := mk {
  prompt : string;
  model : option string;
  temperature : Q;
  useContext : bool
}.
End AskArgs.

(** The request the [orchestrate] tool hands to the engine. *)
Definition orchestrateRequest (args : OrchestrateArgs.t) : OrchestrationRequest.t :=
  OrchestrationRequest.mk (OrchestrateArgs.prompt args) (OrchestrateArgs.strategy args)
    (OrchestrateArgs.models args) (OrchestrateArgs.options args)
    (Some (OrchestrateArgs.useContext args)).




(** [model || 'deepseek/deepseek-r1'] *)
Definition askModel (args : AskArgs.t) : string :=
  match truthy (AskArgs.model args) with
  | Some model => model
  | None => "deepseek/deepseek-r1"
  end.

Definition askOptions (args : AskArgs.t) : CompletionOptions.t :=
  CompletionOptions.mk (Some (askModel args)) (Some (AskArgs.temperature args)) None None.

Section Tools.

Variable provider : list Event -> ProviderCall -> Res string.
Variable JSON_parse : string -> Res JsValue.

(** case "orchestrate" *)
Definition orchestrateTool (args : OrchestrateArgs.t) : M string :=
  handled
    (result <- orchestrate provider JSON_parse (orchestrateRequest args) ;;
     liftRes (formatOrchestrationResult result)).


(** case "ask" *)
Definition askTool (args : AskArgs.t) : M string :=
  handled
    (when (AskArgs.useContext args)
          (contextManager_addMessage (userMessage (AskArgs.prompt args))) ;;;
     history <- (if AskArgs.useContext args
                 then contextManager_getConversationHistory else ret []) ;;
     let messages :=
       historyMessages history ++ [ContextMessage.mk user (AskArgs.prompt args)] in
     response <- callProvider provider (completeWithContext messages (askOptions args)) ;;
     when (AskArgs.useContext args)
          (contextManager_addMessage
             (assistantMessage response (askModel args) None)) ;;;
     ret response).

(** case "new_conversation" *)
Definition newConversationTool (title : option string) : M string :=
  handled
    (fun w =>
       let '(conversationId, cm) :=
         ContextManager.startNewConversation title (contextManager w) in
       (Ok (cat [ "Started new conversation: ";
                  match truthy title with Some t => t | None => "Untitled" end;
                  nl; "ID: "; conversationId ]),
        mkWorld cm (events w))).

End Tools.

(** The call of the [ask] tool in the world [w], and the provider's answer
    to it. *)
Definition askCall (args : AskArgs.t) (w : World) : ProviderCall :=
  completeWithContext
    (historyMessages
       (if AskArgs.useContext args
        then fst (ContextManager.getConversationHistory None 50
                    (snd (ContextManager.addMessage (userMessage (AskArgs.prompt args))
                            (contextManager w))))
        else [])
       ++ [ContextMessage.mk user (AskArgs.prompt args)])
    (askOptions args).

Definition askOutcome (provider : list Event -> ProviderCall -> Res string)
    (args : AskArgs.t) (w : World) : Res string :=
  provider
    (events w
       ++ (if AskArgs.useContext args
           then [MessageAdded (userMessage (AskArgs.prompt args))] else []))
    (askCall args w).

(** ** Which models are called *)

Definition callOptions (call : ProviderCall) : CompletionOptions.t :=
  match call with
  | complete _ options => options
  | completeWithContext _ options => options
  end.

(** The models that the engine names itself: for the synthesis, the
    conclusion of a debate, the consensus and the classification. *)
Definition fixedModels : list string :=
  [ "anthropic/claude-3.5-sonnet"; "openai/gpt-4o"; "google/gemini-2.5-pro-preview";
    "openai/gpt-4o-mini" ].

(** A call to a model of the request with the options of the request, or to
    one of the fixed models at temperature 0.3. *)
Definition expectedCall (request : OrchestrationRequest.t) (call : ProviderCall) : Prop :=
  (exists model,
     In model (modelsOf request)
     /\ callOptions call = withModel (OrchestrationRequest.options request) model)
  \/ (exists model, In model fixedModels /\ callOptions call = fixedModel model).

(** Between [w] and [w'] the provider was called with calls that satisfy [Q],
    and with no other. *)
Definition callsWith (Q : ProviderCall -> Prop) (w w' : World) : Prop :=
  exists calls,
    providerCalls (events w') = providerCalls (events w) ++ calls /\ Forall Q calls.

(** ** src/providers/openrouter.ts *)

(** The body of [client.chat.completions.create].  No caller sets
    [maxTokens], [topP], the penalties or [stopSequences], so these fields of
    the body are [undefined]; [stream] is [false]. *)
Module ChatBody.
Record t : Type := mk {
  model : string;
  messages : list ContextMessage.t;
  temperature : Q
}.
End ChatBody.

(** A completion: the [message.content] of its choices, [None] for [null]. *)
Definition ChatCompletion : Type := list (option string).

(** [options?.model || 'openai/gpt-4o'] and [options?.temperature ?? 0.7] *)
Definition chatBody (messages : list ContextMessage.t) (options : CompletionOptions.t)
  : ChatBody.t :=
  ChatBody.mk
    match truthy (CompletionOptions.model options) with
    | Some model => model
    | None => "openai/gpt-4o"
    end
    messages
    match CompletionOptions.temperature options with
    | Some temperature => temperature
    | None => (7 # 10)%Q
    end.

(** [response.choices[0]?.message?.content || ''] *)
Definition firstContent (response : ChatCompletion) : string :=
  match response with
  | Some content :: _ => content
  | _ => EmptyString
  end.

(** [new Error(`OpenRouter completion failed: ${errorMessage}`)] *)
Definition completionFailed (error : Exn) : Exn :=
  ErrorExn (cat ["OpenRouter completion failed: "; messageOf error]).

Section OpenRouter.

(** [this.client.chat.completions.create]: its outcome for a body, given
    what has happened so far. *)
Variable create : list Event -> ChatBody.t -> Res ChatCompletion.

Definition OpenRouterProvider_complete (evs : list Event) (prompt : string)
    (options : CompletionOptions.t) : Res string :=
  match create evs (chatBody [ContextMessage.mk user prompt] options) with
  | Ok response => Ok (firstContent response)
  | Throw error => Throw (completionFailed error)
  end.

Definition OpenRouterProvider_completeWithContext (evs : list Event)
    (messages : list ContextMessage.t) (options : CompletionOptions.t) : Res string :=
  match create evs (chatBody messages options) with
  | Ok response => Ok (firstContent response)
  | Throw error => Throw (completionFailed error)
  end.

Definition OpenRouterProvider (evs : list Event) (call : ProviderCall) : Res string :=
  match call with
  | complete prompt options => OpenRouterProvider_complete evs prompt options
  | completeWithContext messages options =>
      OpenRouterProvider_completeWithContext evs messages options
  end.

End OpenRouter.

(** The body that a call of the provider hands to the client. *)
Definition bodyOf (call : ProviderCall) : ChatBody.t :=
  match call with
  | complete prompt options => chatBody [ContextMessage.mk user prompt] options
  | completeWithContext messages options => chatBody messages options
  end.

Module ClientExamples.


End ClientExamples.

(** A result as a strategy builds it can be rendered, and the rendering holds
    every text of the models. *)
Definition renders (result : OrchestrationResult.t) : Prop :=
  exists text,
    formatOrchestrationResult result = Ok text
    /\ forall t, In t (resultTexts result) -> embeds t text.

(** * Properties *)

(** ** Events *)

Lemma providerCalls_app (evs evs' : list Event) :
  providerCalls (evs ++ evs') = providerCalls evs ++ providerCalls evs'.
Proof.
  induction evs as [|[c|m|m] evs IH]; simpl; rewrite ?IH; reflexivity.
Qed.

Lemma messagesAdded_app (evs evs' : list Event) :
  messagesAdded (evs ++ evs') = messagesAdded evs ++ messagesAdded evs'.
Proof.
  induction evs as [|[c|m|m] evs IH]; simpl; rewrite ?IH; reflexivity.
Qed.

Lemma messagesRefused_app (evs evs' : list Event) :
  messagesRefused (evs ++ evs') = messagesRefused evs ++ messagesRefused evs'.
Proof.
  induction evs as [|[c|m|m] evs IH]; simpl; rewrite ?IH; reflexivity.
Qed.

Lemma messagesAdded_calls (calls : list ProviderCall) :
  messagesAdded (map ProviderCalled calls) = [].
Proof.
  induction calls; simpl; auto.
Qed.

Lemma providerCalls_calls (calls : list ProviderCall) :
  providerCalls (map ProviderCalled calls) = calls.
Proof.
  induction calls as [|call rest IH]; simpl; rewrite ?IH; reflexivity.
Qed.

Lemma afterUserMessage_providerCalls (request : OrchestrationRequest.t) (w : World) :
  providerCalls (events (afterUserMessage request w)) = providerCalls (events w).
Proof.
  unfold afterUserMessage. destruct (usesContext request); [|reflexivity].
  cbn [events]. rewrite providerCalls_app. simpl. apply app_nil_r.
Qed.

(** ** The monad *)

Lemma bind_Ok {A B} (m : M A) (k : A -> M B) (w w' : World) (b : B) :
  bind m k w = (Ok b, w') ->
  exists a w1, m w = (Ok a, w1) /\ k a w1 = (Ok b, w').
Proof.
  unfold bind. destruct (m w) as [[a|e] w1]; intros H.
  - exists a, w1. auto.
  - discriminate.
Qed.

Lemma bind_run_Ok {A B} (m : M A) (k : A -> M B) (w w1 : World) (a : A) :
  m w = (Ok a, w1) -> bind m k w = k a w1.
Proof.
  unfold bind. intros ->. reflexivity.
Qed.

Lemma bind_run_Throw {A B} (m : M A) (k : A -> M B) (w w1 : World) (e : Exn) :
  m w = (Throw e, w1) -> bind m k w = (Throw e, w1).
Proof.
  unfold bind. intros ->. reflexivity.
Qed.

(** ** Frames: computations that leave the store, or the provider, alone *)

Create HintDb frames.

Lemma storeFrame_ret {A} (a : A) : storeFrame (ret a).
Proof. intros w. simpl. auto. Qed.

Lemma storeFrame_throw {A} (e : Exn) : storeFrame (@throw A e).
Proof. intros w. simpl. auto. Qed.

Lemma storeFrame_liftRes {A} (r : Res A) : storeFrame (liftRes r).
Proof. intros w. simpl. auto. Qed.

Lemma storeFrame_bind {A B} (m : M A) (k : A -> M B) :
  storeFrame m -> (forall a, storeFrame (k a)) -> storeFrame (bind m k).
Proof.
  intros Hm Hk w. unfold bind.
  specialize (Hm w). destruct (m w) as [[a|e] w1]; simpl in *.
  - destruct (Hk a w1) as [H1 H2]. destruct Hm as [H3 H4]. split; congruence.
  - exact Hm.
Qed.

Lemma storeFrame_tryCatch {A} (m : M A) (h : Exn -> M A) :
  storeFrame m -> (forall e, storeFrame (h e)) -> storeFrame (tryCatch m h).
Proof.
  intros Hm Hh w. unfold tryCatch.
  specialize (Hm w). destruct (m w) as [[a|e] w1]; simpl in *.
  - exact Hm.
  - destruct (Hh e w1) as [H1 H2]. destruct Hm as [H3 H4]. split; congruence.
Qed.

Lemma storeFrame_callProvider provider (call : ProviderCall) :
  storeFrame (callProvider provider call).
Proof.
  intros w. unfold callProvider. simpl. split; auto.
  rewrite messagesAdded_app. simpl. apply app_nil_r.
Qed.

Lemma storeFrame_getSummary : storeFrame contextManager_getSummary.
Proof. intros w. simpl. auto. Qed.

Lemma storeFrame_when_false (m : M Message.t) : storeFrame (when false m).
Proof. apply storeFrame_ret. Qed.

#[local] Hint Resolve storeFrame_ret storeFrame_throw storeFrame_liftRes
  storeFrame_callProvider storeFrame_getSummary storeFrame_when_false
  storeFrame_tryCatch : frames.

Ltac frame_steps :=
  repeat first
    [ solve [ auto with frames ]
    | apply storeFrame_bind; [ | intros ? ]
    | apply storeFrame_tryCatch; [ | intros ? ] ].

Section StoreFrame.

Variable provider : list Event -> ProviderCall -> Res string.
Variable JSON_parse : string -> Res JsValue.
Variable request : OrchestrationRequest.t.
Hypothesis noContext : usesContext request = false.

Lemma storeFrame_readHistory : storeFrame (readHistory request).
Proof. unfold readHistory. rewrite noContext. apply storeFrame_ret. Qed.

Lemma storeFrame_sequentialLoop history models currentPrompt responses :
  storeFrame (sequentialLoop provider request history models currentPrompt responses).
Proof.
  revert currentPrompt responses.
  induction models as [|model rest IH]; intros; simpl.
  - apply storeFrame_ret.
  - rewrite noContext. frame_steps.
Qed.

Lemma storeFrame_promiseAll {A B} (f : A -> M B) (l : list A) :
  (forall a, storeFrame (f a)) -> storeFrame (promiseAll f l).
Proof.
  intros Hf. induction l as [|a l IH]; simpl; frame_steps.
Qed.

Lemma storeFrame_parallelCall history model :
  storeFrame (parallelCall provider request history model).
Proof. unfold parallelCall. frame_steps. Qed.

#[local] Hint Resolve storeFrame_readHistory storeFrame_sequentialLoop
  storeFrame_promiseAll storeFrame_parallelCall : frames.

Lemma storeFrame_parallelProcessing models :
  storeFrame (parallelProcessing provider request models).
Proof.
  unfold parallelProcessing, synthesizeResponses. rewrite noContext. simpl.
  frame_steps.
Qed.

Lemma storeFrame_debateRound debateContext round rounds models roundResponses :
  storeFrame (debateRound provider request debateContext round rounds models roundResponses).
Proof.
  revert roundResponses.
  induction models as [|model rest IH]; intros; simpl; frame_steps.
Qed.

#[local] Hint Resolve storeFrame_parallelProcessing storeFrame_debateRound : frames.

Lemma storeFrame_debateLoop debateContext models todo round rounds :
  storeFrame (debateLoop provider request debateContext models todo round rounds).
Proof.
  revert round rounds.
  induction todo as [|todo IH]; intros; simpl; frame_steps.
Qed.

#[local] Hint Resolve storeFrame_debateLoop : frames.

Lemma storeFrame_debateMode models : storeFrame (debateMode provider request models).
Proof.
  unfold debateMode, generateDebateConclusion. rewrite noContext. frame_steps.
Qed.

Lemma storeFrame_consensusMode models :
  storeFrame (consensusMode provider request models).
Proof.
  unfold consensusMode, findConsensus. rewrite noContext. frame_steps.
Qed.

Lemma storeFrame_specialistLoop specialists responses :
  storeFrame (specialistLoop provider request specialists responses).
Proof.
  revert responses.
  induction specialists as [|specialist rest IH]; intros; simpl.
  - apply storeFrame_ret.
  - rewrite noContext. frame_steps.
Qed.

#[local] Hint Resolve storeFrame_specialistLoop : frames.

Lemma storeFrame_specialistRouting models :
  storeFrame (specialistRouting provider JSON_parse request models).
Proof.
  unfold specialistRouting, analyzePromptType. frame_steps.
Qed.

Lemma storeFrame_sequentialProcessing models :
  storeFrame (sequentialProcessing provider request models).
Proof.
  unfold sequentialProcessing. frame_steps.
Qed.

#[local] Hint Resolve storeFrame_debateMode storeFrame_consensusMode
  storeFrame_specialistRouting storeFrame_sequentialProcessing : frames.

Lemma storeFrame_dispatch models :
  storeFrame (dispatch provider JSON_parse request models).
Proof.
  unfold dispatch.
  repeat match goal with |- context [if ?b then _ else _] => destruct b end;
    auto with frames.
Qed.

#[local] Hint Resolve storeFrame_dispatch : frames.

Lemma storeFrame_orchestrate : storeFrame (orchestrate provider JSON_parse request).
Proof.
  unfold orchestrate. rewrite noContext. frame_steps.
Qed.

End StoreFrame.

(** ** The context store *)

Lemma addMessage_messages (message : NewMessage.t) (cm : ContextManager.t) :
  ContextManager.messages (snd (ContextManager.addMessage message cm))
  = ContextManager.messages cm ++ [fst (ContextManager.addMessage message cm)]
  /\ Message.role (fst (ContextManager.addMessage message cm)) = NewMessage.role message
  /\ Message.content (fst (ContextManager.addMessage message cm))
     = NewMessage.content message.
Proof.
  unfold ContextManager.addMessage, ContextManager.startNewConversation,
    ContextManager.uuidv4.
  destruct (String.eqb (ContextManager.currentConversationId cm) EmptyString);
    simpl; auto.
Qed.

(** ** An [addMessage] that runs *)

Lemma addMessage_run (message : NewMessage.t) (w : World) :
  ContextManager.accepts message = true ->
  contextManager_addMessage message w
  = (Ok (fst (ContextManager.addMessage message (contextManager w))),
     mkWorld (snd (ContextManager.addMessage message (contextManager w)))
             (events w ++ [MessageAdded message])).
Proof.
  intros Haccepts. unfold contextManager_addMessage. rewrite Haccepts.
  destruct (ContextManager.addMessage message (contextManager w)); reflexivity.
Qed.

Lemma addMessage_refused (message : NewMessage.t) (w : World) :
  ContextManager.accepts message = false ->
  contextManager_addMessage message w
  = (Throw ContextManager.valueTooLong,
     mkWorld (ContextManager.addMessageRefused (contextManager w))
             (events w ++ [MessageRefused message])).
Proof.
  intros Hrefused. unfold contextManager_addMessage. rewrite Hrefused. reflexivity.
Qed.

(** The names the engine gives a message itself fit the column. *)
Lemma accepts_userMessage (content : string) :
  ContextManager.accepts (userMessage content) = true.
Proof. reflexivity. Qed.

(** Whether a message fits depends on its model alone. *)
Lemma accepts_assistantMessage (content content' model : string)
    (metadata metadata' : option Metadata) :
  ContextManager.accepts (assistantMessage content model metadata)
  = ContextManager.accepts (assistantMessage content' model metadata').
Proof. reflexivity. Qed.

(** An [addMessage] that is still to run in [H]: it goes through, or the
    store refuses the message. *)
Ltac add_cases H :=
  match type of H with
  | context [contextManager_addMessage ?m ?w] =>
      let Ha := fresh "Haccepts" in
      destruct (ContextManager.accepts m) eqn:Ha;
      [ rewrite (addMessage_run m w Ha) in H
      | rewrite (addMessage_refused m w Ha) in H ]
  end.

Ltac add_cases_goal :=
  match goal with
  | |- context [contextManager_addMessage ?m ?w] =>
      let Ha := fresh "Haccepts" in
      destruct (ContextManager.accepts m) eqn:Ha;
      [ rewrite (addMessage_run m w Ha)
      | rewrite (addMessage_refused m w Ha) ]
  end.

(** ** The start of [orchestrate] *)

Section Dispatch.

Variable provider : list Event -> ProviderCall -> Res string.
Variable JSON_parse : string -> Res JsValue.

Lemma user_message_run (request : OrchestrationRequest.t) (w : World) :
  when (usesContext request)
       (contextManager_addMessage (userMessage (OrchestrationRequest.prompt request))) w
  = (Ok tt, afterUserMessage request w).
Proof.
  unfold when, afterUserMessage. destruct (usesContext request); [|reflexivity].
  unfold bind. rewrite addMessage_run by reflexivity. reflexivity.
Qed.

Lemma orchestrate_run (request : OrchestrationRequest.t) (w : World) :
  orchestrate provider JSON_parse request w
  = match dispatch provider JSON_parse request (modelsOf request)
            (afterUserMessage request w) with
    | (Ok result, w') =>
        (Ok (OrchestrationResult.withConversationId result
               (ContextManager.currentConversationId (contextManager w'))), w')
    | (Throw e, w') => (Throw e, w')
    end.
Proof.
  unfold orchestrate. unfold bind at 1. rewrite user_message_run.
  unfold bind, contextManager_getSummary, ret.
  destruct (dispatch provider JSON_parse request (modelsOf request)
              (afterUserMessage request w)) as [[result|e] w']; reflexivity.
Qed.

Lemma dispatch_unknown (request : OrchestrationRequest.t) (models : list string) :
  ~ In (OrchestrationRequest.strategy request) OrchestrationStrategy_values ->
  dispatch provider JSON_parse request models
  = throw (unknownStrategy (OrchestrationRequest.strategy request)).
Proof.
  intros Hnot. unfold dispatch.
  repeat match goal with
         | |- context [String.eqb ?a ?b] =>
             destruct (String.eqb_spec a b) as [Heq|_];
             [ exfalso; apply Hnot; rewrite Heq; simpl; tauto | ]
         end.
  reflexivity.
Qed.

Lemma dispatch_known (request : OrchestrationRequest.t) (models : list string) (w w' : World)
    (result : OrchestrationResult.t) :
  dispatch provider JSON_parse request models w = (Ok result, w') ->
  In (OrchestrationRequest.strategy request) OrchestrationStrategy_values.
Proof.
  intros Hrun.
  destruct (in_dec string_dec (OrchestrationRequest.strategy request)
              OrchestrationStrategy_values) as [Hin|Hnot]; [exact Hin|].
  rewrite (dispatch_unknown request models Hnot) in Hrun. discriminate.
Qed.

End Dispatch.

Lemma usesContext_true (request : OrchestrationRequest.t) :
  OrchestrationRequest.useContext request <> Some false -> usesContext request = true.
Proof.
  unfold usesContext. destruct (OrchestrationRequest.useContext request) as [[|]|];
    intros H; first [reflexivity | exfalso; apply H; reflexivity].
Qed.

Lemma usesContext_false (request : OrchestrationRequest.t) :
  OrchestrationRequest.useContext request = Some false -> usesContext request = false.
Proof.
  unfold usesContext. intros ->. reflexivity.
Qed.

(** ** C4: an unrecognized strategy *)

(** C4.  For every request whose strategy is not one of the five values of
    the enum, [orchestrate] throws the error of its [default] branch, whose
    message is [Unknown orchestration strategy: ] followed by the strategy, and
    the run contains no provider call, neither [complete] nor
    [completeWithContext]. *)
Theorem orchestrate_unknown_strategy
    (provider : list Event -> ProviderCall -> Res string)
    (JSON_parse : string -> Res JsValue)
    (request : OrchestrationRequest.t) (w : World) :
  ~ In (OrchestrationRequest.strategy request) OrchestrationStrategy_values ->
  fst (orchestrate provider JSON_parse request w)
  = Throw (ErrorExn (cat [ "Unknown orchestration strategy: ";
                           OrchestrationRequest.strategy request ]))
  /\ providerCalls (events (snd (orchestrate provider JSON_parse request w)))
     = providerCalls (events w).
Proof.
  intros Hnot. rewrite orchestrate_run, (dispatch_unknown _ _ _ _ Hnot).
  unfold throw. cbn [fst snd]. split; [reflexivity|].
  unfold afterUserMessage. destruct (usesContext request); [|reflexivity].
  cbn [events]. rewrite providerCalls_app. simpl. apply app_nil_r.
Qed.

Lemma orchestrate_unknown_strategy_witness :
  fst (orchestrate Examples.greek JsonSubset.parse
         (Examples.request "X" "vote" (Some ["A"; "B"]) None) Examples.world0)
  = Throw (ErrorExn "Unknown orchestration strategy: vote")
  /\ providerCalls
       (events (snd (orchestrate Examples.greek JsonSubset.parse
                       (Examples.request "X" "vote" (Some ["A"; "B"]) None)
                       Examples.world0)))
     = [].
Proof.
  apply (orchestrate_unknown_strategy Examples.greek JsonSubset.parse
           (Examples.request "X" "vote" (Some ["A"; "B"]) None) Examples.world0).
  simpl. intros H.
  repeat (destruct H as [H|H]; [discriminate H|]). exact H.
Defined.

(** ** C10: the prompt is stored before the strategy is looked at *)

(** C10.  When the strategy is not one of the five and [useContext] is not
    [false], [orchestrate] throws the unknown-strategy error and the only
    event of the run is the write of the prompt: the table of messages has
    one more row, of role [user], holding the prompt.  The failed call has
    changed the store. *)
Theorem orchestrate_unknown_strategy_keeps_prompt
    (provider : list Event -> ProviderCall -> Res string)
    (JSON_parse : string -> Res JsValue)
    (request : OrchestrationRequest.t) (w : World) :
  ~ In (OrchestrationRequest.strategy request) OrchestrationStrategy_values ->
  OrchestrationRequest.useContext request <> Some false ->
  fst (orchestrate provider JSON_parse request w)
  = Throw (unknownStrategy (OrchestrationRequest.strategy request))
  /\ events (snd (orchestrate provider JSON_parse request w))
     = events w ++ [MessageAdded (userMessage (OrchestrationRequest.prompt request))]
  /\ exists saved : Message.t,
       ContextManager.messages
         (contextManager (snd (orchestrate provider JSON_parse request w)))
       = ContextManager.messages (contextManager w) ++ [saved]
       /\ Message.role saved = user
       /\ Message.content saved = OrchestrationRequest.prompt request.
Proof.
  intros Hnot Hctx. apply usesContext_true in Hctx.
  rewrite orchestrate_run, (dispatch_unknown _ _ _ _ Hnot).
  unfold throw, afterUserMessage. rewrite Hctx. simpl.
  split; [reflexivity|]. split; [reflexivity|].
  destruct (addMessage_messages (userMessage (OrchestrationRequest.prompt request))
              (contextManager w)) as (Hm & Hr & Hc).
  eexists. split; [exact Hm|]. split; [exact Hr | exact Hc].
Qed.

Lemma orchestrate_unknown_strategy_keeps_prompt_witness :
  fst (orchestrate Examples.greek JsonSubset.parse
         (Examples.request "X" "vote" None (Some true)) Examples.world0)
  = Throw (unknownStrategy "vote")
  /\ events (snd (orchestrate Examples.greek JsonSubset.parse
                    (Examples.request "X" "vote" None (Some true)) Examples.world0))
     = [] ++ [MessageAdded (userMessage "X")]
  /\ exists saved : Message.t,
       ContextManager.messages
         (contextManager
            (snd (orchestrate Examples.greek JsonSubset.parse
                    (Examples.request "X" "vote" None (Some true)) Examples.world0)))
       = [] ++ [saved]
       /\ Message.role saved = user
       /\ Message.content saved = "X".
Proof.
  apply (orchestrate_unknown_strategy_keeps_prompt Examples.greek JsonSubset.parse
           (Examples.request "X" "vote" None (Some true)) Examples.world0).
  - simpl. intros H.
    repeat (destruct H as [H|H]; [discriminate H|]). exact H.
  - simpl. discriminate.
Defined.

(** ** C9: no store write without context *)

(** C9.  With [useContext] set to [false], a run of [orchestrate], whatever
    the strategy and whatever the provider answers, leaves the context store
    as it was and adds no message: not the prompt, not a response, not a
    synthesis, consensus or conclusion.  The same holds for the same call made
    again in the world the first one left. *)
Theorem orchestrate_without_context_writes_nothing
    (provider : list Event -> ProviderCall -> Res string)
    (JSON_parse : string -> Res JsValue)
    (request : OrchestrationRequest.t) (w : World) :
  OrchestrationRequest.useContext request = Some false ->
  (contextManager (snd (orchestrate provider JSON_parse request w)) = contextManager w
   /\ messagesAdded (events (snd (orchestrate provider JSON_parse request w)))
      = messagesAdded (events w))
  /\ (contextManager
        (snd (orchestrate provider JSON_parse request
                (snd (orchestrate provider JSON_parse request w))))
      = contextManager w
      /\ messagesAdded
           (events (snd (orchestrate provider JSON_parse request
                           (snd (orchestrate provider JSON_parse request w)))))
         = messagesAdded (events w)).
Proof.
  intros Hctx. apply usesContext_false in Hctx.
  pose proof (storeFrame_orchestrate provider JSON_parse request Hctx) as Hframe.
  destruct (Hframe w) as [H1 H2].
  destruct (Hframe (snd (orchestrate provider JSON_parse request w))) as [H3 H4].
  repeat split; congruence.
Qed.

Lemma orchestrate_without_context_writes_nothing_witness :
  (contextManager
     (snd (orchestrate Examples.withoutB JsonSubset.parse
             (Examples.request "X" "consensus" (Some ["A"; "B"; "C"]) (Some false))
             Examples.world0))
   = Examples.store0
   /\ messagesAdded
        (events
           (snd (orchestrate Examples.withoutB JsonSubset.parse
                   (Examples.request "X" "consensus" (Some ["A"; "B"; "C"]) (Some false))
                   Examples.world0)))
      = [])
  /\ (contextManager
        (snd (orchestrate Examples.withoutB JsonSubset.parse
                (Examples.request "X" "consensus" (Some ["A"; "B"; "C"]) (Some false))
                (snd (orchestrate Examples.withoutB JsonSubset.parse
                        (Examples.request "X" "consensus" (Some ["A"; "B"; "C"])
                           (Some false))
                        Examples.world0))))
      = Examples.store0
      /\ messagesAdded
           (events
              (snd (orchestrate Examples.withoutB JsonSubset.parse
                      (Examples.request "X" "consensus" (Some ["A"; "B"; "C"]) (Some false))
                      (snd (orchestrate Examples.withoutB JsonSubset.parse
                              (Examples.request "X" "consensus" (Some ["A"; "B"; "C"])
                                 (Some false))
                              Examples.world0)))))
         = []).
Proof.
  apply (orchestrate_without_context_writes_nothing Examples.withoutB JsonSubset.parse
           (Examples.request "X" "consensus" (Some ["A"; "B"; "C"]) (Some false))
           Examples.world0).
  reflexivity.
Defined.

(** ** selectSpecialists *)

Lemma arr_includes_In (l : list string) (x : string) :
  arr_includes l x = true <-> In x l.
Proof.
  unfold arr_includes. rewrite existsb_exists. split.
  - intros (y & Hin & Heq). apply String.eqb_eq in Heq. subst. exact Hin.
  - intros Hin. exists x. split; [exact Hin | apply String.eqb_refl].
Qed.

Lemma numModelsOf_positive (complexity : JsValue) : 1 <= numModelsOf complexity.
Proof.
  unfold numModelsOf.
  destruct (strictEqualsString complexity "high");
    destruct (strictEqualsString complexity "medium"); lia.
Qed.



Lemma withinSelection_push availableModels numModels specialists model reason :
  withinSelection availableModels numModels specialists ->
  arr_includes availableModels model = true ->
  (List.length specialists <? numModels)%nat = true ->
  withinSelection availableModels numModels (specialists ++ [Specialist.mk model reason]).
Proof.
  intros [Hlen Hin] Hav Hlt. apply Nat.ltb_lt in Hlt. apply arr_includes_In in Hav.
  split.
  - rewrite length_app. simpl. lia.
  - intros s Hs. apply in_app_or in Hs. destruct Hs as [Hs|[<-|[]]]; auto.
Qed.

Lemma withinSelection_primary availableModels numModels primary candidates specialists :
  withinSelection availableModels numModels specialists ->
  withinSelection availableModels numModels
    (fold_left (addPrimary availableModels numModels primary) candidates specialists).
Proof.
  revert specialists. induction candidates as [|model rest IH]; intros specialists H.
  - exact H.
  - simpl. apply IH. unfold addPrimary.
    destruct (arr_includes availableModels model) eqn:Hav; simpl; [|exact H].
    destruct (List.length specialists <? numModels)%nat eqn:Hlt; [|exact H].
    apply withinSelection_push; assumption.
Qed.

Lemma withinSelection_secondary availableModels numModels secondary candidates specialists :
  withinSelection availableModels numModels specialists ->
  withinSelection availableModels numModels
    (fold_left (addSecondary availableModels numModels secondary) candidates specialists).
Proof.
  revert specialists. induction candidates as [|model rest IH]; intros specialists H.
  - exact H.
  - simpl. apply IH. unfold addSecondary.
    destruct (arr_includes availableModels model) eqn:Hav; simpl; [|exact H].
    destruct (alreadyChosen specialists model); simpl; [exact H|].
    destruct (List.length specialists <? numModels)%nat eqn:Hlt; [|exact H].
    apply withinSelection_push; assumption.
Qed.

Lemma withinSelection_fallback availableModels numModels specialists :
  1 <= numModels ->
  withinSelection availableModels numModels specialists ->
  withinSelection availableModels numModels (addFallback availableModels specialists).
Proof.
  intros Hpos H. unfold addFallback.
  destruct specialists as [|s rest]; [|exact H].
  destruct availableModels as [|first others]; [exact H|].
  split.
  - simpl. exact Hpos.
  - intros s [<-|[]]. simpl. auto.
Qed.



Lemma addFallback_nonempty availableModels specialists :
  availableModels <> [] -> addFallback availableModels specialists <> [].
Proof.
  intros Hav. unfold addFallback.
  destruct specialists as [|s rest]; [|discriminate].
  destruct availableModels as [|first others]; [contradiction|discriminate].
Qed.

(** What a successful [selectSpecialists] went through. *)
Lemma selectSpecialists_Ok analysis availableModels specialists :
  selectSpecialists analysis availableModels = Ok specialists ->
  exists primary secondary complexity,
    getProperty analysis "primary" = Ok primary
    /\ getProperty analysis "secondary" = Ok secondary
    /\ getProperty analysis "complexity" = Ok complexity
    /\ specialists
       = addFallback availableModels
           (fold_left
              (addSecondary availableModels (numModelsOf complexity) secondary)
              (secondarySpecialistsOf secondary)
              (fold_left
                 (addPrimary availableModels (numModelsOf complexity) primary)
                 (primarySpecialistsOf primary) [])).
Proof.
  unfold selectSpecialists. intros H.
  destruct (getProperty analysis "primary") as [primary|e1]; [|discriminate].
  destruct (getProperty analysis "secondary") as [secondary|e2]; [|discriminate].
  destruct (getProperty analysis "complexity") as [complexity|e3]; [|discriminate].
  exists primary, secondary, complexity.
  repeat split.
  destruct (specialistMap_get primary); destruct (specialistMap_get secondary);
    try discriminate; injection H as <-; reflexivity.
Qed.

(** A classification that is an object with categories of the table, or with
    categories that mean nothing to JavaScript, is routed. *)
Lemma selectSpecialists_returns props availableModels primary secondary :
  getProperty (JObj props) "primary" = Ok primary ->
  getProperty (JObj props) "secondary" = Ok secondary ->
  arr_includes Object_prototype_keys (toString primary) = false ->
  arr_includes Object_prototype_keys (toString secondary) = false ->
  exists specialists, selectSpecialists (JObj props) availableModels = Ok specialists.
Proof.
  intros Hp Hs Hpk Hsk. unfold selectSpecialists. rewrite Hp, Hs.
  assert (Hc : exists c, getProperty (JObj props) "complexity" = Ok c).
  { simpl. destruct (ownProperty props "complexity"); eauto. }
  destruct Hc as [c ->].
  unfold specialistMap_get. rewrite Hpk, Hsk.
  destruct (assoc specialistMap (toString primary));
    destruct (assoc specialistMap (toString secondary)); eauto.
Qed.

Lemma selectSpecialists_within analysis availableModels specialists :
  selectSpecialists analysis availableModels = Ok specialists ->
  forall complexity,
    getProperty analysis "complexity" = Ok complexity ->
    withinSelection availableModels (numModelsOf complexity) specialists.
Proof.
  intros H complexity Hc. apply selectSpecialists_Ok in H.
  destruct H as (primary & secondary & complexity' & _ & _ & Hc' & ->).
  rewrite Hc in Hc'. injection Hc' as <-.
  apply withinSelection_fallback; [apply numModelsOf_positive|].
  apply withinSelection_secondary, withinSelection_primary.
  split; simpl; [lia | intros s []].
Qed.




(** ** The models of a result *)

Ltac bind_inv H :=
  let a := fresh "a" in
  let w1 := fresh "w" in
  let Hm := fresh "Hrun" in
  apply bind_Ok in H; destruct H as (a & w1 & Hm & H).

Ltac ret_inv H :=
  unfold ret in H; injection H as H ?; subst.

Section ResultModels.

Variable provider : list Event -> ProviderCall -> Res string.
Variable JSON_parse : string -> Res JsValue.
Variable request : OrchestrationRequest.t.

Lemma sequentialProcessing_models models w w' result :
  sequentialProcessing provider request models w = (Ok result, w') ->
  OrchestrationResult.models result = models.
Proof.
  unfold sequentialProcessing. intros H. do 2 bind_inv H. ret_inv H. reflexivity.
Qed.

Lemma parallelProcessing_models models w w' result :
  parallelProcessing provider request models w = (Ok result, w') ->
  OrchestrationResult.models result = models.
Proof.
  unfold parallelProcessing. intros H. do 4 bind_inv H. ret_inv H. reflexivity.
Qed.

Lemma debateMode_models models w w' result :
  debateMode provider request models w = (Ok result, w') ->
  OrchestrationResult.models result = models.
Proof.
  unfold debateMode. intros H. do 3 bind_inv H. ret_inv H. reflexivity.
Qed.

Lemma consensusMode_models models w w' result :
  consensusMode provider request models w = (Ok result, w') ->
  OrchestrationResult.models result = models.
Proof.
  unfold consensusMode. intros H. do 3 bind_inv H. ret_inv H. reflexivity.
Qed.

Lemma specialistRouting_models models w w' result :
  specialistRouting provider JSON_parse request models w = (Ok result, w') ->
  exists analysis specialists,
    selectSpecialists analysis models = Ok specialists
    /\ OrchestrationResult.models result = map Specialist.model specialists.
Proof.
  unfold specialistRouting. intros H. do 3 bind_inv H. ret_inv H.
  unfold liftRes in Hrun0. injection Hrun0 as Hsel _.
  eexists _, _. split; [exact Hsel | reflexivity].
Qed.

Lemma dispatch_models models w w' result :
  models <> [] ->
  dispatch provider JSON_parse request models w = (Ok result, w') ->
  OrchestrationResult.models result <> []
  /\ forall model, In model (OrchestrationResult.models result) -> In model models.
Proof.
  intros Hne. unfold dispatch.
  repeat match goal with |- context [if ?b then _ else _] => destruct b end; intros H.
  - apply sequentialProcessing_models in H. rewrite H. auto.
  - apply parallelProcessing_models in H. rewrite H. auto.
  - apply debateMode_models in H. rewrite H. auto.
  - apply consensusMode_models in H. rewrite H. auto.
  - apply specialistRouting_models in H.
    destruct H as (analysis & specialists & Hsel & ->).
    pose proof (selectSpecialists_Ok _ _ _ Hsel) as (p & s & c & _ & _ & _ & Heq).
    split.
    + rewrite Heq. intros Hnil. apply map_eq_nil in Hnil.
      revert Hnil. apply addFallback_nonempty. exact Hne.
    + intros model Hin. apply in_map_iff in Hin. destruct Hin as (sp & <- & Hsp).
      pose proof (selectSpecialists_Ok _ _ _ Hsel) as (p' & s' & c' & _ & _ & Hc & _).
      destruct (selectSpecialists_within _ _ _ Hsel c' Hc) as [_ Hav].
      apply Hav. exact Hsp.
  - discriminate.
Qed.

End ResultModels.

(** ** C1: the model list of a request *)

(** C1, as stated, fails: a request whose [models] is the empty list keeps
    it.  Here [sequentialProcessing] runs over no model and the result's
    [models] is empty. *)
Lemma orchestrate_empty_models_kept :
  OrchestrationRequest.models (Examples.request "X" "sequential" (Some []) (Some false))
  = Some []
  /\ modelsOf (Examples.request "X" "sequential" (Some []) (Some false)) = []
  /\ exists result w',
       orchestrate Examples.greek JsonSubset.parse
         (Examples.request "X" "sequential" (Some []) (Some false)) Examples.world0
       = (Ok result, w')
       /\ OrchestrationResult.models result = []
       /\ providerCalls (events w') = [].
Proof.
  split; [reflexivity|]. split; [reflexivity|].
  eexists _, _. split; [reflexivity|]. split; reflexivity.
Qed.

(** C1, amended.  The default set, the first three ids of
    [PROGRAMMING_MODELS], stands in for a [models] field that is absent; a
    list that is given is used as it is.  So for every request whose [models]
    is absent or a non-empty list, the list that drives the provider calls is
    not empty, and a result of any strategy has a non-empty [models], all of
    them drawn from that list. *)
Theorem orchestrate_models_nonempty
    (provider : list Event -> ProviderCall -> Res string)
    (JSON_parse : string -> Res JsValue)
    (request : OrchestrationRequest.t) (w w' : World)
    (result : OrchestrationResult.t) :
  OrchestrationRequest.models request <> Some [] ->
  orchestrate provider JSON_parse request w = (Ok result, w') ->
  modelsOf request <> []
  /\ (OrchestrationRequest.models request = None ->
      modelsOf request
      = ["deepseek/deepseek-v3"; "deepseek/deepseek-r1-0528"; "anthropic/claude-sonnet-4"])
  /\ (forall models, OrchestrationRequest.models request = Some models ->
      modelsOf request = models)
  /\ In (OrchestrationRequest.strategy request) OrchestrationStrategy_values
  /\ OrchestrationResult.models result <> []
  /\ forall model,
       In model (OrchestrationResult.models result) -> In model (modelsOf request).
Proof.
  intros Hgiven Hrun.
  assert (Hne : modelsOf request <> []).
  { unfold modelsOf. destruct (OrchestrationRequest.models request) as [models|].
    - intros ->. apply Hgiven. reflexivity.
    - discriminate. }
  split; [exact Hne|].
  split; [unfold modelsOf; intros ->; reflexivity|].
  split; [unfold modelsOf; intros models ->; reflexivity|].
  rewrite orchestrate_run in Hrun.
  destruct (dispatch provider JSON_parse request (modelsOf request)
              (afterUserMessage request w)) as [[inner|e] w1] eqn:Hd; [|discriminate].
  injection Hrun as <- <-.
  split; [exact (dispatch_known _ _ _ _ _ _ _ Hd)|].
  exact (dispatch_models provider JSON_parse request _ _ _ _ Hne Hd).
Qed.

Lemma orchestrate_models_nonempty_witness :
  modelsOf (Examples.request "X" "specialist" None (Some false)) <> []
  /\ (OrchestrationRequest.models (Examples.request "X" "specialist" None (Some false))
      = None ->
      modelsOf (Examples.request "X" "specialist" None (Some false))
      = ["deepseek/deepseek-v3"; "deepseek/deepseek-r1-0528"; "anthropic/claude-sonnet-4"])
  /\ (forall models,
        OrchestrationRequest.models (Examples.request "X" "specialist" None (Some false))
        = Some models ->
        modelsOf (Examples.request "X" "specialist" None (Some false)) = models)
  /\ In (OrchestrationRequest.strategy (Examples.request "X" "specialist" None (Some false)))
        OrchestrationStrategy_values
  /\ OrchestrationResult.models
       (OrchestrationResult.mk "specialist" ["deepseek/deepseek-v3"]
          (Some [ProviderResponse.mk "deepseek/deepseek-v3" "OMEGA"])
          None None None None (Some "uuid-0"))
     <> []
  /\ forall model,
       In model
          (OrchestrationResult.models
             (OrchestrationResult.mk "specialist" ["deepseek/deepseek-v3"]
                (Some [ProviderResponse.mk "deepseek/deepseek-v3" "OMEGA"])
                None None None None (Some "uuid-0"))) ->
       In model (modelsOf (Examples.request "X" "specialist" None (Some false))).
Proof.
  apply (orchestrate_models_nonempty Examples.proseClassifier JsonSubset.parse
           (Examples.request "X" "specialist" None (Some false))
           Examples.world0
           (snd (orchestrate Examples.proseClassifier JsonSubset.parse
                   (Examples.request "X" "specialist" None (Some false))
                   Examples.world0))).
  - simpl. discriminate.
  - vm_compute. reflexivity.
Defined.

(** ** C7: a classification that cannot be parsed *)

(** C7, as stated, fails.  The classifier answers [null]: the call succeeds
    and the answer is JSON, though not the object that was asked for.  The
    engine does not fall back: [analyzePromptType] returns [null], which is
    not the default classification, and [orchestrate] throws the [TypeError]
    of [selectSpecialists]. *)
Lemma classification_null_is_not_replaced :
  Examples.nullClassifier (events Examples.world0)
    (complete (analysisPrompt "X") (fixedModel "openai/gpt-4o-mini"))
  = Ok "null"
  /\ fst (analyzePromptType Examples.nullClassifier JsonSubset.parse "X" Examples.world0)
     = Ok JNull
  /\ JNull <> defaultClassification
  /\ fst (orchestrate Examples.nullClassifier JsonSubset.parse
            (Examples.request "X" "specialist"
               (Some ["deepseek/deepseek-r1"; "openai/gpt-4o"]) (Some false))
            Examples.world0)
     = Throw (TypeErrorExn "Cannot read properties of null (reading 'primary')").
Proof.
  split; [reflexivity|]. split; [vm_compute; reflexivity|].
  split; [discriminate|]. vm_compute. reflexivity.
Qed.

(** C7, amended.  In the Specialist strategy, when the classification call
    succeeds and [JSON.parse] throws on its answer, [analyzePromptType]
    throws nothing: it returns the object with primary [coding], secondary
    [general] and complexity [medium] after the one provider call,
    [specialistRouting] goes on with [selectSpecialists] on that object, and
    this selection returns for every list of models.  An answer that
    [JSON.parse] accepts is not replaced: [analyzePromptType] returns the
    parsed value, whatever its shape, and [specialistRouting] goes on with
    it; for [null] it throws the [TypeError] of [selectSpecialists]. *)
Theorem analyzePromptType_falls_back
    (provider : list Event -> ProviderCall -> Res string)
    (JSON_parse : string -> Res JsValue)
    (request : OrchestrationRequest.t) (models : list string)
    (response : string) (w : World) :
  provider (events w)
    (complete (analysisPrompt (OrchestrationRequest.prompt request))
       (fixedModel "openai/gpt-4o-mini"))
  = Ok response ->
  (forall e,
     JSON_parse response = Throw e ->
     analyzePromptType provider JSON_parse (OrchestrationRequest.prompt request) w
     = (Ok defaultClassification,
        mkWorld (contextManager w)
          (events w
             ++ [ProviderCalled
                   (complete (analysisPrompt (OrchestrationRequest.prompt request))
                      (fixedModel "openai/gpt-4o-mini"))]))
     /\ getProperty defaultClassification "primary" = Ok (JStr "coding")
     /\ getProperty defaultClassification "secondary" = Ok (JStr "general")
     /\ getProperty defaultClassification "complexity" = Ok (JStr "medium")
     /\ (exists specialists,
           selectSpecialists defaultClassification models = Ok specialists)
     /\ specialistRouting provider JSON_parse request models w
        = (specialists <- liftRes (selectSpecialists defaultClassification models) ;;
           responses <- specialistLoop provider request specialists [] ;;
           ret (OrchestrationResult.mk OrchestrationStrategy_Specialist
                  (map Specialist.model specialists) (Some responses)
                  None None None None None))
            (mkWorld (contextManager w)
               (events w
                  ++ [ProviderCalled
                        (complete (analysisPrompt (OrchestrationRequest.prompt request))
                           (fixedModel "openai/gpt-4o-mini"))])))
  /\ (forall value,
        JSON_parse response = Ok value ->
        analyzePromptType provider JSON_parse (OrchestrationRequest.prompt request) w
        = (Ok value,
           mkWorld (contextManager w)
             (events w
                ++ [ProviderCalled
                      (complete (analysisPrompt (OrchestrationRequest.prompt request))
                         (fixedModel "openai/gpt-4o-mini"))]))
        /\ specialistRouting provider JSON_parse request models w
           = (specialists <- liftRes (selectSpecialists value models) ;;
              responses <- specialistLoop provider request specialists [] ;;
              ret (OrchestrationResult.mk OrchestrationStrategy_Specialist
                     (map Specialist.model specialists) (Some responses)
                     None None None None None))
               (mkWorld (contextManager w)
                  (events w
                     ++ [ProviderCalled
                           (complete (analysisPrompt (OrchestrationRequest.prompt request))
                              (fixedModel "openai/gpt-4o-mini"))])))
  /\ (JSON_parse response = Ok JNull ->
      fst (specialistRouting provider JSON_parse request models w)
      = Throw (TypeErrorExn "Cannot read properties of null (reading 'primary')")).
Proof.
  intros Hcall.
  assert (Hrun : forall outcome,
    JSON_parse response = outcome ->
    analyzePromptType provider JSON_parse (OrchestrationRequest.prompt request) w
    = (Ok match outcome with
          | Ok value => value
          | Throw _ => defaultClassification
          end,
       mkWorld (contextManager w)
         (events w
            ++ [ProviderCalled
                  (complete (analysisPrompt (OrchestrationRequest.prompt request))
                     (fixedModel "openai/gpt-4o-mini"))]))).
  { intros outcome Hparse. unfold analyzePromptType, bind, callProvider. rewrite Hcall.
    unfold tryCatch, liftRes. rewrite Hparse. destruct outcome; reflexivity. }
  split; [|split].
  - intros e Hparse. specialize (Hrun _ Hparse). cbv iota in Hrun.
    split; [exact Hrun|].
    repeat (split; [reflexivity|]).
    split.
    + apply (selectSpecialists_returns _ models (JStr "coding") (JStr "general"));
        reflexivity.
    + unfold specialistRouting. rewrite (bind_run_Ok _ _ _ _ _ Hrun). reflexivity.
  - intros value Hparse. specialize (Hrun _ Hparse). cbv iota in Hrun.
    split; [exact Hrun|].
    unfold specialistRouting. rewrite (bind_run_Ok _ _ _ _ _ Hrun). reflexivity.
  - intros Hparse. specialize (Hrun _ Hparse). cbv iota in Hrun.
    unfold specialistRouting. rewrite (bind_run_Ok _ _ _ _ _ Hrun). reflexivity.
Qed.

Lemma analyzePromptType_falls_back_witness :
  analyzePromptType Examples.proseClassifier JsonSubset.parse "X" Examples.world0
  = (Ok defaultClassification,
     mkWorld (contextManager Examples.world0)
       (events Examples.world0
          ++ [ProviderCalled
                (complete (analysisPrompt "X") (fixedModel "openai/gpt-4o-mini"))]))
  /\ getProperty defaultClassification "primary" = Ok (JStr "coding")
  /\ getProperty defaultClassification "secondary" = Ok (JStr "general")
  /\ getProperty defaultClassification "complexity" = Ok (JStr "medium")
  /\ (exists specialists,
        selectSpecialists defaultClassification ["deepseek/deepseek-r1"; "openai/gpt-4o"]
        = Ok specialists)
  /\ specialistRouting Examples.proseClassifier JsonSubset.parse
       (Examples.request "X" "specialist" None (Some false))
       ["deepseek/deepseek-r1"; "openai/gpt-4o"] Examples.world0
     = (specialists <-
          liftRes (selectSpecialists defaultClassification
                     ["deepseek/deepseek-r1"; "openai/gpt-4o"]) ;;
        responses <-
          specialistLoop Examples.proseClassifier
            (Examples.request "X" "specialist" None (Some false)) specialists [] ;;
        ret (OrchestrationResult.mk OrchestrationStrategy_Specialist
               (map Specialist.model specialists) (Some responses)
               None None None None None))
         (mkWorld (contextManager Examples.world0)
            (events Examples.world0
               ++ [ProviderCalled
                     (complete (analysisPrompt "X") (fixedModel "openai/gpt-4o-mini"))])).
Proof.
  apply (proj1 (analyzePromptType_falls_back Examples.proseClassifier JsonSubset.parse
                  (Examples.request "X" "specialist" None (Some false))
                  ["deepseek/deepseek-r1"; "openai/gpt-4o"]
                  "This looks like a coding task." Examples.world0 eq_refl)
           (SyntaxErrorExn "Unexpected token in JSON")).
  vm_compute. reflexivity.
Defined.

(** ** parallelProcessing *)

Lemma providerOutcomes_length provider evs calls :
  List.length (providerOutcomes provider evs calls) = List.length calls.
Proof.
  revert evs. induction calls as [|call rest IH]; intros evs; simpl; auto.
Qed.

Lemma filterBoolean_settled models outcomes :
  filterBoolean (settled models outcomes) = successes models outcomes.
Proof.
  revert outcomes. induction models as [|model rest IH]; intros [|[response|e] outcomes];
    simpl; rewrite ?IH; reflexivity.
Qed.

Lemma successes_length models outcomes :
  List.length outcomes = List.length models ->
  List.length (successes models outcomes) + failures outcomes = List.length models.
Proof.
  unfold failures. revert outcomes.
  induction models as [|model rest IH]; intros [|[response|e] outcomes] Hlen;
    simpl in *; try discriminate; try reflexivity;
    injection Hlen as Hlen; specialize (IH _ Hlen); lia.
Qed.

Lemma successes_all models outcomes :
  List.length outcomes = List.length models ->
  failures outcomes = 0 ->
  map ProviderResponse.model (successes models outcomes) = models
  /\ map (fun r => Ok (ProviderResponse.response r)) (successes models outcomes)
     = outcomes.
Proof.
  unfold failures. revert outcomes.
  induction models as [|model rest IH]; intros [|[response|e] outcomes] Hlen Hnone;
    simpl in *; try discriminate; auto.
  injection Hlen as Hlen. destruct (IH _ Hlen Hnone) as [H1 H2].
  rewrite H1, H2. auto.
Qed.

Section Parallel.

Variable provider : list Event -> ProviderCall -> Res string.
Variable JSON_parse : string -> Res JsValue.
Variable request : OrchestrationRequest.t.

Lemma readHistory_run w :
  readHistory request w = (Ok (historyAt request w), afterRead request w).
Proof.
  unfold readHistory, historyAt, afterRead.
  destruct (usesContext request); [|reflexivity].
  unfold contextManager_getConversationHistory.
  destruct (ContextManager.getConversationHistory None 50 (contextManager w));
    reflexivity.
Qed.

Lemma afterRead_events w : events (afterRead request w) = events w.
Proof. unfold afterRead. destruct (usesContext request); reflexivity. Qed.

Lemma parallelCall_run history model w :
  parallelCall provider request history model w
  = (Ok match provider (events w) (parallelRequestOf request history model) with
        | Ok response => Some (ProviderResponse.mk model response)
        | Throw _ => None
        end,
     mkWorld (contextManager w)
       (events w ++ [ProviderCalled (parallelRequestOf request history model)])).
Proof.
  unfold parallelCall, tryCatch, bind, callProvider, parallelRequestOf.
  destruct (provider (events w) _); reflexivity.
Qed.

Lemma promiseAll_parallel_run history models w :
  promiseAll (parallelCall provider request history) models w
  = (Ok (settled models
           (providerOutcomes provider (events w)
              (map (parallelRequestOf request history) models))),
     mkWorld (contextManager w)
       (events w ++ map ProviderCalled (map (parallelRequestOf request history) models))).
Proof.
  revert w. induction models as [|model rest IH]; intros w; simpl.
  - unfold ret. rewrite app_nil_r. destruct w; reflexivity.
  - unfold bind at 1. rewrite parallelCall_run.
    unfold bind at 1. rewrite IH. unfold ret. cbn [contextManager events].
    rewrite <- app_assoc. simpl.
    destruct (provider (events w) (parallelRequestOf request history model));
      reflexivity.
Qed.

Lemma dispatch_parallel models :
  OrchestrationRequest.strategy request = OrchestrationStrategy_Parallel ->
  dispatch provider JSON_parse request models = parallelProcessing provider request models.
Proof.
  intros H. unfold dispatch. rewrite H. reflexivity.
Qed.

(** A parallel [orchestrate] call, step by step. *)
Lemma orchestrate_parallel_run w :
  OrchestrationRequest.strategy request = OrchestrationStrategy_Parallel ->
  orchestrate provider JSON_parse request w
  = match synthesisOutcome provider request w with
    | Throw e => (Throw e, afterSynthesisCall provider request w)
    | Ok synthesis =>
        (Ok (OrchestrationResult.mk OrchestrationStrategy_Parallel (modelsOf request)
               (Some (successes (modelsOf request) (parallelOutcomes provider request w)))
               None (Some synthesis) None None
               (Some (ContextManager.currentConversationId
                        (contextManager (afterSynthesis provider request w synthesis))))),
         afterSynthesis provider request w synthesis)
    end.
Proof.
  intros Hstrategy.
  rewrite orchestrate_run, (dispatch_parallel _ Hstrategy).
  unfold parallelProcessing.
  unfold bind at 1. rewrite readHistory_run.
  unfold bind at 1. rewrite promiseAll_parallel_run.
  rewrite filterBoolean_settled, afterRead_events.
  unfold bind at 1. unfold synthesizeResponses, callProvider.
  cbn [contextManager events].
  fold (historySnapshot request w). fold (parallelCalls request w).
  fold (parallelOutcomes provider request w).
  fold (synthesisCall provider request w).
  fold (synthesisOutcome provider request w).
  rewrite <- app_assoc. fold (afterSynthesisCall provider request w).
  destruct (synthesisOutcome provider request w) as [synthesis|e]; [|reflexivity].
  unfold afterSynthesis, when, bind, ret.
  destruct (usesContext request && negb (String.eqb synthesis EmptyString));
    [rewrite addMessage_run by reflexivity|]; reflexivity.
Qed.

End Parallel.

(** ** C2: a synthesis call that fails *)

(** C2, as stated, fails: both per-model calls succeed, the synthesis call
    fails, and [orchestrate] throws the provider's error instead of returning
    a result without synthesis. *)
Lemma parallel_synthesis_failure_escapes :
  parallelOutcomes Examples.noSynthesis
    (Examples.request "X" "parallel" (Some ["A"; "B"]) (Some false)) Examples.world0
  = [Ok "ALPHA"; Ok "BETA"]
  /\ synthesisOutcome Examples.noSynthesis
       (Examples.request "X" "parallel" (Some ["A"; "B"]) (Some false)) Examples.world0
     = Throw Examples.unavailable
  /\ fst (orchestrate Examples.noSynthesis JsonSubset.parse
            (Examples.request "X" "parallel" (Some ["A"; "B"]) (Some false))
            Examples.world0)
     = Throw (ErrorExn "OpenRouter completion failed: 503").
Proof.
  split; [reflexivity|]. split; [reflexivity|]. vm_compute. reflexivity.
Qed.

(** C2, amended.  In the Parallel strategy, whatever the per-model calls did,
    when the extra synthesis call fails [orchestrate] fails with the error of
    that call: the failure reaches the caller and no result is returned. *)
Theorem parallel_synthesis_failure_propagates
    (provider : list Event -> ProviderCall -> Res string)
    (JSON_parse : string -> Res JsValue)
    (request : OrchestrationRequest.t) (w : World) (e : Exn) :
  OrchestrationRequest.strategy request = OrchestrationStrategy_Parallel ->
  synthesisOutcome provider request w = Throw e ->
  fst (orchestrate provider JSON_parse request w) = Throw e
  /\ (forall result, fst (orchestrate provider JSON_parse request w) <> Ok result)
  /\ providerCalls (events (snd (orchestrate provider JSON_parse request w)))
     = providerCalls (events w)
         ++ parallelCalls request w ++ [synthesisCall provider request w].
Proof.
  intros Hstrategy Hsynthesis.
  rewrite (orchestrate_parallel_run provider JSON_parse request w Hstrategy), Hsynthesis.
  cbn [fst snd]. split; [reflexivity|]. split; [discriminate|].
  unfold afterSynthesisCall. cbn [events].
  rewrite !providerCalls_app, providerCalls_calls, afterUserMessage_providerCalls.
  reflexivity.
Qed.

Lemma parallel_synthesis_failure_propagates_witness :
  fst (orchestrate Examples.noSynthesis JsonSubset.parse
         (Examples.request "X" "parallel" (Some ["A"; "B"]) None) Examples.world0)
  = Throw Examples.unavailable
  /\ (forall result,
        fst (orchestrate Examples.noSynthesis JsonSubset.parse
               (Examples.request "X" "parallel" (Some ["A"; "B"]) None) Examples.world0)
        <> Ok result)
  /\ providerCalls
       (events
          (snd (orchestrate Examples.noSynthesis JsonSubset.parse
                  (Examples.request "X" "parallel" (Some ["A"; "B"]) None)
                  Examples.world0)))
     = providerCalls (events Examples.world0)
         ++ parallelCalls (Examples.request "X" "parallel" (Some ["A"; "B"]) None)
              Examples.world0
         ++ [synthesisCall Examples.noSynthesis
               (Examples.request "X" "parallel" (Some ["A"; "B"]) None) Examples.world0].
Proof.
  apply (parallel_synthesis_failure_propagates Examples.noSynthesis JsonSubset.parse
           (Examples.request "X" "parallel" (Some ["A"; "B"]) None) Examples.world0
           Examples.unavailable).
  - reflexivity.
  - reflexivity.
Defined.

(** ** C5: partial failure in the Parallel strategy *)

(** C5.  In the Parallel strategy over N models, the run issues the N
    per-model calls in the order of the list and then the synthesis call.
    With K of the N answers being failures, the responses of a result are the
    N-K answers that came, in the order of the list, each under the model
    that gave it; with no failure they are N, their models are the list and
    their texts the answers.  No failure of a per-model call escapes: the
    call throws only what the synthesis call throws, and returns a result
    whenever the synthesis call answers. *)
Theorem parallel_partial_failure
    (provider : list Event -> ProviderCall -> Res string)
    (JSON_parse : string -> Res JsValue)
    (request : OrchestrationRequest.t) (w : World) :
  OrchestrationRequest.strategy request = OrchestrationStrategy_Parallel ->
  List.length (parallelOutcomes provider request w) = List.length (modelsOf request)
  /\ List.length (successes (modelsOf request) (parallelOutcomes provider request w))
     = List.length (modelsOf request) - failures (parallelOutcomes provider request w)
  /\ (failures (parallelOutcomes provider request w) = 0 ->
      map ProviderResponse.model
          (successes (modelsOf request) (parallelOutcomes provider request w))
      = modelsOf request
      /\ map (fun r => Ok (ProviderResponse.response r))
             (successes (modelsOf request) (parallelOutcomes provider request w))
         = parallelOutcomes provider request w)
  /\ (forall result w',
        orchestrate provider JSON_parse request w = (Ok result, w') ->
        OrchestrationResult.responses result
        = Some (successes (modelsOf request) (parallelOutcomes provider request w)))
  /\ (forall e,
        fst (orchestrate provider JSON_parse request w) = Throw e ->
        synthesisOutcome provider request w = Throw e)
  /\ (forall synthesis,
        synthesisOutcome provider request w = Ok synthesis ->
        exists result,
          fst (orchestrate provider JSON_parse request w) = Ok result
          /\ OrchestrationResult.synthesis result = Some synthesis)
  /\ providerCalls (events (snd (orchestrate provider JSON_parse request w)))
     = providerCalls (events w)
         ++ parallelCalls request w ++ [synthesisCall provider request w].
Proof.
  intros Hstrategy.
  assert (Hlen : List.length (parallelOutcomes provider request w)
                 = List.length (modelsOf request)).
  { unfold parallelOutcomes, parallelCalls.
    rewrite providerOutcomes_length. apply length_map. }
  pose proof (successes_length _ _ Hlen) as Hcount.
  rewrite (orchestrate_parallel_run provider JSON_parse request w Hstrategy).
  split; [exact Hlen|]. split; [lia|].
  split; [apply successes_all; exact Hlen|].
  split.
  { intros result w' H.
    destruct (synthesisOutcome provider request w); [|discriminate].
    injection H as <- _. reflexivity. }
  split.
  { intros e H.
    destruct (synthesisOutcome provider request w); [discriminate|].
    cbn [fst] in H. injection H as ->. reflexivity. }
  split.
  { intros synthesis ->. eexists. split; reflexivity. }
  assert (Hcalls :
    providerCalls (events (afterSynthesisCall provider request w))
    = providerCalls (events w)
        ++ parallelCalls request w ++ [synthesisCall provider request w]).
  { unfold afterSynthesisCall. cbn [events].
    rewrite !providerCalls_app, providerCalls_calls, afterUserMessage_providerCalls.
    reflexivity. }
  destruct (synthesisOutcome provider request w) as [synthesis|e]; cbn [snd].
  - unfold afterSynthesis.
    destruct (usesContext request && negb (String.eqb synthesis EmptyString));
      [|exact Hcalls].
    cbn [events]. rewrite providerCalls_app, Hcalls. simpl. apply app_nil_r.
  - exact Hcalls.
Qed.

Lemma parallel_partial_failure_witness :
  List.length
    (parallelOutcomes Examples.withoutB
       (Examples.request "X" "parallel" (Some ["A"; "B"; "C"]) (Some false))
       Examples.world0)
  = 3
  /\ List.length
       (successes ["A"; "B"; "C"]
          (parallelOutcomes Examples.withoutB
             (Examples.request "X" "parallel" (Some ["A"; "B"; "C"]) (Some false))
             Examples.world0))
     = 3 - 1
  /\ (failures
        (parallelOutcomes Examples.withoutB
           (Examples.request "X" "parallel" (Some ["A"; "B"; "C"]) (Some false))
           Examples.world0)
      = 0 ->
      map ProviderResponse.model
          (successes ["A"; "B"; "C"]
             (parallelOutcomes Examples.withoutB
                (Examples.request "X" "parallel" (Some ["A"; "B"; "C"]) (Some false))
                Examples.world0))
      = ["A"; "B"; "C"]
      /\ map (fun r => Ok (ProviderResponse.response r))
             (successes ["A"; "B"; "C"]
                (parallelOutcomes Examples.withoutB
                   (Examples.request "X" "parallel" (Some ["A"; "B"; "C"]) (Some false))
                   Examples.world0))
         = parallelOutcomes Examples.withoutB
             (Examples.request "X" "parallel" (Some ["A"; "B"; "C"]) (Some false))
             Examples.world0)
  /\ (forall result w',
        orchestrate Examples.withoutB JsonSubset.parse
          (Examples.request "X" "parallel" (Some ["A"; "B"; "C"]) (Some false))
          Examples.world0
        = (Ok result, w') ->
        OrchestrationResult.responses result
        = Some [ProviderResponse.mk "A" "ALPHA"; ProviderResponse.mk "C" "GAMMA"])
  /\ (forall e,
        fst (orchestrate Examples.withoutB JsonSubset.parse
               (Examples.request "X" "parallel" (Some ["A"; "B"; "C"]) (Some false))
               Examples.world0)
        = Throw e ->
        synthesisOutcome Examples.withoutB
          (Examples.request "X" "parallel" (Some ["A"; "B"; "C"]) (Some false))
          Examples.world0
        = Throw e)
  /\ (forall synthesis,
        synthesisOutcome Examples.withoutB
          (Examples.request "X" "parallel" (Some ["A"; "B"; "C"]) (Some false))
          Examples.world0
        = Ok synthesis ->
        exists result,
          fst (orchestrate Examples.withoutB JsonSubset.parse
                 (Examples.request "X" "parallel" (Some ["A"; "B"; "C"]) (Some false))
                 Examples.world0)
          = Ok result
          /\ OrchestrationResult.synthesis result = Some synthesis)
  /\ providerCalls
       (events
          (snd (orchestrate Examples.withoutB JsonSubset.parse
                  (Examples.request "X" "parallel" (Some ["A"; "B"; "C"]) (Some false))
                  Examples.world0)))
     = providerCalls (events Examples.world0)
         ++ parallelCalls
              (Examples.request "X" "parallel" (Some ["A"; "B"; "C"]) (Some false))
              Examples.world0
         ++ [synthesisCall Examples.withoutB
               (Examples.request "X" "parallel" (Some ["A"; "B"; "C"]) (Some false))
               Examples.world0].
Proof.
  apply (parallel_partial_failure Examples.withoutB JsonSubset.parse
           (Examples.request "X" "parallel" (Some ["A"; "B"; "C"]) (Some false))
           Examples.world0).
  reflexivity.
Defined.

(** ** Texts inside texts *)

Lemma append_assoc (a b c : string) : ((a ++ b) ++ c = a ++ (b ++ c))%string.
Proof.
  induction a as [|ch a IH]; simpl; [reflexivity | rewrite IH; reflexivity].
Qed.

Lemma append_empty_r (s : string) : (s ++ EmptyString)%string = s.
Proof.
  induction s as [|ch s IH]; simpl; [reflexivity | rewrite IH; reflexivity].
Qed.

Lemma embeds_refl (s : string) : embeds s s.
Proof.
  exists EmptyString, EmptyString. simpl. rewrite append_empty_r. reflexivity.
Qed.

Lemma embeds_trans (a b c : string) : embeds a b -> embeds b c -> embeds a c.
Proof.
  intros (p1 & q1 & ->) (p2 & q2 & ->).
  exists (p2 ++ p1)%string, (q1 ++ q2)%string.
  rewrite !append_assoc. reflexivity.
Qed.

Lemma embeds_append_l (x a b : string) : embeds x a -> embeds x (a ++ b)%string.
Proof.
  intros (p & q & ->). exists p, (q ++ b)%string. rewrite !append_assoc. reflexivity.
Qed.

Lemma embeds_append_r (x a b : string) : embeds x b -> embeds x (a ++ b)%string.
Proof.
  intros (p & q & ->). exists (a ++ p)%string, q. rewrite !append_assoc. reflexivity.
Qed.

Lemma embeds_cat (x : string) (l : list string) : In x l -> embeds x (cat l).
Proof.
  induction l as [|y l IH]; intros Hin; [destruct Hin|].
  simpl. destruct Hin as [->|Hin].
  - apply embeds_append_l, embeds_refl.
  - apply embeds_append_r, IH, Hin.
Qed.

Lemma embeds_join (sep x : string) (l : list string) : In x l -> embeds x (join sep l).
Proof.
  induction l as [|y l IH]; intros Hin; [destruct Hin|].
  destruct l as [|z l].
  - destruct Hin as [->|[]]. apply embeds_refl.
  - change (join sep (y :: z :: l)) with (y ++ sep ++ join sep (z :: l))%string.
    destruct Hin as [->|Hin].
    + apply embeds_append_l, embeds_refl.
    + apply embeds_append_r, embeds_append_r, IH, Hin.
Qed.






(** ** sequentialProcessing *)

Section Sequential.

Variable provider : list Event -> ProviderCall -> Res string.
Variable JSON_parse : string -> Res JsValue.
Variable request : OrchestrationRequest.t.
Hypothesis withContext : usesContext request = true.

Lemma callProvider_Ok call w w' response :
  callProvider provider call w = (Ok response, w') ->
  provider (events w) call = Ok response
  /\ w' = mkWorld (contextManager w) (events w ++ [ProviderCalled call]).
Proof.
  unfold callProvider. intros H. injection H as H1 H2. auto.
Qed.


Lemma dispatch_sequential models :
  OrchestrationRequest.strategy request = OrchestrationStrategy_Sequential ->
  dispatch provider JSON_parse request models
  = sequentialProcessing provider request models.
Proof.
  intros H. unfold dispatch. rewrite H. reflexivity.
Qed.


End Sequential.

Lemma messagesAdded_sequentialEvents request history currentPrompt responses :
  messagesAdded (sequentialEvents request history currentPrompt responses)
  = map (fun r => assistantMessage (ProviderResponse.response r)
                    (ProviderResponse.model r) None)
        responses.
Proof.
  revert currentPrompt.
  induction responses as [|r rest IH]; intros currentPrompt; simpl;
    [reflexivity | rewrite IH; reflexivity].
Qed.

(** ** C3: what a later model of the Sequential strategy is sent *)




(** ** debateMode *)

Lemma formatDebateHistory_embeds rounds round response :
  In round rounds ->
  In response (DebateRound.responses round) ->
  embeds (ProviderResponse.response response) (formatDebateHistory rounds).
Proof.
  intros Hround Hresponse. unfold formatDebateHistory.
  apply embeds_trans with (formatRound round).
  - unfold formatRound.
    apply embeds_trans
      with (join (cat [nl; nl])
              (map (fun r => cat [ProviderResponse.model r; ": "; ProviderResponse.response r])
                   (DebateRound.responses round))).
    + apply embeds_trans
        with (cat [ProviderResponse.model response; ": ";
                   ProviderResponse.response response]).
      * apply embeds_cat. simpl. tauto.
      * apply embeds_join.
        apply (in_map (fun r => cat [ProviderResponse.model r; ": ";
                                     ProviderResponse.response r])).
        exact Hresponse.
    + apply embeds_cat. simpl. tauto.
  - apply embeds_join. apply in_map. exact Hround.
Qed.

Lemma debatePrompt_embeds debateContext i rounds round response :
  0 < i ->
  In round rounds ->
  In response (DebateRound.responses round) ->
  embeds (ProviderResponse.response response) (debatePrompt debateContext i rounds).
Proof.
  intros Hi Hround Hresponse. destruct i as [|i]; [lia|].
  unfold debatePrompt.
  apply embeds_trans with (formatDebateHistory rounds).
  - apply formatDebateHistory_embeds with round; assumption.
  - apply embeds_cat. simpl. tauto.
Qed.

Lemma firstn_prefix {A} (l l' : list A) : firstn (List.length l) (l ++ l') = l.
Proof.
  rewrite firstn_app, Nat.sub_diag, firstn_all. simpl. apply app_nil_r.
Qed.

Section Debate.

Variable provider : list Event -> ProviderCall -> Res string.
Variable JSON_parse : string -> Res JsValue.
Variable request : OrchestrationRequest.t.

(** One round: a response per model, and the same prompt to each. *)
Lemma debateRound_Ok debateContext round rounds models roundResponses w w' out :
  debateRound provider request debateContext round rounds models roundResponses w
  = (Ok out, w') ->
  exists new,
    out = roundResponses ++ new
    /\ map ProviderResponse.model new = models
    /\ contextManager w' = contextManager w
    /\ events w'
       = events w
           ++ map (fun model =>
                     ProviderCalled
                       (complete (debatePrompt debateContext round rounds)
                          (withModel (OrchestrationRequest.options request) model)))
                  models.
Proof.
  revert roundResponses w.
  induction models as [|model rest IH]; intros roundResponses w H.
  - simpl in H. ret_inv H. exists []. rewrite !app_nil_r. auto.
  - simpl in H. bind_inv H.
    apply callProvider_Ok in Hrun. destruct Hrun as [_ ->].
    apply IH in H. destruct H as (new & -> & Hmodels & Hcm & Hevents).
    exists (ProviderResponse.mk model a :: new).
    rewrite <- app_assoc. split; [reflexivity|]. split; [simpl; congruence|].
    split; [exact Hcm|].
    rewrite Hevents. cbn [events]. rewrite <- app_assoc. reflexivity.
Qed.

(** The rounds: [todo] more, numbered on from [round], each shown the rounds
    before it. *)
Lemma debateLoop_Ok models todo round rounds w w' out :
  List.length rounds = round ->
  debateLoop provider request (OrchestrationRequest.prompt request) models todo round rounds w
  = (Ok out, w') ->
  exists new,
    out = rounds ++ new
    /\ List.length new = todo
    /\ map DebateRound.round new = seq (round + 1) todo
    /\ Forall (fun r => map ProviderResponse.model (DebateRound.responses r) = models) new
    /\ contextManager w' = contextManager w
    /\ events w'
       = events w ++ flat_map (debateRoundCalls request models out) (seq round todo).
Proof.
  revert round rounds w.
  induction todo as [|todo IH]; intros round rounds w Hlen H.
  - simpl in H. ret_inv H. exists []. rewrite !app_nil_r. simpl.
    repeat split; auto.
  - simpl in H. bind_inv H.
    apply debateRound_Ok in Hrun.
    destruct Hrun as (responses & Ha & Hmodels & Hcm1 & Hev1). simpl in Ha. subst a.
    apply IH in H; [|rewrite length_app; simpl; lia].
    destruct H as (new & -> & Hnew & Hnumbers & Hall & Hcm & Hevents).
    exists (DebateRound.mk (round + 1) responses :: new).
    rewrite <- app_assoc. split; [reflexivity|].
    split; [simpl; congruence|].
    split.
    { simpl. rewrite Hnumbers. replace (S round + 1) with (S (round + 1)) by lia.
      reflexivity. }
    split; [constructor; [exact Hmodels | exact Hall]|].
    split; [congruence|].
    rewrite Hevents, Hev1, <- !app_assoc. simpl.
    unfold debateRoundCalls at 2. rewrite <- Hlen, firstn_prefix. reflexivity.
Qed.

Lemma debateRound_returns debateContext round rounds models roundResponses w :
  alwaysAnswers provider ->
  exists out w',
    debateRound provider request debateContext round rounds models roundResponses w
    = (Ok out, w').
Proof.
  intros Hanswers. revert roundResponses w.
  induction models as [|model rest IH]; intros roundResponses w; simpl.
  - unfold ret. eauto.
  - unfold bind at 1, callProvider.
    destruct (Hanswers (events w)
                (complete (debatePrompt debateContext round rounds)
                   (withModel (OrchestrationRequest.options request) model)))
      as [text ->].
    apply IH.
Qed.

Lemma debateLoop_returns debateContext models todo round rounds w :
  alwaysAnswers provider ->
  exists out w',
    debateLoop provider request debateContext models todo round rounds w = (Ok out, w').
Proof.
  intros Hanswers. revert round rounds w.
  induction todo as [|todo IH]; intros round rounds w; simpl.
  - unfold ret. eauto.
  - unfold bind at 1.
    destruct (debateRound_returns debateContext round rounds models [] w Hanswers)
      as (responses & w1 & ->).
    apply IH.
Qed.

Lemma dispatch_debate models :
  OrchestrationRequest.strategy request = OrchestrationStrategy_Debate ->
  dispatch provider JSON_parse request models = debateMode provider request models.
Proof.
  intros H. unfold dispatch. rewrite H. reflexivity.
Qed.

Lemma debateMode_returns models w :
  alwaysAnswers provider ->
  exists result w', debateMode provider request models w = (Ok result, w').
Proof.
  intros Hanswers. unfold debateMode.
  destruct (debateLoop_returns (OrchestrationRequest.prompt request) models
              (Z.to_nat (maxRoundsOf request)) 0 [] w Hanswers) as (rounds & w1 & Hloop).
  rewrite (bind_run_Ok _ _ _ _ _ Hloop).
  unfold bind at 1, generateDebateConclusion, callProvider.
  destruct (Hanswers (events w1)
              (complete (conclusionPrompt rounds (OrchestrationRequest.prompt request))
                 (fixedModel "openai/gpt-4o"))) as [conclusion ->].
  unfold when, bind, ret.
  destruct (usesContext request); [rewrite addMessage_run by reflexivity|]; eauto.
Qed.

Lemma debateMode_Ok models w w' result :
  debateMode provider request models w = (Ok result, w') ->
  exists rounds conclusion,
    OrchestrationResult.rounds result = Some rounds
    /\ OrchestrationResult.conclusion result = Some conclusion
    /\ List.length rounds = Z.to_nat (maxRoundsOf request)
    /\ map DebateRound.round rounds = seq 1 (List.length rounds)
    /\ Forall (fun r => map ProviderResponse.model (DebateRound.responses r) = models)
              rounds
    /\ events w'
       = events w
           ++ flat_map (debateRoundCalls request models rounds)
                (seq 0 (List.length rounds))
           ++ ProviderCalled
                (complete (conclusionPrompt rounds (OrchestrationRequest.prompt request))
                   (fixedModel "openai/gpt-4o"))
           :: (if usesContext request
               then [MessageAdded (conclusionMessage request models conclusion)]
               else []).
Proof.
  unfold debateMode. intros H. bind_inv H.
  apply debateLoop_Ok in Hrun; [|reflexivity].
  destruct Hrun as (rounds & Ha & Hlen & Hnumbers & Hall & Hcm & Hevents).
  simpl in Ha. subst a.
  bind_inv H. unfold generateDebateConclusion in Hrun.
  apply callProvider_Ok in Hrun. destruct Hrun as [_ ->].
  bind_inv H. ret_inv H.
  exists rounds, a. rewrite Hlen.
  repeat (split; [first [reflexivity | assumption]|]).
  unfold when in Hrun. destruct (usesContext request).
  - unfold bind in Hrun. rewrite addMessage_run in Hrun by reflexivity. ret_inv Hrun.
    cbn [events]. rewrite Hevents, <- !app_assoc. reflexivity.
  - ret_inv Hrun. cbn [events]. rewrite Hevents, <- !app_assoc. reflexivity.
Qed.

End Debate.

(** ** C6: the rounds of a debate *)

(** C6.  In the Debate strategy a result has [maxRounds] rounds: 3 when
    [options.maxRounds] is not given, and the given number when it is a
    positive integer; they are numbered from 1 and hold one response per
    model.  The run calls, round by round and model by model, [complete]
    with the prompt of the round, then [complete] for the conclusion.  The
    prompt of the first round is the request's prompt and nothing else (and
    [complete] takes no message list); the prompt of every later round
    embeds every response of every round before it.  When the provider
    answers every call, the run returns a result. *)
Theorem debate_rounds
    (provider : list Event -> ProviderCall -> Res string)
    (JSON_parse : string -> Res JsValue)
    (request : OrchestrationRequest.t) (w : World) :
  OrchestrationRequest.strategy request = OrchestrationStrategy_Debate ->
  (forall result w',
     orchestrate provider JSON_parse request w = (Ok result, w') ->
     exists rounds conclusion,
       OrchestrationResult.rounds result = Some rounds
       /\ OrchestrationResult.conclusion result = Some conclusion
       /\ List.length rounds = Z.to_nat (maxRoundsOf request)
       /\ (requestedRounds request = None -> List.length rounds = 3)
       /\ (forall n, requestedRounds request = Some n -> (0 < n)%Z ->
           Z.of_nat (List.length rounds) = n)
       /\ map DebateRound.round rounds = seq 1 (List.length rounds)
       /\ Forall (fun r => map ProviderResponse.model (DebateRound.responses r)
                           = modelsOf request)
                 rounds
       /\ events w'
          = events (afterUserMessage request w)
              ++ flat_map (debateRoundCalls request (modelsOf request) rounds)
                   (seq 0 (List.length rounds))
              ++ ProviderCalled
                   (complete
                      (conclusionPrompt rounds (OrchestrationRequest.prompt request))
                      (fixedModel "openai/gpt-4o"))
              :: (if usesContext request
                  then [MessageAdded
                          (conclusionMessage request (modelsOf request) conclusion)]
                  else [])
       /\ debateRoundCalls request (modelsOf request) rounds 0
          = map (fun model =>
                   ProviderCalled
                     (complete (OrchestrationRequest.prompt request)
                        (withModel (OrchestrationRequest.options request) model)))
                (modelsOf request)
       /\ forall i j round response,
            j < i ->
            nth_error rounds j = Some round ->
            In response (DebateRound.responses round) ->
            embeds (ProviderResponse.response response)
              (debatePrompt (OrchestrationRequest.prompt request) i (firstn i rounds)))
  /\ (alwaysAnswers provider ->
      exists result w', orchestrate provider JSON_parse request w = (Ok result, w')).
Proof.
  intros Hstrategy. split.
  - intros result w' H.
    rewrite orchestrate_run, (dispatch_debate _ _ _ _ Hstrategy) in H.
    destruct (debateMode provider request (modelsOf request)
                (afterUserMessage request w)) as [[inner|e] w1] eqn:Hdebate;
      [|discriminate].
    injection H as <- <-.
    apply debateMode_Ok in Hdebate.
    destruct Hdebate as (rounds & conclusion & Hr & Hc & Hlen & Hnum & Hall & Hev).
    exists rounds, conclusion.
    split; [exact Hr|]. split; [exact Hc|]. split; [exact Hlen|].
    split.
    { intros Hnone. rewrite Hlen. unfold maxRoundsOf. rewrite Hnone. reflexivity. }
    split.
    { intros n Hsome Hpos. rewrite Hlen. unfold maxRoundsOf. rewrite Hsome.
      destruct (Z.eqb_spec n 0) as [->|_]; [lia|]. apply Z2Nat.id. lia. }
    split; [exact Hnum|]. split; [exact Hall|]. split; [exact Hev|].
    split; [reflexivity|].
    intros i j round response Hji Hnth Hin.
    apply debatePrompt_embeds with round; [lia| |exact Hin].
    apply nth_error_In with j. rewrite nth_error_firstn.
    destruct (Nat.ltb_spec j i); [exact Hnth | lia].
  - intros Hanswers.
    rewrite orchestrate_run, (dispatch_debate _ _ _ _ Hstrategy).
    destruct (debateMode_returns provider request (modelsOf request)
                (afterUserMessage request w) Hanswers) as (result & w' & ->).
    eauto.
Qed.

Lemma debate_rounds_witness :
  exists rounds,
    OrchestrationResult.rounds
      (Examples.resultOf
         (orchestrate Examples.greek JsonSubset.parse (Examples.debateAB 2)
            Examples.world0))
    = Some rounds
    /\ Z.of_nat (List.length rounds) = 2%Z
    /\ embeds "ALPHA" (debatePrompt "p" 1 (firstn 1 rounds)).
Proof.
  destruct (debate_rounds Examples.greek JsonSubset.parse (Examples.debateAB 2)
              Examples.world0 eq_refl) as [Hresult _].
  destruct (Hresult
              (Examples.resultOf
                 (orchestrate Examples.greek JsonSubset.parse (Examples.debateAB 2)
                    Examples.world0))
              (snd (orchestrate Examples.greek JsonSubset.parse (Examples.debateAB 2)
                      Examples.world0))
              eq_refl)
    as (rounds & conclusion & Hrounds & _ & _ & _ & Hgiven & _ & _ & _ & _ & Hembeds).
  exists rounds. split; [exact Hrounds|]. split.
  - apply Hgiven; reflexivity.
  - assert (Hsame : Some rounds
                    = Some [ DebateRound.mk 1 [ ProviderResponse.mk "A" "ALPHA";
                                                ProviderResponse.mk "B" "BETA" ];
                             DebateRound.mk 2 [ ProviderResponse.mk "A" "ALPHA";
                                                ProviderResponse.mk "B" "BETA" ] ]).
    { rewrite <- Hrounds. reflexivity. }
    injection Hsame as ->.
    apply (Hembeds 1 0
             (DebateRound.mk 1 [ ProviderResponse.mk "A" "ALPHA";
                                 ProviderResponse.mk "B" "BETA" ])
             (ProviderResponse.mk "A" "ALPHA")).
    + apply le_n.
    + reflexivity.
    + left. reflexivity.
Defined.

(** ** Worked examples of the classification and the selection *)

(** A classification that is the object asked for is routed by the table:
    three slots for [high], the [debugging] list first. *)
Example selectSpecialists_by_table :
  selectSpecialists
    (JObj [ ("primary", JStr "debugging"); ("secondary", JStr "planning");
            ("complexity", JStr "high") ])
    ["openai/gpt-4o"; "deepseek/deepseek-r1"; "google/gemini-2.5-pro-preview"]
  = Ok [ Specialist.mk "deepseek/deepseek-r1" "Selected for debugging tasks";
         Specialist.mk "openai/gpt-4o" "Selected for debugging tasks";
         Specialist.mk "google/gemini-2.5-pro-preview"
           "Secondary specialist for planning" ].
Proof. reflexivity. Qed.

(** A primary category outside the table has the one candidate
    [openai/gpt-4o]; when that model is available it is selected, and the
    fallback to the first available model is not taken. *)
Example selectSpecialists_unknown_category :
  selectSpecialists
    (JObj [ ("primary", JStr "general"); ("secondary", JStr "general");
            ("complexity", JStr "low") ])
    ["A"; "openai/gpt-4o"]
  = Ok [Specialist.mk "openai/gpt-4o" "Selected for general tasks"].
Proof. reflexivity. Qed.

(** [null] is valid JSON, and reading its [primary] throws. *)
Example selectSpecialists_null :
  selectSpecialists JNull ["A"]
  = Throw (TypeErrorExn "Cannot read properties of null (reading 'primary')").
Proof. reflexivity. Qed.

(** A category that names a member of [Object.prototype] finds a function,
    and the loop over it throws. *)
Example selectSpecialists_inherited_key :
  selectSpecialists (JObj [("primary", JStr "constructor")]) ["A"]
  = Throw (TypeErrorExn "primarySpecialists is not iterable").
Proof. reflexivity. Qed.

(** An answer that is JSON of another shape is used as parsed: the default
    classification is for answers that [JSON.parse] rejects only. *)
Example analyzePromptType_other_shape :
  fst (analyzePromptType
         (Examples.answerBy [("openai/gpt-4o-mini", Ok "42")] (Ok "OMEGA"))
         JsonSubset.parse "X" Examples.world0)
  = Ok (JNum "42")
  /\ selectSpecialists (JNum "42") ["A"; "B"] = Ok [Specialist.mk "A" "Default model"].
Proof. split; reflexivity. Qed.

(** The classifier's answer, read by the JSON reader, and the run it leads
    to. *)
Example specialist_run :
  fst (orchestrate Examples.jsonClassifier JsonSubset.parse
         (Examples.request "X" "specialist"
            (Some ["openai/gpt-4o"; "deepseek/deepseek-r1"]) (Some false))
         Examples.world0)
  = Ok (OrchestrationResult.mk "specialist" ["deepseek/deepseek-r1"; "openai/gpt-4o"]
          (Some [ ProviderResponse.mk "deepseek/deepseek-r1" "OMEGA";
                  ProviderResponse.mk "openai/gpt-4o" "OMEGA" ])
          None None None None (Some "uuid-0")).
Proof. vm_compute. reflexivity. Qed.

(** With zero for [maxRounds] the debate has three rounds, zero being falsy;
    with a negative number it has none. *)
Example debate_zero_rounds :
  maxRoundsOf (Examples.debateAB 0) = 3%Z
  /\ option_map (@List.length _)
       (OrchestrationResult.rounds
          (Examples.resultOf
             (orchestrate Examples.greek JsonSubset.parse (Examples.debateAB (-1))
                Examples.world0)))
     = Some 0.
Proof. split; vm_compute; reflexivity. Qed.

(** * Further properties of the code *)

(** ** The cache of the context store *)

Lemma assoc_del_same {A} (r : list (string * A)) (key : string) :
  assoc (filter (fun kv => negb (String.eqb (fst kv) key)) r) key = None.
Proof.
  induction r as [|[k v] r IH]; simpl; [reflexivity|].
  destruct (String.eqb k key) eqn:E; simpl; [exact IH|].
  rewrite E. exact IH.
Qed.

Lemma assoc_del_other {A} (r : list (string * A)) (key key' : string) :
  key' <> key ->
  assoc (filter (fun kv => negb (String.eqb (fst kv) key)) r) key' = assoc r key'.
Proof.
  intros Hne. induction r as [|[k v] r IH]; simpl; [reflexivity|].
  destruct (String.eqb_spec k key) as [->|Hk]; simpl.
  - destruct (String.eqb_spec key key') as [Heq|_]; [congruence | exact IH].
  - destruct (String.eqb k key'); [reflexivity | exact IH].
Qed.

Lemma lRange_del_same (r : ContextManager.Redis) (key : string) :
  ContextManager.lRange (ContextManager.del r key) key = [].
Proof.
  unfold ContextManager.lRange, ContextManager.del. rewrite assoc_del_same. reflexivity.
Qed.

Lemma lRange_rPush_same (r : ContextManager.Redis) (key : string) (l : list Message.t) :
  ContextManager.lRange (ContextManager.rPush r key l) key
  = ContextManager.lRange r key ++ l.
Proof.
  destruct l as [|x l]; simpl; [symmetry; apply app_nil_r|].
  unfold ContextManager.lRange at 1. simpl. rewrite String.eqb_refl. reflexivity.
Qed.

Lemma lRange_rPush_other (r : ContextManager.Redis) (key key' : string)
    (l : list Message.t) :
  key' <> key ->
  ContextManager.lRange (ContextManager.rPush r key l) key' = ContextManager.lRange r key'.
Proof.
  intros Hne. destruct l as [|x l]; simpl; [reflexivity|].
  unfold ContextManager.lRange. simpl.
  destruct (String.eqb_spec key key') as [Heq|_]; [congruence|].
  unfold ContextManager.del. rewrite assoc_del_other by exact Hne. reflexivity.
Qed.

Lemma startNewConversation_fields (title : option string) (cm : ContextManager.t) :
  ContextManager.currentConversationId (snd (ContextManager.startNewConversation title cm))
  = fst (ContextManager.startNewConversation title cm)
  /\ fst (ContextManager.startNewConversation title cm) <> EmptyString
  /\ ContextManager.messages (snd (ContextManager.startNewConversation title cm))
     = ContextManager.messages cm
  /\ cachedHistory (snd (ContextManager.startNewConversation title cm)) = [].
Proof.
  unfold ContextManager.startNewConversation, ContextManager.uuidv4, cachedHistory.
  simpl. repeat split.
  - discriminate.
  - apply lRange_del_same.
Qed.

(** What [addMessage] does to the store, field by field. *)
Lemma addMessage_fields (message : NewMessage.t) (cm : ContextManager.t) :
  ContextManager.currentConversationId (snd (ContextManager.addMessage message cm))
  <> EmptyString
  /\ Message.conversationId (fst (ContextManager.addMessage message cm))
     = ContextManager.currentConversationId (snd (ContextManager.addMessage message cm))
  /\ cachedHistory (snd (ContextManager.addMessage message cm))
     = (if String.eqb (ContextManager.currentConversationId cm) EmptyString
        then [] else cachedHistory cm)
       ++ [fst (ContextManager.addMessage message cm)]
  /\ (ContextManager.currentConversationId cm <> EmptyString ->
      ContextManager.currentConversationId (snd (ContextManager.addMessage message cm))
      = ContextManager.currentConversationId cm
      /\ ContextManager.conversations (snd (ContextManager.addMessage message cm))
         = ContextManager.conversations cm).
Proof.
  unfold ContextManager.addMessage, cachedHistory.
  destruct (String.eqb_spec (ContextManager.currentConversationId cm) EmptyString)
    as [Hempty|Hcur].
  - unfold ContextManager.startNewConversation, ContextManager.uuidv4.
    cbn [fst snd ContextManager.redis ContextManager.currentConversationId
         ContextManager.conversations ContextManager.messages ContextManager.uuids
         Message.conversationId].
    rewrite lRange_rPush_same, lRange_del_same.
    repeat split; try discriminate; intros; contradiction.
  - unfold ContextManager.uuidv4.
    cbn [fst snd ContextManager.redis ContextManager.currentConversationId
         ContextManager.conversations ContextManager.messages ContextManager.uuids
         Message.conversationId].
    rewrite lRange_rPush_same.
    repeat split; auto.
Qed.

Lemma getConversationHistory_cached (limit : nat) (cm : ContextManager.t) :
  cachedHistory cm <> [] ->
  ContextManager.getConversationHistory None limit cm = (cachedHistory cm, cm).
Proof.
  unfold ContextManager.getConversationHistory, cachedHistory. intros H.
  destruct (ContextManager.lRange (ContextManager.redis cm)
              (ContextManager.cacheKey (ContextManager.currentConversationId cm)));
    [contradiction | reflexivity].
Qed.

Lemma addMessage_then_history_aux
    (message : NewMessage.t) (cm : ContextManager.t) (limit : nat) :
  ContextManager.getConversationHistory None limit
    (snd (ContextManager.addMessage message cm))
  = ((if String.eqb (ContextManager.currentConversationId cm) EmptyString
      then [] else cachedHistory cm)
       ++ [fst (ContextManager.addMessage message cm)],
     snd (ContextManager.addMessage message cm))
  /\ Message.conversationId (fst (ContextManager.addMessage message cm))
     = ContextManager.currentConversationId (snd (ContextManager.addMessage message cm)).
Proof.
  destruct (addMessage_fields message cm) as (_ & Hconv & Hcache & _).
  split; [|exact Hconv].
  rewrite getConversationHistory_cached; rewrite Hcache.
  - reflexivity.
  - intros H. apply app_eq_nil in H. destruct H as [_ H]. discriminate.
Qed.

(** X1.  A message that was added is the last one of the history: after
    [addMessage], [getConversationHistory] with any limit returns the list
    that was cached for the current conversation (nothing, when the
    conversation had to be created) followed by the saved row, and changes
    nothing.  The row has the role and the content of the message and the id
    of the current conversation. *)
Theorem addMessage_then_history
    (message : NewMessage.t) (cm : ContextManager.t) (limit : nat) :
  ContextManager.getConversationHistory None limit
    (snd (ContextManager.addMessage message cm))
  = ((if String.eqb (ContextManager.currentConversationId cm) EmptyString
      then [] else cachedHistory cm)
       ++ [fst (ContextManager.addMessage message cm)],
     snd (ContextManager.addMessage message cm))
  /\ Message.role (fst (ContextManager.addMessage message cm)) = NewMessage.role message
  /\ Message.content (fst (ContextManager.addMessage message cm))
     = NewMessage.content message
  /\ Message.conversationId (fst (ContextManager.addMessage message cm))
     = ContextManager.currentConversationId (snd (ContextManager.addMessage message cm)).
Proof.
  destruct (addMessage_then_history_aux message cm limit) as [Hread Hconv].
  destruct (addMessage_messages message cm) as (_ & Hrole & Hcontent).
  auto.
Qed.

Lemma addMessages_cons (message : NewMessage.t) (rest : list NewMessage.t)
    (cm : ContextManager.t) :
  addMessages (message :: rest) cm
  = (fst (ContextManager.addMessage message cm)
       :: fst (addMessages rest (snd (ContextManager.addMessage message cm))),
     snd (addMessages rest (snd (ContextManager.addMessage message cm)))).
Proof.
  cbn [addMessages].
  destruct (ContextManager.addMessage message cm) as [saved cm1]. cbn [fst snd].
  destruct (addMessages rest cm1); reflexivity.
Qed.

Lemma addMessages_cached (messages : list NewMessage.t) (cm : ContextManager.t) :
  ContextManager.currentConversationId cm <> EmptyString ->
  cachedHistory (snd (addMessages messages cm))
  = cachedHistory cm ++ fst (addMessages messages cm)
  /\ ContextManager.currentConversationId (snd (addMessages messages cm))
     = ContextManager.currentConversationId cm
  /\ map Message.content (fst (addMessages messages cm))
     = map NewMessage.content messages.
Proof.
  revert cm. induction messages as [|message rest IH]; intros cm Hcur.
  - simpl. rewrite app_nil_r. auto.
  - rewrite addMessages_cons. cbn [fst snd map].
    destruct (addMessage_fields message cm) as (Hne & _ & Hcache & Hkeep).
    destruct (Hkeep Hcur) as [Hsame _].
    destruct (addMessage_messages message cm) as (_ & _ & Hcontent).
    destruct (IH _ Hne) as (Hc & Hid & Hmap).
    rewrite Hc, Hcache, Hid, Hsame, Hcontent, Hmap.
    destruct (String.eqb_spec (ContextManager.currentConversationId cm) EmptyString)
      as [Heq|_]; [contradiction|].
    rewrite <- app_assoc. auto.
Qed.

(** X2.  The limit of [getConversationHistory] is not applied to a cached
    history.  After [addMessage] has been called for each of some messages,
    a read with any limit, zero included, returns what was cached before
    followed by all the saved rows in order, so it is at least as long as the
    list of messages that were added. *)
Theorem cached_history_ignores_limit
    (messages : list NewMessage.t) (cm : ContextManager.t) (limit : nat) :
  ContextManager.currentConversationId cm <> EmptyString ->
  messages <> [] ->
  fst (ContextManager.getConversationHistory None limit (snd (addMessages messages cm)))
  = cachedHistory cm ++ fst (addMessages messages cm)
  /\ map Message.content (fst (addMessages messages cm))
     = map NewMessage.content messages
  /\ List.length messages
     <= List.length
          (fst (ContextManager.getConversationHistory None limit
                  (snd (addMessages messages cm)))).
Proof.
  intros Hcur Hne.
  destruct (addMessages_cached messages cm Hcur) as (Hcache & _ & Hmap).
  assert (Hlen : List.length (fst (addMessages messages cm)) = List.length messages).
  { rewrite <- (length_map Message.content), Hmap. apply length_map. }
  rewrite getConversationHistory_cached; rewrite Hcache.
  - cbn [fst]. repeat split; auto. rewrite length_app. lia.
  - intros H. apply app_eq_nil in H. destruct H as [_ H].
    rewrite H in Hlen. destruct messages; [contradiction | discriminate].
Qed.

Lemma cached_history_ignores_limit_witness :
  fst (ContextManager.getConversationHistory None 1
         (snd (addMessages StoreExamples.three Examples.store0)))
  = cachedHistory Examples.store0 ++ fst (addMessages StoreExamples.three Examples.store0)
  /\ map Message.content (fst (addMessages StoreExamples.three Examples.store0))
     = map NewMessage.content StoreExamples.three
  /\ 3 <= List.length
            (fst (ContextManager.getConversationHistory None 1
                    (snd (addMessages StoreExamples.three Examples.store0)))).
Proof.
  apply (cached_history_ignores_limit StoreExamples.three Examples.store0 1).
  - discriminate.
  - discriminate.
Defined.

(** X3.  A message added while the cache of the current conversation is
    empty hides the older rows of that conversation: the cache then holds the
    new row alone, so [getConversationHistory] returns that one row, although
    the table holds the older rows followed by it. *)
Theorem addMessage_on_empty_cache_hides_rows
    (message : NewMessage.t) (cm : ContextManager.t) (limit : nat) :
  ContextManager.currentConversationId cm <> EmptyString ->
  cachedHistory cm = [] ->
  fst (ContextManager.getConversationHistory None limit
         (snd (ContextManager.addMessage message cm)))
  = [fst (ContextManager.addMessage message cm)]
  /\ rowsOf (ContextManager.currentConversationId cm)
            (snd (ContextManager.addMessage message cm))
     = rowsOf (ContextManager.currentConversationId cm) cm
         ++ [fst (ContextManager.addMessage message cm)].
Proof.
  intros Hcur Hempty.
  destruct (addMessage_then_history_aux message cm limit) as [Hread Hconv].
  destruct (addMessage_fields message cm) as (_ & _ & _ & Hkeep).
  destruct (Hkeep Hcur) as [Hsame _].
  destruct (addMessage_messages message cm) as (Hrows & _ & _).
  split.
  - rewrite Hread. cbn [fst]. rewrite Hempty.
    destruct (String.eqb (ContextManager.currentConversationId cm) EmptyString);
      reflexivity.
  - unfold rowsOf. rewrite Hrows, filter_app. cbn [filter].
    rewrite Hconv, Hsame, String.eqb_refl. reflexivity.
Qed.

Lemma addMessage_on_empty_cache_hides_rows_witness :
  fst (ContextManager.getConversationHistory None 50
         (snd (ContextManager.addMessage (userMessage "third") StoreExamples.expired)))
  = [fst (ContextManager.addMessage (userMessage "third") StoreExamples.expired)]
  /\ rowsOf "uuid-0"
        (snd (ContextManager.addMessage (userMessage "third") StoreExamples.expired))
     = [StoreExamples.row "uuid-1" "first"; StoreExamples.row "uuid-2" "second"]
         ++ [fst (ContextManager.addMessage (userMessage "third") StoreExamples.expired)].
Proof.
  apply (addMessage_on_empty_cache_hides_rows (userMessage "third")
           StoreExamples.expired 50).
  - discriminate.
  - reflexivity.
Defined.

(** X4.  A read that had to go to the table pins the history.  When
    [getConversationHistory] returns rows at all, every later read of the same
    conversation, whatever its limit, returns those same rows and leaves the
    store alone: the rows were cached, or came from the cache already. *)
Theorem history_read_is_pinned
    (conversationId : option string) (limit limit' : nat) (cm : ContextManager.t) :
  fst (ContextManager.getConversationHistory conversationId limit cm) <> [] ->
  ContextManager.getConversationHistory conversationId limit'
    (snd (ContextManager.getConversationHistory conversationId limit cm))
  = ContextManager.getConversationHistory conversationId limit cm.
Proof.
  unfold ContextManager.getConversationHistory.
  set (convId := match conversationId with
                 | Some c =>
                     if String.eqb c EmptyString
                     then ContextManager.currentConversationId cm else c
                 | None => ContextManager.currentConversationId cm
                 end).
  destruct (ContextManager.lRange (ContextManager.redis cm)
              (ContextManager.cacheKey convId)) as [|x cached] eqn:Hcached.
  - cbn [fst snd ContextManager.currentConversationId ContextManager.redis].
    fold convId. intros Hrows.
    rewrite lRange_rPush_same, Hcached. cbn [app].
    destruct (firstn limit
                (filter (fun m => String.eqb (Message.conversationId m) convId)
                        (ContextManager.messages cm))) as [|row rows];
      [contradiction | reflexivity].
  - cbn [fst snd]. fold convId. rewrite Hcached. reflexivity.
Qed.

Lemma history_read_is_pinned_witness :
  ContextManager.getConversationHistory None 50
    (snd (ContextManager.getConversationHistory None 1 StoreExamples.expired))
  = ContextManager.getConversationHistory None 1 StoreExamples.expired
  /\ fst (ContextManager.getConversationHistory None 1 StoreExamples.expired)
     = [StoreExamples.row "uuid-1" "first"].
Proof.
  split.
  - apply (history_read_is_pinned None 1 50 StoreExamples.expired). discriminate.
  - reflexivity.
Defined.

(** X5.  [startNewConversation] makes the id it returns the current one,
    records the conversation under the given title, or under
    [New Conversation] when the title is missing or empty, drops the cache
    key of the new id and leaves the table of messages alone.  Provided that
    no row carries the new id, the history of the new conversation is empty,
    whatever rows older conversations have. *)
Theorem startNewConversation_starts_empty
    (title : option string) (cm : ContextManager.t) (limit : nat) :
  ContextManager.currentConversationId (snd (ContextManager.startNewConversation title cm))
  = fst (ContextManager.startNewConversation title cm)
  /\ ContextManager.messages (snd (ContextManager.startNewConversation title cm))
     = ContextManager.messages cm
  /\ ContextManager.conversations (snd (ContextManager.startNewConversation title cm))
     = ContextManager.conversations cm
         ++ [Conversation.mk (fst (ContextManager.startNewConversation title cm))
               match title with
               | Some text =>
                   if String.eqb text EmptyString then "New Conversation" else text
               | None => "New Conversation"
               end]
  /\ (rowsOf (fst (ContextManager.startNewConversation title cm)) cm = [] ->
      fst (ContextManager.getConversationHistory None limit
             (snd (ContextManager.startNewConversation title cm)))
      = []).
Proof.
  destruct (startNewConversation_fields title cm) as (Hcur & _ & Hrows & Hcache).
  split; [exact Hcur|]. split; [exact Hrows|]. split; [reflexivity|].
  intros Hnone.
  unfold ContextManager.getConversationHistory.
  unfold cachedHistory in Hcache. rewrite Hcache, Hcur, Hrows.
  unfold rowsOf in Hnone. rewrite Hnone. destruct limit; reflexivity.
Qed.

Lemma startNewConversation_starts_empty_witness :
  fst (ContextManager.getConversationHistory None 50
         (snd (ContextManager.startNewConversation (Some "Fresh") StoreExamples.expired)))
  = [].
Proof.
  apply (proj2 (proj2 (proj2
           (startNewConversation_starts_empty (Some "Fresh") StoreExamples.expired 50)))).
  reflexivity.
Defined.

(** X6.  [addMessage] creates a conversation exactly when none is current:
    with an empty current id it records one titled
    [Auto-created conversation], makes it current and files the row under
    it; with a current conversation it records none and files the row under
    the current one. *)
Theorem addMessage_creates_conversation_when_none
    (message : NewMessage.t) (cm : ContextManager.t) :
  (ContextManager.currentConversationId cm = EmptyString ->
   exists id,
     ContextManager.conversations (snd (ContextManager.addMessage message cm))
     = ContextManager.conversations cm
         ++ [Conversation.mk id "Auto-created conversation"]
     /\ id <> EmptyString
     /\ ContextManager.currentConversationId (snd (ContextManager.addMessage message cm))
        = id
     /\ Message.conversationId (fst (ContextManager.addMessage message cm)) = id)
  /\ (ContextManager.currentConversationId cm <> EmptyString ->
      ContextManager.conversations (snd (ContextManager.addMessage message cm))
      = ContextManager.conversations cm
      /\ ContextManager.currentConversationId (snd (ContextManager.addMessage message cm))
         = ContextManager.currentConversationId cm
      /\ Message.conversationId (fst (ContextManager.addMessage message cm))
         = ContextManager.currentConversationId cm).
Proof.
  split.
  - intros Hnone. unfold ContextManager.addMessage. rewrite Hnone.
    cbn [String.eqb].
    unfold ContextManager.startNewConversation, ContextManager.uuidv4.
    cbn [fst snd ContextManager.redis ContextManager.currentConversationId
         ContextManager.conversations ContextManager.messages ContextManager.uuids
         Message.conversationId String.eqb].
    eexists. split; [reflexivity|]. split; [discriminate|]. split; reflexivity.
  - intros Hcur.
    destruct (addMessage_fields message cm) as (_ & Hconv & _ & Hkeep).
    destruct (Hkeep Hcur) as [Hsame Hconvs].
    split; [exact Hconvs|]. split; [exact Hsame|]. congruence.
Qed.

Lemma addMessage_creates_conversation_when_none_witness :
  (exists id,
     ContextManager.conversations
       (snd (ContextManager.addMessage (userMessage "hello") StoreExamples.noConversation))
     = ContextManager.conversations StoreExamples.noConversation
         ++ [Conversation.mk id "Auto-created conversation"]
     /\ id <> EmptyString
     /\ ContextManager.currentConversationId
          (snd (ContextManager.addMessage (userMessage "hello")
                  StoreExamples.noConversation))
        = id
     /\ Message.conversationId
          (fst (ContextManager.addMessage (userMessage "hello")
                  StoreExamples.noConversation))
        = id)
  /\ (ContextManager.conversations
        (snd (ContextManager.addMessage (userMessage "hello") StoreExamples.expired))
      = ContextManager.conversations StoreExamples.expired
      /\ ContextManager.currentConversationId
           (snd (ContextManager.addMessage (userMessage "hello") StoreExamples.expired))
         = ContextManager.currentConversationId StoreExamples.expired
      /\ Message.conversationId
           (fst (ContextManager.addMessage (userMessage "hello") StoreExamples.expired))
         = ContextManager.currentConversationId StoreExamples.expired).
Proof.
  split.
  - apply (proj1 (addMessage_creates_conversation_when_none (userMessage "hello")
                    StoreExamples.noConversation)).
    reflexivity.
  - apply (proj2 (addMessage_creates_conversation_when_none (userMessage "hello")
                    StoreExamples.expired)).
    simpl. discriminate.
Defined.

(** ** What every strategy keeps true of the world *)

Section Preserves.

Variable R : World -> World -> Prop.
Hypothesis R_refl : forall w, R w w.
Hypothesis R_trans : forall w1 w2 w3, R w1 w2 -> R w2 w3 -> R w1 w3.

Lemma preserves_ret {A} (a : A) : preserves R (ret a).
Proof. intros w. apply R_refl. Qed.

Lemma preserves_throw {A} (e : Exn) : preserves R (@throw A e).
Proof. intros w. apply R_refl. Qed.

Lemma preserves_liftRes {A} (r : Res A) : preserves R (liftRes r).
Proof. intros w. apply R_refl. Qed.

Lemma preserves_getSummary : preserves R contextManager_getSummary.
Proof. intros w. apply R_refl. Qed.

Lemma preserves_bind {A B} (m : M A) (k : A -> M B) :
  preserves R m -> (forall a, preserves R (k a)) -> preserves R (bind m k).
Proof.
  intros Hm Hk w. unfold bind. specialize (Hm w).
  destruct (m w) as [[a|e] w1]; cbn [snd] in *; [|exact Hm].
  apply R_trans with w1; [exact Hm | apply Hk].
Qed.

Lemma preserves_tryCatch {A} (m : M A) (h : Exn -> M A) :
  preserves R m -> (forall e, preserves R (h e)) -> preserves R (tryCatch m h).
Proof.
  intros Hm Hh w. unfold tryCatch. specialize (Hm w).
  destruct (m w) as [[a|e] w1]; cbn [snd] in *; [exact Hm|].
  apply R_trans with w1; [exact Hm | apply Hh].
Qed.

Variable provider : list Event -> ProviderCall -> Res string.
Variable JSON_parse : string -> Res JsValue.
Variable request : OrchestrationRequest.t.

Hypothesis R_call : forall call, preserves R (callProvider provider call).
Hypothesis R_add : forall message, preserves R (contextManager_addMessage message).
Hypothesis R_read : preserves R contextManager_getConversationHistory.

Lemma preserves_when cond message :
  preserves R (when cond (contextManager_addMessage message)).
Proof.
  unfold when. destruct cond; [|apply preserves_ret].
  apply preserves_bind; [apply R_add | intros; apply preserves_ret].
Qed.

Lemma preserves_readHistory : preserves R (readHistory request).
Proof.
  unfold readHistory. destruct (usesContext request); [apply R_read | apply preserves_ret].
Qed.

Create HintDb preserved.

#[local] Hint Resolve preserves_ret preserves_throw preserves_liftRes
  preserves_getSummary preserves_when preserves_readHistory R_call R_add R_read
  : preserved.

Ltac preserve_steps :=
  repeat first
    [ solve [ auto with preserved ]
    | apply preserves_bind; [ | intros ? ]
    | apply preserves_tryCatch; [ | intros ? ] ].

Lemma preserves_sequentialLoop history models currentPrompt responses :
  preserves R (sequentialLoop provider request history models currentPrompt responses).
Proof.
  revert currentPrompt responses.
  induction models as [|model rest IH]; intros; simpl; preserve_steps.
Qed.

Lemma preserves_promiseAll {A B} (f : A -> M B) (l : list A) :
  (forall a, preserves R (f a)) -> preserves R (promiseAll f l).
Proof.
  intros Hf. induction l as [|a l IH]; simpl; preserve_steps.
Qed.

Lemma preserves_parallelCall history model :
  preserves R (parallelCall provider request history model).
Proof. unfold parallelCall. preserve_steps. Qed.

#[local] Hint Resolve preserves_sequentialLoop preserves_promiseAll
  preserves_parallelCall : preserved.

Lemma preserves_parallelProcessing models :
  preserves R (parallelProcessing provider request models).
Proof. unfold parallelProcessing, synthesizeResponses. preserve_steps. Qed.

Lemma preserves_debateRound debateContext round rounds models roundResponses :
  preserves R
    (debateRound provider request debateContext round rounds models roundResponses).
Proof.
  revert roundResponses.
  induction models as [|model rest IH]; intros; simpl; preserve_steps.
Qed.

#[local] Hint Resolve preserves_parallelProcessing preserves_debateRound : preserved.

Lemma preserves_debateLoop debateContext models todo round rounds :
  preserves R (debateLoop provider request debateContext models todo round rounds).
Proof.
  revert round rounds.
  induction todo as [|todo IH]; intros; simpl; preserve_steps.
Qed.

Lemma preserves_specialistLoop specialists responses :
  preserves R (specialistLoop provider request specialists responses).
Proof.
  revert responses.
  induction specialists as [|specialist rest IH]; intros; simpl; preserve_steps.
Qed.

#[local] Hint Resolve preserves_debateLoop preserves_specialistLoop : preserved.

Lemma preserves_dispatch models :
  preserves R (dispatch provider JSON_parse request models).
Proof.
  unfold dispatch.
  repeat match goal with |- context [if ?b then _ else _] => destruct b end.
  - unfold sequentialProcessing. preserve_steps.
  - auto with preserved.
  - unfold debateMode, generateDebateConclusion. preserve_steps.
  - unfold consensusMode, findConsensus. preserve_steps.
  - unfold specialistRouting, analyzePromptType. preserve_steps.
  - auto with preserved.
Qed.

(** Whatever relation the three primitives keep, [orchestrate] keeps. *)
Lemma preserves_orchestrate : preserves R (orchestrate provider JSON_parse request).
Proof.
  pose proof preserves_dispatch.
  unfold orchestrate. preserve_steps.
Qed.

End Preserves.

(** ** The store follows the trace *)

Lemma storedAsTraced_refl (w : World) : storedAsTraced w w.
Proof.
  exists [], [], []. rewrite !app_nil_r. repeat split; auto.
Qed.

Lemma storedAsTraced_trans (w1 w2 w3 : World) :
  storedAsTraced w1 w2 -> storedAsTraced w2 w3 -> storedAsTraced w1 w3.
Proof.
  intros (rows1 & added1 & refused1 & Hm1 & He1 & Hr1 & Hp1 & Ha1 & Hf1 & Hc1)
         (rows2 & added2 & refused2 & Hm2 & He2 & Hr2 & Hp2 & Ha2 & Hf2 & Hc2).
  exists (rows1 ++ rows2), (added1 ++ added2), (refused1 ++ refused2).
  rewrite Hm2, Hm1, He2, He1, Hr2, Hr1, !map_app, Hp1, Hp2, <- !app_assoc.
  repeat split; auto.
  - apply Forall_app. auto.
  - apply Forall_app. auto.
  - destruct (Hc1 H) as (Hcur & _ & _). rewrite <- Hcur in H.
    destruct (Hc2 H) as (Hcur2 & _ & _). congruence.
  - destruct (Hc1 H) as (Hcur & Hconv & _). rewrite <- Hcur in H.
    destruct (Hc2 H) as (_ & Hconv2 & _). congruence.
  - destruct (Hc1 H) as (Hcur & _ & Hall1). pose proof H as H'. rewrite <- Hcur in H'.
    destruct (Hc2 H') as (_ & _ & Hall2). rewrite Hcur in Hall2.
    apply Forall_app. auto.
Qed.

Lemma getConversationHistory_fields conversationId limit (cm : ContextManager.t) :
  ContextManager.messages (snd (ContextManager.getConversationHistory conversationId limit cm))
  = ContextManager.messages cm
  /\ ContextManager.conversations
       (snd (ContextManager.getConversationHistory conversationId limit cm))
     = ContextManager.conversations cm
  /\ ContextManager.currentConversationId
       (snd (ContextManager.getConversationHistory conversationId limit cm))
     = ContextManager.currentConversationId cm.
Proof.
  unfold ContextManager.getConversationHistory.
  destruct (ContextManager.lRange _ _); cbn [snd]; auto.
Qed.

Lemma storedAsTraced_callProvider provider call :
  preserves storedAsTraced (callProvider provider call).
Proof.
  intros w. unfold callProvider. cbn [snd]. exists [], [], [].
  cbn [contextManager events]. rewrite messagesAdded_app, messagesRefused_app, !app_nil_r.
  repeat split; auto.
Qed.

Lemma addMessageRefused_fields (cm : ContextManager.t) :
  ContextManager.messages (ContextManager.addMessageRefused cm)
  = ContextManager.messages cm
  /\ (ContextManager.currentConversationId cm <> EmptyString ->
      ContextManager.currentConversationId (ContextManager.addMessageRefused cm)
      = ContextManager.currentConversationId cm
      /\ ContextManager.conversations (ContextManager.addMessageRefused cm)
         = ContextManager.conversations cm
      /\ ContextManager.redis (ContextManager.addMessageRefused cm)
         = ContextManager.redis cm).
Proof.
  unfold ContextManager.addMessageRefused, ContextManager.startNewConversation,
    ContextManager.uuidv4.
  destruct (String.eqb_spec (ContextManager.currentConversationId cm) EmptyString)
    as [Hempty|Hcur]; cbn [fst snd ContextManager.messages
                            ContextManager.currentConversationId
                            ContextManager.conversations ContextManager.redis].
  - split; [reflexivity | intros; contradiction].
  - split; [reflexivity | auto].
Qed.

Lemma storedAsTraced_addMessage message :
  preserves storedAsTraced (contextManager_addMessage message).
Proof.
  intros w. destruct (ContextManager.accepts message) eqn:Haccepts.
  - rewrite (addMessage_run _ _ Haccepts). cbn [snd contextManager events].
    destruct (addMessage_messages message (contextManager w))
      as (Hrows & Hrole & Hcontent).
    destruct (addMessage_fields message (contextManager w)) as (_ & Hconv & _ & Hkeep).
    exists [fst (ContextManager.addMessage message (contextManager w))], [message], [].
    cbn [contextManager events]. rewrite messagesAdded_app, messagesRefused_app.
    cbn [messagesAdded messagesRefused map].
    rewrite Hrole, Hcontent, app_nil_r. split; [exact Hrows|].
    repeat (split; [first [reflexivity | repeat constructor; assumption]|]).
    intros Hcur. destruct (Hkeep Hcur) as [Hsame Hconvs].
    split; [exact Hsame|]. split; [exact Hconvs|].
    constructor; [congruence | constructor].
  - rewrite (addMessage_refused _ _ Haccepts). cbn [snd contextManager events].
    destruct (addMessageRefused_fields (contextManager w)) as (Hrows & Hkeep).
    exists [], [], [message]. cbn [contextManager events].
    rewrite messagesAdded_app, messagesRefused_app.
    cbn [messagesAdded messagesRefused map]. rewrite Hrows, !app_nil_r.
    repeat (split; [first [reflexivity | repeat constructor; assumption]|]).
    intros Hcur. destruct (Hkeep Hcur) as (Hsame & Hconvs & _).
    split; [exact Hsame|]. split; [exact Hconvs|]. constructor.
Qed.

Lemma storedAsTraced_read : preserves storedAsTraced contextManager_getConversationHistory.
Proof.
  intros w. unfold contextManager_getConversationHistory.
  destruct (getConversationHistory_fields None 50 (contextManager w)) as (Hm & Hc & Hcur).
  destruct (ContextManager.getConversationHistory None 50 (contextManager w))
    as [history cm]. cbn [snd contextManager events] in *.
  exists [], [], []. rewrite !app_nil_r. repeat split; auto.
Qed.

(** X7.  Every run of [orchestrate], of any strategy and whether it returns
    or throws, only appends to the table of messages: one row for each
    [addMessage] of the run that returned, in order, with that message's role
    and content, and no row for an [addMessage] that threw; the store accepts
    the messages of the first kind and refuses those of the second.  When a
    conversation is current, the run records no conversation, leaves that one
    current and files every row under it. *)
Theorem orchestrate_appends_what_it_adds
    (provider : list Event -> ProviderCall -> Res string)
    (JSON_parse : string -> Res JsValue)
    (request : OrchestrationRequest.t) (w : World) :
  exists rows added refused,
    ContextManager.messages
      (contextManager (snd (orchestrate provider JSON_parse request w)))
    = ContextManager.messages (contextManager w) ++ rows
    /\ messagesAdded (events (snd (orchestrate provider JSON_parse request w)))
       = messagesAdded (events w) ++ added
    /\ messagesRefused (events (snd (orchestrate provider JSON_parse request w)))
       = messagesRefused (events w) ++ refused
    /\ map (fun r => (Message.role r, Message.content r)) rows
       = map (fun m => (NewMessage.role m, NewMessage.content m)) added
    /\ Forall (fun m => ContextManager.accepts m = true) added
    /\ Forall (fun m => ContextManager.accepts m = false) refused
    /\ (ContextManager.currentConversationId (contextManager w) <> EmptyString ->
        ContextManager.currentConversationId
          (contextManager (snd (orchestrate provider JSON_parse request w)))
        = ContextManager.currentConversationId (contextManager w)
        /\ ContextManager.conversations
             (contextManager (snd (orchestrate provider JSON_parse request w)))
           = ContextManager.conversations (contextManager w)
        /\ Forall (fun r => Message.conversationId r
                            = ContextManager.currentConversationId (contextManager w))
                  rows).
Proof.
  exact (preserves_orchestrate storedAsTraced storedAsTraced_refl storedAsTraced_trans
           provider JSON_parse request
           (storedAsTraced_callProvider provider) storedAsTraced_addMessage
           storedAsTraced_read w).
Qed.

(** X8.  The [conversationId] of a result is the id of the conversation that
    was current when [orchestrate] was called, provided one was: no strategy
    starts or switches conversations. *)
Theorem orchestrate_result_conversation
    (provider : list Event -> ProviderCall -> Res string)
    (JSON_parse : string -> Res JsValue)
    (request : OrchestrationRequest.t) (w w' : World)
    (result : OrchestrationResult.t) :
  ContextManager.currentConversationId (contextManager w) <> EmptyString ->
  orchestrate provider JSON_parse request w = (Ok result, w') ->
  OrchestrationResult.conversationId result
  = Some (ContextManager.currentConversationId (contextManager w)).
Proof.
  intros Hcur Hrun.
  pose proof (preserves_orchestrate storedAsTraced storedAsTraced_refl storedAsTraced_trans
                provider JSON_parse request
                (storedAsTraced_callProvider provider) storedAsTraced_addMessage
                storedAsTraced_read w)
    as (rows & added & refused & _ & _ & _ & _ & _ & _ & Hkeep).
  destruct (Hkeep Hcur) as (Hsame & _ & _).
  rewrite Hrun in Hsame. cbn [snd] in Hsame.
  rewrite orchestrate_run in Hrun.
  destruct (dispatch provider JSON_parse request (modelsOf request)
              (afterUserMessage request w)) as [[inner|e] w1]; [|discriminate].
  injection Hrun as <- <-. cbn [OrchestrationResult.withConversationId
                                 OrchestrationResult.conversationId].
  rewrite Hsame. reflexivity.
Qed.

Lemma orchestrate_result_conversation_witness :
  OrchestrationResult.conversationId
    (Examples.resultOf
       (orchestrate Examples.greek JsonSubset.parse Examples.sequentialABC Examples.world0))
  = Some "uuid-0".
Proof.
  apply (orchestrate_result_conversation Examples.greek JsonSubset.parse
           Examples.sequentialABC Examples.world0
           (snd (orchestrate Examples.greek JsonSubset.parse Examples.sequentialABC
                   Examples.world0))).
  - discriminate.
  - vm_compute. reflexivity.
Defined.

(** ** What can escape [orchestrate] *)

Lemma bind_Throw {A B} (m : M A) (k : A -> M B) (w w' : World) (e : Exn) :
  bind m k w = (Throw e, w') ->
  m w = (Throw e, w') \/ exists a w1, m w = (Ok a, w1) /\ k a w1 = (Throw e, w').
Proof.
  unfold bind. destruct (m w) as [[a|e1] w1]; intros H.
  - right. eauto.
  - left. injection H as -> ->. reflexivity.
Qed.

Lemma throwsOnly_ret P {A} (a : A) : throwsOnly P (ret a).
Proof. intros w e w' H. discriminate. Qed.

Lemma throwsOnly_bind P {A B} (m : M A) (k : A -> M B) :
  throwsOnly P m -> (forall a, throwsOnly P (k a)) -> throwsOnly P (bind m k).
Proof.
  intros Hm Hk w e w' H. apply bind_Throw in H.
  destruct H as [H|(a & w1 & _ & H)]; [exact (Hm _ _ _ H) | exact (Hk _ _ _ _ H)].
Qed.

Lemma throwsOnly_tryCatch P {A} (m : M A) (h : Exn -> M A) :
  (forall e, throwsOnly P (h e)) -> throwsOnly P (tryCatch m h).
Proof.
  intros Hh w e w' H. unfold tryCatch in H.
  destruct (m w) as [[a|e1] w1]; [discriminate | exact (Hh _ _ _ _ H)].
Qed.

Lemma throwsOnly_addMessage P message :
  ContextManager.accepts message = true ->
  throwsOnly P (contextManager_addMessage message).
Proof. intros Ha w e w' H. rewrite (addMessage_run _ _ Ha) in H. discriminate. Qed.

Lemma throwsOnly_when P cond message :
  ContextManager.accepts message = true ->
  throwsOnly P (when cond (contextManager_addMessage message)).
Proof.
  intros Ha. unfold when. destruct cond; [|apply throwsOnly_ret].
  apply throwsOnly_bind; [apply throwsOnly_addMessage; exact Ha
                         | intros; apply throwsOnly_ret].
Qed.



(** What column [model] does with a name: kept, [NULL] for none or the empty
    one, cut when only spaces are beyond the hundredth character (here the
    fifth), refused otherwise. *)
Lemma modelColumn_examples :
  ContextManager.modelColumn (Some "openai/gpt-4o") = Some (Some "openai/gpt-4o")
  /\ ContextManager.modelColumn (Some EmptyString) = Some None
  /\ ContextManager.modelColumn None = Some None
  /\ ContextManager.modelColumn (Some Examples.longName) = None
  /\ String.length Examples.longName = 101
  /\ ContextManager.VARCHAR 5 "abcde   " = Some "abcde"
  /\ ContextManager.VARCHAR 5 "abcde  f" = None.
Proof. repeat split; reflexivity. Qed.

Lemma accepts_tooLong content model metadata :
  ContextManager.accepts (assistantMessage content model metadata) = false ->
  tooLong model.
Proof.
  unfold ContextManager.accepts, tooLong, assistantMessage. cbn [NewMessage.model].
  destruct (ContextManager.modelColumn (Some model)); [discriminate | reflexivity].
Qed.

Lemma throwsOnly_readHistory P request : throwsOnly P (readHistory request).
Proof. intros w e w' H. rewrite readHistory_run in H. discriminate. Qed.

Lemma throwsOnly_getSummary P : throwsOnly P contextManager_getSummary.
Proof. intros w e w' H. discriminate. Qed.



Section Escapes.

Variable provider : list Event -> ProviderCall -> Res string.
Variable JSON_parse : string -> Res JsValue.
Variable request : OrchestrationRequest.t.

Let P : Exn -> Prop := escapes provider request.

Lemma throwsOnly_callProvider call : throwsOnly P (callProvider provider call).
Proof.
  intros w e w' H. unfold callProvider in H. injection H as H _.
  right. right. left. eauto.
Qed.

(** The write of a response under the model that gave it. *)
Lemma throwsOnly_storeResponse content model metadata :
  In model (modelsOf request) ->
  throwsOnly P
    (when (usesContext request)
          (contextManager_addMessage (assistantMessage content model metadata))).
Proof.
  intros Hin w e w' H. unfold when in H.
  destruct (usesContext request) eqn:Hctx; [|discriminate].
  unfold bind in H. add_cases H; [discriminate|].
  injection H as <- _. right. right. right.
  split; [reflexivity|]. split; [exact Hctx|].
  exists model. split; [exact Hin | exact (accepts_tooLong _ _ _ Haccepts)].
Qed.

Lemma throwsOnly_whenFits cond message :
  ContextManager.accepts message = true ->
  throwsOnly P (when cond (contextManager_addMessage message)).
Proof. apply throwsOnly_when. Qed.

Create HintDb thrown.

#[local] Hint Resolve throwsOnly_ret throwsOnly_readHistory throwsOnly_getSummary
  throwsOnly_callProvider : thrown.

Ltac thrown_steps :=
  repeat first
    [ solve [ auto with thrown ]
    | solve [ apply throwsOnly_whenFits; reflexivity ]
    | solve [ apply throwsOnly_storeResponse; auto with datatypes ]
    | apply throwsOnly_bind; [ | intros ? ]
    | apply throwsOnly_tryCatch; intros ? ].

Lemma throwsOnly_sequentialLoop history models currentPrompt responses :
  incl models (modelsOf request) ->
  throwsOnly P (sequentialLoop provider request history models currentPrompt responses).
Proof.
  revert currentPrompt responses.
  induction models as [|model rest IH]; intros currentPrompt responses Hincl; simpl.
  - thrown_steps.
  - assert (In model (modelsOf request)) by (apply Hincl; left; reflexivity).
    assert (incl rest (modelsOf request)) by (intros m Hm; apply Hincl; right; exact Hm).
    thrown_steps.
Qed.

Lemma throwsOnly_promiseAll {A B} (f : A -> M B) (l : list A) :
  (forall a, throwsOnly P (f a)) -> throwsOnly P (promiseAll f l).
Proof.
  intros Hf. induction l as [|a l IH]; simpl; thrown_steps.
Qed.

Lemma throwsOnly_parallelCall history model :
  throwsOnly P (parallelCall provider request history model).
Proof. unfold parallelCall. thrown_steps. Qed.

#[local] Hint Resolve throwsOnly_sequentialLoop throwsOnly_promiseAll
  throwsOnly_parallelCall incl_refl : thrown.

Lemma throwsOnly_parallelProcessing models :
  throwsOnly P (parallelProcessing provider request models).
Proof. unfold parallelProcessing, synthesizeResponses. thrown_steps. Qed.

Lemma throwsOnly_debateRound debateContext round rounds models roundResponses :
  throwsOnly P
    (debateRound provider request debateContext round rounds models roundResponses).
Proof.
  revert roundResponses.
  induction models as [|model rest IH]; intros; simpl; thrown_steps.
Qed.

#[local] Hint Resolve throwsOnly_parallelProcessing throwsOnly_debateRound : thrown.

Lemma throwsOnly_debateLoop debateContext models todo round rounds :
  throwsOnly P (debateLoop provider request debateContext models todo round rounds).
Proof.
  revert round rounds.
  induction todo as [|todo IH]; intros; simpl; thrown_steps.
Qed.

Lemma throwsOnly_specialistLoop specialists responses :
  (forall s, In s specialists -> In (Specialist.model s) (modelsOf request)) ->
  throwsOnly P (specialistLoop provider request specialists responses).
Proof.
  revert responses.
  induction specialists as [|specialist rest IH]; intros responses Hin; simpl.
  - thrown_steps.
  - assert (In (Specialist.model specialist) (modelsOf request))
      by (apply Hin; left; reflexivity).
    assert (forall s, In s rest -> In (Specialist.model s) (modelsOf request))
      by (intros s Hs; apply Hin; right; exact Hs).
    thrown_steps.
Qed.

#[local] Hint Resolve throwsOnly_debateLoop throwsOnly_specialistLoop : thrown.




End Escapes.



(** ** A failure in the Sequential strategy *)

Lemma addMessages_rows (messages : list NewMessage.t) (cm : ContextManager.t) :
  ContextManager.messages (snd (addMessages messages cm))
  = ContextManager.messages cm ++ fst (addMessages messages cm)
  /\ map Message.content (fst (addMessages messages cm))
     = map NewMessage.content messages.
Proof.
  revert cm. induction messages as [|message rest IH]; intros cm.
  - simpl. rewrite app_nil_r. auto.
  - rewrite addMessages_cons. cbn [fst snd map].
    destruct (IH (snd (ContextManager.addMessage message cm))) as [Hrows Hcontents].
    destruct (addMessage_messages message cm) as (Hrow & _ & Hcontent).
    rewrite Hrows, Hrow, <- app_assoc, Hcontents, Hcontent. auto.
Qed.

Lemma providerCalls_sequentialEvents request history currentPrompt responses :
  List.length (providerCalls (sequentialEvents request history currentPrompt responses))
  = List.length responses.
Proof.
  revert currentPrompt.
  induction responses as [|r rest IH]; intros currentPrompt; simpl; auto.
Qed.

Section SequentialAbort.

Variable provider : list Event -> ProviderCall -> Res string.
Variable JSON_parse : string -> Res JsValue.
Variable request : OrchestrationRequest.t.
Hypothesis withContext : usesContext request = true.

(** The loop of [sequentialProcessing] over models that answer and are
    stored. *)
Lemma sequentialLoop_runs history done rest currentPrompt responses w :
  answersInTurn provider request history (events w) currentPrompt done ->
  sequentialLoop provider request history (map ProviderResponse.model done ++ rest)
    currentPrompt responses w
  = sequentialLoop provider request history rest (promptAfter request currentPrompt done)
      (responses ++ done)
      (mkWorld (snd (addMessages (responseMessages done) (contextManager w)))
               (events w ++ sequentialEvents request history currentPrompt done)).
Proof.
  revert currentPrompt responses w.
  induction done as [|r done IH]; intros currentPrompt responses w Hturn.
  - simpl. rewrite !app_nil_r. destruct w; reflexivity.
  - destruct Hturn as (Hcall & Haccepts & Hturn). destruct r as [model response].
    cbn [ProviderResponse.model ProviderResponse.response] in *.
    cbn [map app sequentialLoop ProviderResponse.model ProviderResponse.response].
    rewrite withContext. unfold sequentialMessages in Hcall.
    unfold bind at 1. unfold callProvider at 1. rewrite Hcall.
    unfold bind at 1. unfold when, bind at 1.
    rewrite (addMessage_run _ _ Haccepts). unfold ret at 1.
    cbn [contextManager events].
    rewrite IH.
    + cbn [contextManager events promptAfter responseMessages map
           ProviderResponse.model ProviderResponse.response].
      rewrite addMessages_cons. cbn [snd].
      cbn [sequentialEvents ProviderResponse.model ProviderResponse.response].
      rewrite <- !app_assoc. reflexivity.
    + cbn [events]. cbn [sequentialEvents ProviderResponse.model
                         ProviderResponse.response] in Hturn.
      rewrite <- app_assoc. exact Hturn.
Qed.

(** [sequentialProcessing] inside [orchestrate], up to the model that
    fails. *)
Lemma orchestrate_sequential_runs w done failing later :
  OrchestrationRequest.strategy request = OrchestrationStrategy_Sequential ->
  modelsOf request = map ProviderResponse.model done ++ failing :: later ->
  answersInTurn provider request (historySnapshot request w)
    (events w ++ [MessageAdded (userMessage (OrchestrationRequest.prompt request))])
    (OrchestrationRequest.prompt request) done ->
  forall e w',
    (response <- callProvider provider
                   (sequentialCall request (historySnapshot request w) done failing) ;;
     when true
          (contextManager_addMessage (assistantMessage response failing None)))
      (mkWorld
         (snd (addMessages (responseMessages done)
                 (contextManager (afterRead request (afterUserMessage request w)))))
         (events w
            ++ MessageAdded (userMessage (OrchestrationRequest.prompt request))
            :: sequentialEvents request (historySnapshot request w)
                 (OrchestrationRequest.prompt request) done))
    = (Throw e, w') ->
    orchestrate provider JSON_parse request w = (Throw e, w').
Proof.
  intros Hstrategy Hmodels Hturn e w' Hfail.
  rewrite orchestrate_run,
    (dispatch_sequential provider JSON_parse request _ Hstrategy).
  unfold sequentialProcessing. unfold bind at 1. rewrite readHistory_run.
  fold (historySnapshot request w). rewrite Hmodels.
  assert (Hstart : events (afterRead request (afterUserMessage request w))
                   = events w
                       ++ [MessageAdded (userMessage (OrchestrationRequest.prompt request))]).
  { rewrite afterRead_events. unfold afterUserMessage. rewrite withContext. reflexivity. }
  unfold bind at 1. rewrite sequentialLoop_runs by (rewrite Hstart; exact Hturn).
  rewrite Hstart, <- app_assoc. cbn [app].
  cbn [sequentialLoop]. rewrite withContext.
  unfold sequentialCall in Hfail. unfold bind in Hfail |- *.
  destruct (callProvider provider _ _) as [[response|e1] w1].
  - destruct (when true _ w1) as [[u|e2] w2]; [discriminate|].
    injection Hfail as <- <-. reflexivity.
  - injection Hfail as <- <-. reflexivity.
Qed.

End SequentialAbort.

(** X10.  In the Sequential strategy with [useContext] not [false], a
    provider failure ends the run at once.  When the models before
    [failing] answer and are stored and the provider throws on [failing],
    [orchestrate] throws what the provider threw; the models after the
    failing one are never called, and the prompt and the responses of the
    models before it stay in the store, each written after its call, with
    nothing rolled back. *)
Theorem sequential_failure_aborts
    (provider : list Event -> ProviderCall -> Res string)
    (JSON_parse : string -> Res JsValue)
    (request : OrchestrationRequest.t) (w : World)
    (done : list ProviderResponse.t) (failing : string) (later : list string)
    (e : Exn) :
  OrchestrationRequest.strategy request = OrchestrationStrategy_Sequential ->
  OrchestrationRequest.useContext request <> Some false ->
  modelsOf request = map ProviderResponse.model done ++ failing :: later ->
  answersInTurn provider request (historySnapshot request w)
    (events w ++ [MessageAdded (userMessage (OrchestrationRequest.prompt request))])
    (OrchestrationRequest.prompt request) done ->
  provider
    (events w
       ++ MessageAdded (userMessage (OrchestrationRequest.prompt request))
       :: sequentialEvents request (historySnapshot request w)
            (OrchestrationRequest.prompt request) done)
    (sequentialCall request (historySnapshot request w) done failing)
  = Throw e ->
  exists w' rows,
    orchestrate provider JSON_parse request w = (Throw e, w')
    /\ events w'
       = events w
           ++ MessageAdded (userMessage (OrchestrationRequest.prompt request))
           :: sequentialEvents request (historySnapshot request w)
                (OrchestrationRequest.prompt request) done
           ++ [ProviderCalled
                 (sequentialCall request (historySnapshot request w) done failing)]
    /\ List.length (providerCalls (events w'))
       = List.length (providerCalls (events w)) + List.length done + 1
    /\ messagesAdded (events w')
       = messagesAdded (events w)
           ++ userMessage (OrchestrationRequest.prompt request) :: responseMessages done
    /\ ContextManager.messages (contextManager w')
       = ContextManager.messages (contextManager w) ++ rows
    /\ map Message.content rows
       = OrchestrationRequest.prompt request :: map ProviderResponse.response done.
Proof.
  intros Hstrategy Hctx Hmodels Hturn Hthrow. apply usesContext_true in Hctx.
  eexists _, _. split.
  { apply (orchestrate_sequential_runs provider JSON_parse request Hctx w done failing
             later Hstrategy Hmodels Hturn).
    unfold bind, callProvider. cbn [events]. rewrite Hthrow. reflexivity. }
  cbn [events contextManager].
  split; [rewrite <- app_assoc; reflexivity|].
  split.
  { rewrite !providerCalls_app. cbn [providerCalls].
    rewrite ?providerCalls_app, !length_app. simpl.
    rewrite providerCalls_sequentialEvents. lia. }
  split.
  { rewrite !messagesAdded_app. cbn [messagesAdded].
    rewrite ?messagesAdded_app, messagesAdded_sequentialEvents, app_nil_r.
    reflexivity. }
  destruct (addMessages_rows (responseMessages done)
              (contextManager (afterRead request (afterUserMessage request w))))
    as [Hrows Hcontents].
  rewrite Hrows.
  unfold afterRead, afterUserMessage. rewrite Hctx. cbn [contextManager].
  destruct (getConversationHistory_fields None 50
              (snd (ContextManager.addMessage
                      (userMessage (OrchestrationRequest.prompt request))
                      (contextManager w)))) as (Hsame & _ & _).
  destruct (addMessage_messages (userMessage (OrchestrationRequest.prompt request))
              (contextManager w)) as (Hrow & _ & Hcontent).
  rewrite Hsame, Hrow, <- app_assoc. split; [reflexivity|].
  cbn [app map]. rewrite Hcontent.
  unfold afterRead, afterUserMessage in Hcontents. rewrite Hctx in Hcontents.
  cbn [contextManager] in Hcontents. rewrite Hcontents.
  unfold responseMessages. rewrite map_map. reflexivity.
Qed.

Lemma sequential_failure_aborts_witness :
  exists w' rows,
    orchestrate Examples.withoutB JsonSubset.parse Examples.sequentialABC Examples.world0
    = (Throw Examples.unavailable, w')
    /\ events w'
       = events Examples.world0
           ++ MessageAdded (userMessage "p")
           :: sequentialEvents Examples.sequentialABC
                (historySnapshot Examples.sequentialABC Examples.world0) "p"
                [ProviderResponse.mk "A" "ALPHA"]
           ++ [ProviderCalled
                 (sequentialCall Examples.sequentialABC
                    (historySnapshot Examples.sequentialABC Examples.world0)
                    [ProviderResponse.mk "A" "ALPHA"] "B")]
    /\ List.length (providerCalls (events w'))
       = List.length (providerCalls (events Examples.world0)) + 1 + 1
    /\ messagesAdded (events w')
       = messagesAdded (events Examples.world0)
           ++ userMessage "p" :: responseMessages [ProviderResponse.mk "A" "ALPHA"]
    /\ ContextManager.messages (contextManager w')
       = ContextManager.messages (contextManager Examples.world0) ++ rows
    /\ map Message.content rows = ["p"; "ALPHA"].
Proof.
  apply (sequential_failure_aborts Examples.withoutB JsonSubset.parse
           Examples.sequentialABC Examples.world0
           [ProviderResponse.mk "A" "ALPHA"] "B" ["C"] Examples.unavailable).
  - reflexivity.
  - simpl. discriminate.
  - reflexivity.
  - simpl. repeat split; reflexivity.
  - vm_compute. reflexivity.
Defined.

(** X28.  In the Sequential strategy with [useContext] not [false], a model
    whose name does not fit column [model] ends the run right after its own
    call.  When the models before it answer and are stored and it answers
    too, [orchestrate] throws the [DatabaseError] of the store: the response
    of that model is returned by the provider and lost, no row is written
    for it, and the models after it are never called. *)
Theorem sequential_refusal_aborts
    (provider : list Event -> ProviderCall -> Res string)
    (JSON_parse : string -> Res JsValue)
    (request : OrchestrationRequest.t) (w : World)
    (done : list ProviderResponse.t) (failing : string) (later : list string)
    (response : string) :
  OrchestrationRequest.strategy request = OrchestrationStrategy_Sequential ->
  OrchestrationRequest.useContext request <> Some false ->
  modelsOf request = map ProviderResponse.model done ++ failing :: later ->
  answersInTurn provider request (historySnapshot request w)
    (events w ++ [MessageAdded (userMessage (OrchestrationRequest.prompt request))])
    (OrchestrationRequest.prompt request) done ->
  provider
    (events w
       ++ MessageAdded (userMessage (OrchestrationRequest.prompt request))
       :: sequentialEvents request (historySnapshot request w)
            (OrchestrationRequest.prompt request) done)
    (sequentialCall request (historySnapshot request w) done failing)
  = Ok response ->
  ContextManager.modelColumn (Some failing) = None ->
  exists w' rows,
    orchestrate provider JSON_parse request w
    = (Throw (DatabaseErrorExn "value too long for type character varying(100)"), w')
    /\ events w'
       = events w
           ++ MessageAdded (userMessage (OrchestrationRequest.prompt request))
           :: sequentialEvents request (historySnapshot request w)
                (OrchestrationRequest.prompt request) done
           ++ [ ProviderCalled
                  (sequentialCall request (historySnapshot request w) done failing);
                MessageRefused (assistantMessage response failing None) ]
    /\ List.length (providerCalls (events w'))
       = List.length (providerCalls (events w)) + List.length done + 1
    /\ ContextManager.messages (contextManager w')
       = ContextManager.messages (contextManager w) ++ rows
    /\ map Message.content rows
       = OrchestrationRequest.prompt request :: map ProviderResponse.response done.
Proof.
  intros Hstrategy Hctx Hmodels Hturn Hcall Hlong. apply usesContext_true in Hctx.
  assert (Hrefused : ContextManager.accepts (assistantMessage response failing None)
                     = false).
  { unfold ContextManager.accepts, assistantMessage. cbn [NewMessage.model].
    rewrite Hlong. reflexivity. }
  eexists _, _. split.
  { apply (orchestrate_sequential_runs provider JSON_parse request Hctx w done failing
             later Hstrategy Hmodels Hturn).
    unfold bind at 1. unfold callProvider. cbn [events contextManager].
    rewrite Hcall. unfold when, bind.
    rewrite (addMessage_refused _ _ Hrefused). reflexivity. }
  cbn [events contextManager].
  split; [rewrite <- !app_assoc; reflexivity|].
  split.
  { rewrite !providerCalls_app. cbn [providerCalls].
    rewrite ?providerCalls_app, !length_app. simpl.
    rewrite providerCalls_sequentialEvents. lia. }
  destruct (addMessageRefused_fields
              (snd (addMessages (responseMessages done)
                      (contextManager (afterRead request (afterUserMessage request w))))))
    as [Hkept _].
  rewrite Hkept.
  destruct (addMessages_rows (responseMessages done)
              (contextManager (afterRead request (afterUserMessage request w))))
    as [Hrows Hcontents].
  rewrite Hrows.
  unfold afterRead, afterUserMessage. rewrite Hctx. cbn [contextManager].
  destruct (getConversationHistory_fields None 50
              (snd (ContextManager.addMessage
                      (userMessage (OrchestrationRequest.prompt request))
                      (contextManager w)))) as (Hsame & _ & _).
  destruct (addMessage_messages (userMessage (OrchestrationRequest.prompt request))
              (contextManager w)) as (Hrow & _ & Hcontent).
  rewrite Hsame, Hrow, <- app_assoc. split; [reflexivity|].
  cbn [app map]. rewrite Hcontent.
  unfold afterRead, afterUserMessage in Hcontents. rewrite Hctx in Hcontents.
  cbn [contextManager] in Hcontents. rewrite Hcontents.
  unfold responseMessages. rewrite map_map. reflexivity.
Qed.

Lemma sequential_refusal_aborts_witness :
  exists w' rows,
    orchestrate Examples.greek JsonSubset.parse
      (Examples.request "p" "sequential" (Some ["A"; Examples.longName; "C"]) None)
      Examples.world0
    = (Throw (DatabaseErrorExn "value too long for type character varying(100)"), w')
    /\ events w'
       = events Examples.world0
           ++ MessageAdded (userMessage "p")
           :: sequentialEvents
                (Examples.request "p" "sequential" (Some ["A"; Examples.longName; "C"])
                   None)
                (historySnapshot
                   (Examples.request "p" "sequential"
                      (Some ["A"; Examples.longName; "C"]) None)
                   Examples.world0)
                "p" [ProviderResponse.mk "A" "ALPHA"]
           ++ [ ProviderCalled
                  (sequentialCall
                     (Examples.request "p" "sequential"
                        (Some ["A"; Examples.longName; "C"]) None)
                     (historySnapshot
                        (Examples.request "p" "sequential"
                           (Some ["A"; Examples.longName; "C"]) None)
                        Examples.world0)
                     [ProviderResponse.mk "A" "ALPHA"] Examples.longName);
                MessageRefused (assistantMessage "OMEGA" Examples.longName None) ]
    /\ List.length (providerCalls (events w'))
       = List.length (providerCalls (events Examples.world0)) + 1 + 1
    /\ ContextManager.messages (contextManager w')
       = ContextManager.messages (contextManager Examples.world0) ++ rows
    /\ map Message.content rows = ["p"; "ALPHA"].
Proof.
  apply (sequential_refusal_aborts Examples.greek JsonSubset.parse
           (Examples.request "p" "sequential" (Some ["A"; Examples.longName; "C"]) None)
           Examples.world0 [ProviderResponse.mk "A" "ALPHA"] Examples.longName ["C"]
           "OMEGA").
  - reflexivity.
  - simpl. discriminate.
  - reflexivity.
  - simpl. repeat split; reflexivity.
  - vm_compute. reflexivity.
  - vm_compute. reflexivity.
Defined.

(** ** The cost and the writes of a debate *)

Lemma debateRoundCalls_calls request models rounds round :
  List.length (providerCalls (debateRoundCalls request models rounds round))
  = List.length models
  /\ messagesAdded (debateRoundCalls request models rounds round) = [].
Proof.
  unfold debateRoundCalls.
  rewrite <- (map_map
                (fun model =>
                   complete
                     (debatePrompt (OrchestrationRequest.prompt request) round
                        (firstn round rounds))
                     (withModel (OrchestrationRequest.options request) model))
                ProviderCalled).
  rewrite providerCalls_calls, messagesAdded_calls, length_map. auto.
Qed.

Lemma debate_rounds_calls request models rounds (indices : list nat) :
  List.length (providerCalls (flat_map (debateRoundCalls request models rounds) indices))
  = List.length indices * List.length models
  /\ messagesAdded (flat_map (debateRoundCalls request models rounds) indices) = [].
Proof.
  induction indices as [|i rest [IHcalls IHadded]]; [auto|].
  cbn [flat_map]. rewrite providerCalls_app, messagesAdded_app, length_app.
  destruct (debateRoundCalls_calls request models rounds i) as [-> ->].
  rewrite IHcalls, IHadded. auto.
Qed.

Lemma afterUserMessage_messagesAdded (request : OrchestrationRequest.t) (w : World) :
  messagesAdded (events (afterUserMessage request w))
  = messagesAdded (events w)
      ++ (if usesContext request
          then [userMessage (OrchestrationRequest.prompt request)] else []).
Proof.
  unfold afterUserMessage. destruct (usesContext request).
  - cbn [events]. rewrite messagesAdded_app. reflexivity.
  - symmetry. apply app_nil_r.
Qed.

Lemma orchestrate_Ok_dispatch provider JSON_parse request w w' result :
  orchestrate provider JSON_parse request w = (Ok result, w') ->
  exists inner,
    dispatch provider JSON_parse request (modelsOf request) (afterUserMessage request w)
    = (Ok inner, w')
    /\ result
       = OrchestrationResult.withConversationId inner
           (ContextManager.currentConversationId (contextManager w')).
Proof.
  rewrite orchestrate_run.
  destruct (dispatch provider JSON_parse request (modelsOf request)
              (afterUserMessage request w)) as [[inner|e] w1]; intros H; [|discriminate].
  injection H as <- <-. eauto.
Qed.

Lemma orchestrate_Throw_dispatch provider JSON_parse request w w' e :
  orchestrate provider JSON_parse request w = (Throw e, w') ->
  dispatch provider JSON_parse request (modelsOf request) (afterUserMessage request w)
  = (Throw e, w').
Proof.
  rewrite orchestrate_run.
  destruct (dispatch provider JSON_parse request (modelsOf request)
              (afterUserMessage request w)) as [[inner|e1] w1]; intros H; [discriminate|].
  injection H as <- <-. reflexivity.
Qed.

(** X11.  A debate that returns has made one provider call per model and
    round and one more for the conclusion, that is
    [maxRounds * models.length + 1] calls, and has written to the store the
    prompt and the conclusion only, and only with [useContext] not [false]:
    the responses of the rounds are not stored. *)
Theorem debate_calls_and_writes
    (provider : list Event -> ProviderCall -> Res string)
    (JSON_parse : string -> Res JsValue)
    (request : OrchestrationRequest.t) (w w' : World)
    (result : OrchestrationResult.t) :
  OrchestrationRequest.strategy request = OrchestrationStrategy_Debate ->
  orchestrate provider JSON_parse request w = (Ok result, w') ->
  List.length (providerCalls (events w'))
  = List.length (providerCalls (events w))
      + Z.to_nat (maxRoundsOf request) * List.length (modelsOf request) + 1
  /\ exists conclusion,
       OrchestrationResult.conclusion result = Some conclusion
       /\ messagesAdded (events w')
          = messagesAdded (events w)
              ++ (if usesContext request
                  then [ userMessage (OrchestrationRequest.prompt request);
                         conclusionMessage request (modelsOf request) conclusion ]
                  else []).
Proof.
  intros Hstrategy Hrun.
  apply orchestrate_Ok_dispatch in Hrun. destruct Hrun as (inner & Hrun & ->).
  rewrite (dispatch_debate provider JSON_parse request _ Hstrategy) in Hrun.
  apply debateMode_Ok in Hrun.
  destruct Hrun as (rounds & conclusion & _ & Hc & Hlen & _ & _ & Hevents).
  destruct (debate_rounds_calls request (modelsOf request) rounds
              (seq 0 (List.length rounds))) as [Hcalls Hadded].
  rewrite length_seq in Hcalls.
  rewrite Hevents. split.
  - rewrite !providerCalls_app, !length_app, afterUserMessage_providerCalls, Hcalls, Hlen.
    cbn [providerCalls]. destruct (usesContext request); simpl; lia.
  - exists conclusion. split; [exact Hc|].
    rewrite !messagesAdded_app, afterUserMessage_messagesAdded, Hadded.
    cbn [messagesAdded]. destruct (usesContext request); simpl.
    + rewrite <- app_assoc. reflexivity.
    + rewrite !app_nil_r. reflexivity.
Qed.

Lemma debate_calls_and_writes_witness :
  List.length
    (providerCalls
       (events
          (snd (orchestrate Examples.greek JsonSubset.parse (Examples.debateAB 2)
                  Examples.world0))))
  = List.length (providerCalls (events Examples.world0)) + 2 * 2 + 1
  /\ exists conclusion,
       OrchestrationResult.conclusion
         (Examples.resultOf
            (orchestrate Examples.greek JsonSubset.parse (Examples.debateAB 2)
               Examples.world0))
       = Some conclusion
       /\ messagesAdded
            (events
               (snd (orchestrate Examples.greek JsonSubset.parse (Examples.debateAB 2)
                       Examples.world0)))
          = messagesAdded (events Examples.world0)
              ++ (if usesContext (Examples.debateAB 2)
                  then [ userMessage "p";
                         conclusionMessage (Examples.debateAB 2) ["A"; "B"] conclusion ]
                  else []).
Proof.
  apply (debate_calls_and_writes Examples.greek JsonSubset.parse (Examples.debateAB 2)
           Examples.world0
           (snd (orchestrate Examples.greek JsonSubset.parse (Examples.debateAB 2)
                   Examples.world0))
           (Examples.resultOf
              (orchestrate Examples.greek JsonSubset.parse (Examples.debateAB 2)
                 Examples.world0))).
  - reflexivity.
  - vm_compute. reflexivity.
Defined.

(** X12.  A debate that fails leaves nothing of itself in the store: when
    [orchestrate] throws in the Debate strategy, the store is as the write of
    the prompt left it, and no message but the prompt was added. *)
Theorem debate_failure_stores_nothing
    (provider : list Event -> ProviderCall -> Res string)
    (JSON_parse : string -> Res JsValue)
    (request : OrchestrationRequest.t) (w w' : World) (e : Exn) :
  OrchestrationRequest.strategy request = OrchestrationStrategy_Debate ->
  orchestrate provider JSON_parse request w = (Throw e, w') ->
  contextManager w' = contextManager (afterUserMessage request w)
  /\ messagesAdded (events w')
     = messagesAdded (events w)
         ++ (if usesContext request
             then [userMessage (OrchestrationRequest.prompt request)] else []).
Proof.
  intros Hstrategy Hrun.
  apply orchestrate_Throw_dispatch in Hrun.
  rewrite (dispatch_debate provider JSON_parse request _ Hstrategy) in Hrun.
  rewrite <- afterUserMessage_messagesAdded.
  unfold debateMode in Hrun.
  pose proof (storeFrame_debateLoop provider request (OrchestrationRequest.prompt request)
                (modelsOf request) (Z.to_nat (maxRoundsOf request)) 0 []
                (afterUserMessage request w)) as [Hcm Hadded].
  apply bind_Throw in Hrun. destruct Hrun as [Hrun|(rounds & w1 & Hloop & Hrun)].
  - rewrite Hrun in Hcm, Hadded. auto.
  - rewrite Hloop in Hcm, Hadded. cbn [snd] in Hcm, Hadded.
    apply bind_Throw in Hrun. destruct Hrun as [Hrun|(conclusion & w2 & _ & Hrun)].
    + unfold generateDebateConclusion, callProvider in Hrun. injection Hrun as _ <-.
      cbn [contextManager events]. rewrite messagesAdded_app. simpl.
      rewrite app_nil_r. auto.
    + apply bind_Throw in Hrun. destruct Hrun as [Hrun|(u & w3 & _ & Hrun)];
        [|discriminate].
      unfold when in Hrun. destruct (usesContext request); [|discriminate].
      unfold bind in Hrun. rewrite addMessage_run in Hrun by reflexivity. discriminate.
Qed.

Lemma debate_failure_stores_nothing_witness :
  contextManager
    (snd (orchestrate Examples.withoutB JsonSubset.parse
            (Examples.request "p" "debate" (Some ["A"; "B"]) None) Examples.world0))
  = contextManager
      (afterUserMessage (Examples.request "p" "debate" (Some ["A"; "B"]) None)
         Examples.world0)
  /\ messagesAdded
       (events
          (snd (orchestrate Examples.withoutB JsonSubset.parse
                  (Examples.request "p" "debate" (Some ["A"; "B"]) None)
                  Examples.world0)))
     = messagesAdded (events Examples.world0) ++ [userMessage "p"].
Proof.
  apply (debate_failure_stores_nothing Examples.withoutB JsonSubset.parse
           (Examples.request "p" "debate" (Some ["A"; "B"]) None) Examples.world0
           (snd (orchestrate Examples.withoutB JsonSubset.parse
                   (Examples.request "p" "debate" (Some ["A"; "B"]) None)
                   Examples.world0))
           Examples.unavailable).
  - reflexivity.
  - vm_compute. reflexivity.
Defined.

(** ** specialistRouting *)

Lemma numModelsOf_at_most_3 (complexity : JsValue) : numModelsOf complexity <= 3.
Proof.
  unfold numModelsOf.
  destruct (strictEqualsString complexity "high");
    destruct (strictEqualsString complexity "medium"); lia.
Qed.

Section SpecialistRun.

Variable provider : list Event -> ProviderCall -> Res string.
Variable JSON_parse : string -> Res JsValue.
Variable request : OrchestrationRequest.t.

Lemma analyzePromptType_Ok w w' analysis :
  analyzePromptType provider JSON_parse (OrchestrationRequest.prompt request) w
  = (Ok analysis, w') ->
  w' = mkWorld (contextManager w) (events w ++ [ProviderCalled (classificationCall request)]).
Proof.
  unfold analyzePromptType. intros H. bind_inv H.
  apply callProvider_Ok in Hrun. destruct Hrun as [_ ->].
  unfold tryCatch, liftRes, ret in H.
  destruct (JSON_parse a); injection H as _ <-; reflexivity.
Qed.

Lemma specialistLoop_Ok specialists responses w w' out :
  specialistLoop provider request specialists responses w = (Ok out, w') ->
  exists new,
    out = responses ++ new
    /\ map ProviderResponse.model new = map Specialist.model specialists
    /\ providerCalls (events w')
       = providerCalls (events w)
           ++ map (specialistCall request) (map Specialist.model specialists)
    /\ messagesAdded (events w')
       = messagesAdded (events w)
           ++ (if usesContext request
               then map (fun p => specialistMessage (fst p) (snd p))
                        (combine specialists new)
               else []).
Proof.
  revert responses w.
  induction specialists as [|specialist rest IH]; intros responses w H.
  - simpl in H. ret_inv H. exists []. rewrite !app_nil_r.
    destruct (usesContext request); simpl; rewrite ?app_nil_r; auto.
  - simpl in H. bind_inv H.
    apply callProvider_Ok in Hrun. destruct Hrun as [_ ->].
    bind_inv H.
    assert (Hw : providerCalls (events w0)
                 = providerCalls (events w)
                     ++ [specialistCall request (Specialist.model specialist)]
                 /\ messagesAdded (events w0)
                    = messagesAdded (events w)
                        ++ (if usesContext request
                            then [specialistMessage specialist
                                    (ProviderResponse.mk (Specialist.model specialist) a)]
                            else [])).
    { unfold when in Hrun. destruct (usesContext request).
      - unfold bind in Hrun. add_cases Hrun; [|discriminate]. ret_inv Hrun.
        cbn [events]. rewrite !providerCalls_app, !messagesAdded_app. simpl.
        rewrite !app_nil_r. auto.
      - ret_inv Hrun. cbn [events]. rewrite providerCalls_app, messagesAdded_app. simpl.
        rewrite !app_nil_r. auto. }
    destruct Hw as [Hcalls Hadded].
    apply IH in H. destruct H as (new & -> & Hmodels & Hc & Ha).
    exists (ProviderResponse.mk (Specialist.model specialist) a :: new).
    rewrite <- app_assoc. split; [reflexivity|]. split; [simpl; congruence|].
    rewrite Hc, Ha, Hcalls, Hadded, <- !app_assoc. split; [reflexivity|].
    destruct (usesContext request); reflexivity.
Qed.

Lemma dispatch_specialist models :
  OrchestrationRequest.strategy request = OrchestrationStrategy_Specialist ->
  dispatch provider JSON_parse request models
  = specialistRouting provider JSON_parse request models.
Proof.
  intros H. unfold dispatch. rewrite H. reflexivity.
Qed.

(** A specialist run that returns, step by step. *)
Lemma orchestrate_specialist_Ok w w' result :
  OrchestrationRequest.strategy request = OrchestrationStrategy_Specialist ->
  orchestrate provider JSON_parse request w = (Ok result, w') ->
  exists analysis specialists responses,
    selectSpecialists analysis (modelsOf request) = Ok specialists
    /\ OrchestrationResult.models result = map Specialist.model specialists
    /\ OrchestrationResult.responses result = Some responses
    /\ map ProviderResponse.model responses = map Specialist.model specialists
    /\ providerCalls (events w')
       = providerCalls (events w)
           ++ classificationCall request
           :: map (specialistCall request) (map Specialist.model specialists)
    /\ messagesAdded (events w')
       = messagesAdded (events w) ++ specialistWrites request specialists responses.
Proof.
  intros Hstrategy Hrun.
  apply orchestrate_Ok_dispatch in Hrun. destruct Hrun as (inner & Hrun & ->).
  rewrite (dispatch_specialist _ Hstrategy) in Hrun.
  unfold specialistRouting in Hrun. bind_inv Hrun.
  apply analyzePromptType_Ok in Hrun0. subst w0.
  bind_inv Hrun. unfold liftRes in Hrun0. injection Hrun0 as Hsel <-.
  bind_inv Hrun. ret_inv Hrun.
  apply specialistLoop_Ok in Hrun0. destruct Hrun0 as (new & -> & Hmodels & Hcalls & Hadded).
  exists a, a0, new. cbn [app] in *.
  split; [exact Hsel|]. split; [reflexivity|]. split; [reflexivity|].
  split; [exact Hmodels|].
  rewrite Hcalls, Hadded. cbn [events].
  rewrite providerCalls_app, messagesAdded_app, afterUserMessage_providerCalls,
    afterUserMessage_messagesAdded.
  cbn [providerCalls messagesAdded]. rewrite app_nil_r, <- !app_assoc.
  split; [reflexivity|].
  unfold specialistWrites. destruct (usesContext request); reflexivity.
Qed.

End SpecialistRun.

(** X13.  A specialist run that returns has made the classification call and
    then one call per selected model, in the order of the selection, each
    with the bare prompt of the request: at most four provider calls.  Its
    responses are one per selected model, in that order, and when the store
    is in use each is stored under its model with the reason of the
    selection. *)
Theorem specialist_calls_and_writes
    (provider : list Event -> ProviderCall -> Res string)
    (JSON_parse : string -> Res JsValue)
    (request : OrchestrationRequest.t) (w w' : World)
    (result : OrchestrationResult.t) :
  OrchestrationRequest.strategy request = OrchestrationStrategy_Specialist ->
  orchestrate provider JSON_parse request w = (Ok result, w') ->
  exists analysis specialists responses,
    selectSpecialists analysis (modelsOf request) = Ok specialists
    /\ OrchestrationResult.models result = map Specialist.model specialists
    /\ OrchestrationResult.responses result = Some responses
    /\ map ProviderResponse.model responses = OrchestrationResult.models result
    /\ List.length (OrchestrationResult.models result) <= 3
    /\ providerCalls (events w')
       = providerCalls (events w)
           ++ classificationCall request
           :: map (specialistCall request) (OrchestrationResult.models result)
    /\ messagesAdded (events w')
       = messagesAdded (events w) ++ specialistWrites request specialists responses.
Proof.
  intros Hstrategy Hrun.
  destruct (orchestrate_specialist_Ok provider JSON_parse request w w' result
              Hstrategy Hrun)
    as (analysis & specialists & responses & Hsel & Hmodels & Hres & Hmap & Hcalls & Hadded).
  exists analysis, specialists, responses. rewrite Hmodels.
  split; [exact Hsel|]. split; [reflexivity|]. split; [exact Hres|].
  split; [exact Hmap|]. split; [|auto].
  rewrite length_map.
  destruct (selectSpecialists_Ok _ _ _ Hsel) as (p & s & c & _ & _ & Hc & _).
  destruct (selectSpecialists_within _ _ _ Hsel c Hc) as [Hlen _].
  pose proof (numModelsOf_at_most_3 c). lia.
Qed.

Lemma specialist_calls_and_writes_witness :
  exists analysis specialists responses,
    selectSpecialists analysis ["openai/gpt-4o"; "deepseek/deepseek-r1"] = Ok specialists
    /\ ["deepseek/deepseek-r1"; "openai/gpt-4o"] = map Specialist.model specialists
    /\ Some [ ProviderResponse.mk "deepseek/deepseek-r1" "OMEGA";
              ProviderResponse.mk "openai/gpt-4o" "OMEGA" ]
       = Some responses
    /\ map ProviderResponse.model responses = ["deepseek/deepseek-r1"; "openai/gpt-4o"]
    /\ 2 <= 3
    /\ providerCalls
         (events
            (snd (orchestrate Examples.jsonClassifier JsonSubset.parse
                    (Examples.request "X" "specialist"
                       (Some ["openai/gpt-4o"; "deepseek/deepseek-r1"]) None)
                    Examples.world0)))
       = providerCalls (events Examples.world0)
           ++ classificationCall
                (Examples.request "X" "specialist"
                   (Some ["openai/gpt-4o"; "deepseek/deepseek-r1"]) None)
           :: map (specialistCall
                     (Examples.request "X" "specialist"
                        (Some ["openai/gpt-4o"; "deepseek/deepseek-r1"]) None))
                  ["deepseek/deepseek-r1"; "openai/gpt-4o"]
    /\ messagesAdded
         (events
            (snd (orchestrate Examples.jsonClassifier JsonSubset.parse
                    (Examples.request "X" "specialist"
                       (Some ["openai/gpt-4o"; "deepseek/deepseek-r1"]) None)
                    Examples.world0)))
       = messagesAdded (events Examples.world0)
           ++ specialistWrites
                (Examples.request "X" "specialist"
                   (Some ["openai/gpt-4o"; "deepseek/deepseek-r1"]) None)
                specialists responses.
Proof.
  apply (specialist_calls_and_writes Examples.jsonClassifier JsonSubset.parse
           (Examples.request "X" "specialist"
              (Some ["openai/gpt-4o"; "deepseek/deepseek-r1"]) None)
           Examples.world0
           (snd (orchestrate Examples.jsonClassifier JsonSubset.parse
                   (Examples.request "X" "specialist"
                      (Some ["openai/gpt-4o"; "deepseek/deepseek-r1"]) None)
                   Examples.world0))
           (OrchestrationResult.mk "specialist" ["deepseek/deepseek-r1"; "openai/gpt-4o"]
              (Some [ ProviderResponse.mk "deepseek/deepseek-r1" "OMEGA";
                      ProviderResponse.mk "openai/gpt-4o" "OMEGA" ])
              None None None None (Some "uuid-0"))).
  - reflexivity.
  - vm_compute. reflexivity.
Defined.

(** X14.  With an empty list of models the Specialist strategy selects no
    one: a run that returns has made the classification call and no other,
    and its result has no model and no response. *)
Theorem specialist_with_no_models
    (provider : list Event -> ProviderCall -> Res string)
    (JSON_parse : string -> Res JsValue)
    (request : OrchestrationRequest.t) (w w' : World)
    (result : OrchestrationResult.t) :
  OrchestrationRequest.strategy request = OrchestrationStrategy_Specialist ->
  OrchestrationRequest.models request = Some [] ->
  orchestrate provider JSON_parse request w = (Ok result, w') ->
  OrchestrationResult.models result = []
  /\ OrchestrationResult.responses result = Some []
  /\ providerCalls (events w') = providerCalls (events w) ++ [classificationCall request].
Proof.
  intros Hstrategy Hmodels Hrun.
  destruct (orchestrate_specialist_Ok provider JSON_parse request w w' result
              Hstrategy Hrun)
    as (analysis & specialists & responses & Hsel & Hm & Hres & Hmap & Hcalls & _).
  assert (Hnone : specialists = []).
  { destruct (selectSpecialists_Ok _ _ _ Hsel) as (p & s & c & _ & _ & Hc & _).
    destruct (selectSpecialists_within _ _ _ Hsel c Hc) as [_ Hin].
    unfold modelsOf in Hin. rewrite Hmodels in Hin.
    destruct specialists as [|sp rest]; [reflexivity|].
    destruct (Hin sp (or_introl eq_refl)). }
  subst specialists. cbn [map] in *.
  apply map_eq_nil in Hmap. subst responses. auto.
Qed.

Lemma specialist_with_no_models_witness :
  OrchestrationResult.models
    (Examples.resultOf
       (orchestrate Examples.jsonClassifier JsonSubset.parse
          (Examples.request "X" "specialist" (Some []) None) Examples.world0))
  = []
  /\ OrchestrationResult.responses
       (Examples.resultOf
          (orchestrate Examples.jsonClassifier JsonSubset.parse
             (Examples.request "X" "specialist" (Some []) None) Examples.world0))
     = Some []
  /\ providerCalls
       (events
          (snd (orchestrate Examples.jsonClassifier JsonSubset.parse
                  (Examples.request "X" "specialist" (Some []) None) Examples.world0)))
     = providerCalls (events Examples.world0)
         ++ [classificationCall (Examples.request "X" "specialist" (Some []) None)].
Proof.
  apply (specialist_with_no_models Examples.jsonClassifier JsonSubset.parse
           (Examples.request "X" "specialist" (Some []) None) Examples.world0
           (snd (orchestrate Examples.jsonClassifier JsonSubset.parse
                   (Examples.request "X" "specialist" (Some []) None) Examples.world0))).
  - reflexivity.
  - reflexivity.
  - vm_compute. reflexivity.
Defined.

(** ** No model is selected twice *)

Lemma specialistMap_lists_distinct (key : string) (models : list string) :
  assoc specialistMap key = Some models -> NoDup models.
Proof.
  unfold specialistMap. cbn [assoc].
  repeat match goal with
         | |- context [String.eqb ?a key] => destruct (String.eqb a key)
         end;
    intros H; try discriminate; injection H as <-;
    repeat constructor; simpl; intuition discriminate.
Qed.

Lemma primarySpecialistsOf_distinct (primary : JsValue) :
  NoDup (primarySpecialistsOf primary).
Proof.
  unfold primarySpecialistsOf, specialistMap_get.
  destruct (assoc specialistMap (toString primary)) as [models|] eqn:H.
  - exact (specialistMap_lists_distinct _ _ H).
  - destruct (arr_includes Object_prototype_keys (toString primary));
      repeat constructor; simpl; tauto.
Qed.

Lemma alreadyChosen_false specialists model :
  alreadyChosen specialists model = false ->
  ~ In model (map Specialist.model specialists).
Proof.
  unfold alreadyChosen. intros Hnone Hin.
  apply in_map_iff in Hin. destruct Hin as (s & <- & Hs).
  assert (Hsome : existsb (fun s0 => String.eqb (Specialist.model s0) (Specialist.model s))
                          specialists = true).
  { apply existsb_exists. exists s. split; [exact Hs | apply String.eqb_refl]. }
  congruence.
Qed.

Lemma distinct_push specialists model reason :
  NoDup (map Specialist.model specialists) ->
  ~ In model (map Specialist.model specialists) ->
  NoDup (map Specialist.model (specialists ++ [Specialist.mk model reason])).
Proof.
  intros Hnd Hnot. rewrite map_app. cbn [map Specialist.model].
  apply NoDup_app; [exact Hnd | repeat constructor; simpl; tauto|].
  intros m Hm [<-|[]]. contradiction.
Qed.

Lemma addPrimary_distinct availableModels numModels primary candidates specialists :
  NoDup candidates ->
  NoDup (map Specialist.model specialists) ->
  (forall model, In model candidates -> ~ In model (map Specialist.model specialists)) ->
  NoDup (map Specialist.model
           (fold_left (addPrimary availableModels numModels primary)
                      candidates specialists)).
Proof.
  revert specialists.
  induction candidates as [|model rest IH]; intros specialists Hcand Hnd Hfresh.
  - exact Hnd.
  - inversion Hcand as [|? ? Hnotin Hrest]; subst. cbn [fold_left].
    apply IH; [exact Hrest| |]; unfold addPrimary;
      destruct (arr_includes availableModels model
                && (List.length specialists <? numModels)%nat).
    + apply distinct_push; [exact Hnd | apply Hfresh; simpl; auto].
    + exact Hnd.
    + intros m Hm. rewrite map_app. cbn [map Specialist.model].
      intros Hin. apply in_app_or in Hin. destruct Hin as [Hin|[<-|[]]].
      * apply (Hfresh m); simpl; auto.
      * contradiction.
    + intros m Hm. apply Hfresh. simpl. auto.
Qed.

Lemma addSecondary_distinct availableModels numModels secondary candidates specialists :
  NoDup (map Specialist.model specialists) ->
  NoDup (map Specialist.model
           (fold_left (addSecondary availableModels numModels secondary)
                      candidates specialists)).
Proof.
  revert specialists.
  induction candidates as [|model rest IH]; intros specialists Hnd.
  - exact Hnd.
  - cbn [fold_left]. apply IH. unfold addSecondary.
    destruct (arr_includes availableModels model); cbn [andb]; [|exact Hnd].
    destruct (alreadyChosen specialists model) eqn:Hchosen; cbn [negb andb]; [exact Hnd|].
    destruct (List.length specialists <? numModels)%nat; [|exact Hnd].
    apply distinct_push; [exact Hnd | apply alreadyChosen_false; exact Hchosen].
Qed.

(** X15.  [selectSpecialists] selects no model twice, whatever the
    classification and even when the list of available models repeats a
    model or the primary and the secondary category share candidates. *)
Theorem selectSpecialists_distinct
    (analysis : JsValue) (availableModels : list string)
    (specialists : list Specialist.t) :
  selectSpecialists analysis availableModels = Ok specialists ->
  NoDup (map Specialist.model specialists).
Proof.
  intros H. apply selectSpecialists_Ok in H.
  destruct H as (primary & secondary & complexity & _ & _ & _ & ->).
  unfold addFallback.
  destruct (fold_left (addSecondary availableModels (numModelsOf complexity) secondary)
              (secondarySpecialistsOf secondary)
              (fold_left (addPrimary availableModels (numModelsOf complexity) primary)
                 (primarySpecialistsOf primary) [])) as [|s rest] eqn:Hsel.
  - destruct availableModels; repeat constructor; simpl; tauto.
  - rewrite <- Hsel. apply addSecondary_distinct, addPrimary_distinct.
    + apply primarySpecialistsOf_distinct.
    + constructor.
    + intros model _ [].
Qed.

Lemma selectSpecialists_distinct_witness :
  NoDup (map Specialist.model
           [ Specialist.mk "anthropic/claude-opus-4" "Selected for coding tasks";
             Specialist.mk "openai/gpt-4o" "Secondary specialist for architecture" ]).
Proof.
  apply (selectSpecialists_distinct
           (JObj [ ("primary", JStr "coding"); ("secondary", JStr "architecture");
                   ("complexity", JStr "high") ])
           ["openai/gpt-4o"; "anthropic/claude-opus-4"; "anthropic/claude-opus-4"]).
  reflexivity.
Defined.

(** ** What the Parallel and the Consensus strategy store *)

Section ParallelWrites.

Variable provider : list Event -> ProviderCall -> Res string.
Variable JSON_parse : string -> Res JsValue.
Variable request : OrchestrationRequest.t.

(** The parallel phase of an [orchestrate] call, step by step. *)
Lemma parallelProcessing_run w :
  parallelProcessing provider request (modelsOf request) (afterUserMessage request w)
  = match synthesisOutcome provider request w with
    | Throw e => (Throw e, afterSynthesisCall provider request w)
    | Ok synthesis =>
        (Ok (OrchestrationResult.mk OrchestrationStrategy_Parallel (modelsOf request)
               (Some (successes (modelsOf request) (parallelOutcomes provider request w)))
               None (Some synthesis) None None None),
         afterSynthesis provider request w synthesis)
    end.
Proof.
  unfold parallelProcessing.
  unfold bind at 1. rewrite readHistory_run.
  unfold bind at 1. rewrite promiseAll_parallel_run.
  rewrite filterBoolean_settled, afterRead_events.
  unfold bind at 1. unfold synthesizeResponses, callProvider.
  cbn [contextManager events].
  fold (historySnapshot request w). fold (parallelCalls request w).
  fold (parallelOutcomes provider request w).
  fold (synthesisCall provider request w).
  fold (synthesisOutcome provider request w).
  rewrite <- app_assoc. fold (afterSynthesisCall provider request w).
  destruct (synthesisOutcome provider request w) as [synthesis|e]; [|reflexivity].
  unfold afterSynthesis, when, bind, ret.
  destruct (usesContext request && negb (String.eqb synthesis EmptyString));
    [rewrite addMessage_run by reflexivity|]; reflexivity.
Qed.

Lemma afterSynthesisCall_trace w :
  providerCalls (events (afterSynthesisCall provider request w))
  = providerCalls (events w)
      ++ parallelCalls request w ++ [synthesisCall provider request w]
  /\ messagesAdded (events (afterSynthesisCall provider request w))
     = messagesAdded (events w)
         ++ (if usesContext request
             then [userMessage (OrchestrationRequest.prompt request)] else []).
Proof.
  unfold afterSynthesisCall. cbn [events].
  rewrite !providerCalls_app, !messagesAdded_app, providerCalls_calls,
    messagesAdded_calls, afterUserMessage_providerCalls, afterUserMessage_messagesAdded.
  simpl. rewrite !app_nil_r. auto.
Qed.

Lemma afterSynthesis_trace w synthesis :
  providerCalls (events (afterSynthesis provider request w synthesis))
  = providerCalls (events w)
      ++ parallelCalls request w ++ [synthesisCall provider request w]
  /\ messagesAdded (events (afterSynthesis provider request w synthesis))
     = messagesAdded (events w) ++ parallelWrites request synthesis.
Proof.
  destruct (afterSynthesisCall_trace w) as [Hcalls Hadded].
  unfold afterSynthesis, parallelWrites, synthesisMessage.
  destruct (usesContext request); cbn [andb].
  - destruct (String.eqb synthesis EmptyString); cbn [negb].
    + auto.
    + cbn [events]. rewrite providerCalls_app, messagesAdded_app, Hcalls, Hadded.
      simpl. rewrite app_nil_r, <- app_assoc. auto.
  - auto.
Qed.

Lemma dispatch_consensus models :
  OrchestrationRequest.strategy request = OrchestrationStrategy_Consensus ->
  dispatch provider JSON_parse request models = consensusMode provider request models.
Proof.
  intros H. unfold dispatch. rewrite H. reflexivity.
Qed.

End ParallelWrites.

(** X16.  The Parallel strategy stores the prompt and the synthesis and
    nothing else: no response of a model is stored, and a synthesis that is
    the empty text is not stored either, though the result carries it.  A
    parallel run that throws has stored the prompt at most. *)
Theorem parallel_writes
    (provider : list Event -> ProviderCall -> Res string)
    (JSON_parse : string -> Res JsValue)
    (request : OrchestrationRequest.t) (w : World) :
  OrchestrationRequest.strategy request = OrchestrationStrategy_Parallel ->
  (forall result w',
     orchestrate provider JSON_parse request w = (Ok result, w') ->
     exists synthesis,
       OrchestrationResult.synthesis result = Some synthesis
       /\ messagesAdded (events w')
          = messagesAdded (events w)
              ++ (if usesContext request
                  then userMessage (OrchestrationRequest.prompt request)
                       :: (if String.eqb synthesis EmptyString then []
                           else [synthesisMessage request synthesis])
                  else []))
  /\ (forall e w',
        orchestrate provider JSON_parse request w = (Throw e, w') ->
        messagesAdded (events w')
        = messagesAdded (events w)
            ++ (if usesContext request
                then [userMessage (OrchestrationRequest.prompt request)] else [])).
Proof.
  intros Hstrategy.
  rewrite (orchestrate_parallel_run provider JSON_parse request w Hstrategy).
  split.
  - intros result w' H.
    destruct (synthesisOutcome provider request w) as [synthesis|e]; [|discriminate].
    injection H as <- <-. exists synthesis. split; [reflexivity|].
    apply (afterSynthesis_trace provider request w synthesis).
  - intros e w' H.
    destruct (synthesisOutcome provider request w) as [synthesis|e1]; [discriminate|].
    injection H as _ <-. apply (afterSynthesisCall_trace provider request w).
Qed.

Lemma parallel_writes_witness :
  (forall result w',
     orchestrate Examples.greek JsonSubset.parse
       (Examples.request "X" "parallel" (Some ["A"; "B"]) None) Examples.world0
     = (Ok result, w') ->
     exists synthesis,
       OrchestrationResult.synthesis result = Some synthesis
       /\ messagesAdded (events w')
          = messagesAdded (events Examples.world0)
              ++ (if usesContext (Examples.request "X" "parallel" (Some ["A"; "B"]) None)
                  then userMessage "X"
                       :: (if String.eqb synthesis EmptyString then []
                           else [synthesisMessage
                                   (Examples.request "X" "parallel" (Some ["A"; "B"]) None)
                                   synthesis])
                  else []))
  /\ (forall e w',
        orchestrate Examples.greek JsonSubset.parse
          (Examples.request "X" "parallel" (Some ["A"; "B"]) None) Examples.world0
        = (Throw e, w') ->
        messagesAdded (events w')
        = messagesAdded (events Examples.world0)
            ++ (if usesContext (Examples.request "X" "parallel" (Some ["A"; "B"]) None)
                then [userMessage "X"] else [])).
Proof.
  apply (parallel_writes Examples.greek JsonSubset.parse
           (Examples.request "X" "parallel" (Some ["A"; "B"]) None) Examples.world0).
  reflexivity.
Defined.

(** X17.  A consensus run that returns has made the per-model calls, the
    synthesis call and the consensus call, in this order, the consensus
    prompt listing the same responses as the synthesis prompt.  With the
    store in use it has stored the prompt, the synthesis (unless empty) and
    the consensus; yet its result has no synthesis: the text of the inner
    parallel phase is stored and then dropped. *)
Theorem consensus_calls_and_writes
    (provider : list Event -> ProviderCall -> Res string)
    (JSON_parse : string -> Res JsValue)
    (request : OrchestrationRequest.t) (w w' : World)
    (result : OrchestrationResult.t) :
  OrchestrationRequest.strategy request = OrchestrationStrategy_Consensus ->
  orchestrate provider JSON_parse request w = (Ok result, w') ->
  exists synthesis consensus,
    synthesisOutcome provider request w = Ok synthesis
    /\ provider (events (afterSynthesis provider request w synthesis))
         (consensusCall provider request w)
       = Ok consensus
    /\ OrchestrationResult.responses result
       = Some (successes (modelsOf request) (parallelOutcomes provider request w))
    /\ OrchestrationResult.consensus result = Some consensus
    /\ OrchestrationResult.synthesis result = None
    /\ providerCalls (events w')
       = providerCalls (events w)
           ++ parallelCalls request w
           ++ [synthesisCall provider request w; consensusCall provider request w]
    /\ messagesAdded (events w')
       = messagesAdded (events w)
           ++ parallelWrites request synthesis
           ++ (if usesContext request then [consensusMessage request consensus] else []).
Proof.
  intros Hstrategy Hrun.
  apply orchestrate_Ok_dispatch in Hrun. destruct Hrun as (inner & Hrun & ->).
  rewrite (dispatch_consensus provider JSON_parse request _ Hstrategy) in Hrun.
  unfold consensusMode in Hrun. bind_inv Hrun.
  rewrite parallelProcessing_run in Hrun0.
  destruct (synthesisOutcome provider request w) as [synthesis|e]; [|discriminate].
  injection Hrun0 as <- <-.
  cbn [OrchestrationResult.responses] in Hrun.
  bind_inv Hrun. unfold findConsensus in Hrun0.
  apply callProvider_Ok in Hrun0. destruct Hrun0 as [Hconsensus ->].
  bind_inv Hrun. ret_inv Hrun.
  destruct (afterSynthesis_trace provider request w synthesis) as [Hcalls Hadded].
  exists synthesis, a. split; [reflexivity|]. split; [exact Hconsensus|].
  split; [reflexivity|]. split; [reflexivity|]. split; [reflexivity|].
  unfold when in Hrun0. unfold consensusMessage. destruct (usesContext request).
  - unfold bind in Hrun0. rewrite addMessage_run in Hrun0 by reflexivity. ret_inv Hrun0.
    cbn [events]. rewrite !providerCalls_app, !messagesAdded_app, Hcalls, Hadded.
    simpl. rewrite !app_nil_r, <- !app_assoc. auto.
  - ret_inv Hrun0. cbn [events].
    rewrite !providerCalls_app, !messagesAdded_app, Hcalls, Hadded.
    simpl. rewrite !app_nil_r, <- !app_assoc. auto.
Qed.

Lemma consensus_calls_and_writes_witness :
  exists synthesis consensus,
    synthesisOutcome Examples.withoutB
      (Examples.request "X" "consensus" (Some ["A"; "B"; "C"]) None) Examples.world0
    = Ok synthesis
    /\ Examples.withoutB
         (events
            (afterSynthesis Examples.withoutB
               (Examples.request "X" "consensus" (Some ["A"; "B"; "C"]) None)
               Examples.world0 synthesis))
         (consensusCall Examples.withoutB
            (Examples.request "X" "consensus" (Some ["A"; "B"; "C"]) None)
            Examples.world0)
       = Ok consensus
    /\ OrchestrationResult.responses
         (Examples.resultOf
            (orchestrate Examples.withoutB JsonSubset.parse
               (Examples.request "X" "consensus" (Some ["A"; "B"; "C"]) None)
               Examples.world0))
       = Some (successes ["A"; "B"; "C"]
                 (parallelOutcomes Examples.withoutB
                    (Examples.request "X" "consensus" (Some ["A"; "B"; "C"]) None)
                    Examples.world0))
    /\ OrchestrationResult.consensus
         (Examples.resultOf
            (orchestrate Examples.withoutB JsonSubset.parse
               (Examples.request "X" "consensus" (Some ["A"; "B"; "C"]) None)
               Examples.world0))
       = Some consensus
    /\ OrchestrationResult.synthesis
         (Examples.resultOf
            (orchestrate Examples.withoutB JsonSubset.parse
               (Examples.request "X" "consensus" (Some ["A"; "B"; "C"]) None)
               Examples.world0))
       = None
    /\ providerCalls
         (events
            (snd (orchestrate Examples.withoutB JsonSubset.parse
                    (Examples.request "X" "consensus" (Some ["A"; "B"; "C"]) None)
                    Examples.world0)))
       = providerCalls (events Examples.world0)
           ++ parallelCalls (Examples.request "X" "consensus" (Some ["A"; "B"; "C"]) None)
                Examples.world0
           ++ [ synthesisCall Examples.withoutB
                  (Examples.request "X" "consensus" (Some ["A"; "B"; "C"]) None)
                  Examples.world0;
                consensusCall Examples.withoutB
                  (Examples.request "X" "consensus" (Some ["A"; "B"; "C"]) None)
                  Examples.world0 ]
    /\ messagesAdded
         (events
            (snd (orchestrate Examples.withoutB JsonSubset.parse
                    (Examples.request "X" "consensus" (Some ["A"; "B"; "C"]) None)
                    Examples.world0)))
       = messagesAdded (events Examples.world0)
           ++ parallelWrites (Examples.request "X" "consensus" (Some ["A"; "B"; "C"]) None)
                synthesis
           ++ (if usesContext (Examples.request "X" "consensus" (Some ["A"; "B"; "C"]) None)
               then [consensusMessage
                       (Examples.request "X" "consensus" (Some ["A"; "B"; "C"]) None)
                       consensus]
               else []).
Proof.
  apply (consensus_calls_and_writes Examples.withoutB JsonSubset.parse
           (Examples.request "X" "consensus" (Some ["A"; "B"; "C"]) None)
           Examples.world0
           (snd (orchestrate Examples.withoutB JsonSubset.parse
                   (Examples.request "X" "consensus" (Some ["A"; "B"; "C"]) None)
                   Examples.world0))
           (Examples.resultOf
              (orchestrate Examples.withoutB JsonSubset.parse
                 (Examples.request "X" "consensus" (Some ["A"; "B"; "C"]) None)
                 Examples.world0))).
  - reflexivity.
  - vm_compute. reflexivity.
Defined.

(** ** The prompt in the history *)

(** The history a strategy reads ends with the prompt, and the strategy
    appends the prompt again. *)
Lemma history_ends_with_prompt
    (request : OrchestrationRequest.t) (w : World) :
  OrchestrationRequest.useContext request <> Some false ->
  exists earlier,
    historyMessages (historySnapshot request w)
    = earlier ++ [ContextMessage.mk user (OrchestrationRequest.prompt request)]
    /\ sequentialCall request (historySnapshot request w) []
       = (fun model =>
            completeWithContext
              (earlier
                 ++ [ ContextMessage.mk user (OrchestrationRequest.prompt request);
                      ContextMessage.mk user (OrchestrationRequest.prompt request) ])
              (withModel (OrchestrationRequest.options request) model))
    /\ parallelCalls request w
       = map (fun model =>
                completeWithContext
                  (earlier
                     ++ [ ContextMessage.mk user (OrchestrationRequest.prompt request);
                          ContextMessage.mk user (OrchestrationRequest.prompt request) ])
                  (withModel (OrchestrationRequest.options request) model))
             (modelsOf request).
Proof.
  intros Hctx. apply usesContext_true in Hctx.
  unfold historySnapshot, historyAt, afterUserMessage. rewrite Hctx.
  cbn [contextManager].
  destruct (addMessage_then_history_aux
              (userMessage (OrchestrationRequest.prompt request)) (contextManager w) 50)
    as [Hread _].
  destruct (addMessage_messages
              (userMessage (OrchestrationRequest.prompt request)) (contextManager w))
    as (_ & Hrole & Hcontent).
  exists (historyMessages
            (if String.eqb (ContextManager.currentConversationId (contextManager w))
                           EmptyString
             then [] else cachedHistory (contextManager w))).
  assert (Hhistory :
    historyMessages
      (fst (ContextManager.getConversationHistory None 50
              (snd (ContextManager.addMessage
                      (userMessage (OrchestrationRequest.prompt request))
                      (contextManager w)))))
    = historyMessages
        (if String.eqb (ContextManager.currentConversationId (contextManager w))
                       EmptyString
         then [] else cachedHistory (contextManager w))
        ++ [ContextMessage.mk user (OrchestrationRequest.prompt request)]).
  { rewrite Hread. cbn [fst]. unfold historyMessages. rewrite map_app.
    cbn [map]. rewrite Hrole, Hcontent. reflexivity. }
  split; [exact Hhistory|].
  unfold sequentialCall, parallelCalls, parallelRequestOf, sequentialMessages,
    historySnapshot, historyAt, afterUserMessage.
  rewrite Hctx. cbn [contextManager promptAfter]. rewrite Hhistory, <- app_assoc.
  split; reflexivity.
Qed.

(** The provider calls of a computation come after those made before it. *)
Lemma anyCall_add message :
  preserves (callsWith (fun _ => True)) (contextManager_addMessage message).
Proof.
  intros w. unfold callsWith, contextManager_addMessage.
  destruct (ContextManager.accepts message);
    [destruct (ContextManager.addMessage message (contextManager w))|];
    cbn [snd events]; exists []; rewrite providerCalls_app; simpl;
    rewrite !app_nil_r; auto.
Qed.

Lemma anyCall_call provider call :
  preserves (callsWith (fun _ => True)) (callProvider provider call).
Proof.
  intros w. unfold callProvider, callsWith. cbn [snd events]. exists [call].
  rewrite providerCalls_app. simpl. auto.
Qed.

Lemma anyCall_refl w : callsWith (fun _ => True) w w.
Proof. exists []. rewrite app_nil_r. auto. Qed.

Lemma anyCall_trans w1 w2 w3 :
  callsWith (fun _ => True) w1 w2 -> callsWith (fun _ => True) w2 w3 ->
  callsWith (fun _ => True) w1 w3.
Proof.
  intros (c1 & H1 & _) (c2 & H2 & _). exists (c1 ++ c2).
  rewrite H2, H1, app_assoc. split; [reflexivity | apply Forall_forall; auto].
Qed.

(** Where a Sequential run leaves the world: where its loop leaves it. *)
Lemma orchestrate_sequential_world
    (provider : list Event -> ProviderCall -> Res string)
    (JSON_parse : string -> Res JsValue)
    (request : OrchestrationRequest.t) (w : World) :
  OrchestrationRequest.strategy request = OrchestrationStrategy_Sequential ->
  snd (orchestrate provider JSON_parse request w)
  = snd (sequentialLoop provider request (historySnapshot request w)
           (modelsOf request) (OrchestrationRequest.prompt request) []
           (afterRead request (afterUserMessage request w))).
Proof.
  intros Hstrategy.
  rewrite orchestrate_run, (dispatch_sequential provider JSON_parse request _ Hstrategy).
  unfold sequentialProcessing. unfold bind at 1. rewrite readHistory_run.
  fold (historySnapshot request w). unfold bind, ret.
  destruct (sequentialLoop provider request (historySnapshot request w)
              (modelsOf request) (OrchestrationRequest.prompt request) []
              (afterRead request (afterUserMessage request w)))
    as [[responses|e] w1]; reflexivity.
Qed.

(** What follows the first call of the loop makes calls, and takes none
    back. *)
Lemma sequentialLoop_continues
    (provider : list Event -> ProviderCall -> Res string)
    (request : OrchestrationRequest.t) (history : list Message.t)
    (model : string) (rest : list string) (response : string)
    (responses : list ProviderResponse.t) :
  preserves (callsWith (fun _ => True))
    (when (usesContext request)
          (contextManager_addMessage (assistantMessage response model None)) ;;;
     sequentialLoop provider request history rest
       (refinementPrompt (OrchestrationRequest.prompt request) model response)
       responses).
Proof.
  apply (preserves_bind _ anyCall_trans).
  - apply (preserves_when _ anyCall_refl anyCall_trans anyCall_add).
  - intros _.
    apply (preserves_sequentialLoop _ anyCall_refl anyCall_trans provider request
             (anyCall_call provider) anyCall_add).
Qed.

(** X18.  With [useContext] not [false] the prompt reaches the models twice.
    [orchestrate] stores the prompt before the strategy reads the history, so
    the history ends with the prompt; the strategy then appends the prompt
    again.  In a Sequential run the first call, and in a Parallel run every
    per-model call, has a message list that ends with two [user] messages
    that both hold the prompt, whether the run returns or throws. *)
Theorem prompt_is_sent_twice
    (provider : list Event -> ProviderCall -> Res string)
    (JSON_parse : string -> Res JsValue)
    (request : OrchestrationRequest.t) (w : World) :
  OrchestrationRequest.useContext request <> Some false ->
  exists earlier,
    historyMessages (historySnapshot request w)
    = earlier ++ [ContextMessage.mk user (OrchestrationRequest.prompt request)]
    /\ (OrchestrationRequest.strategy request = OrchestrationStrategy_Sequential ->
        forall model rest,
          modelsOf request = model :: rest ->
          exists later,
            providerCalls (events (snd (orchestrate provider JSON_parse request w)))
            = providerCalls (events w)
                ++ completeWithContext
                     (earlier
                        ++ [ ContextMessage.mk user (OrchestrationRequest.prompt request);
                             ContextMessage.mk user (OrchestrationRequest.prompt request) ])
                     (withModel (OrchestrationRequest.options request) model)
                :: later)
    /\ (OrchestrationRequest.strategy request = OrchestrationStrategy_Parallel ->
        providerCalls (events (snd (orchestrate provider JSON_parse request w)))
        = providerCalls (events w)
            ++ map (fun model =>
                      completeWithContext
                        (earlier
                           ++ [ ContextMessage.mk user (OrchestrationRequest.prompt request);
                                ContextMessage.mk user (OrchestrationRequest.prompt request) ])
                        (withModel (OrchestrationRequest.options request) model))
                   (modelsOf request)
            ++ [synthesisCall provider request w]).
Proof.
  intros Hctx.
  destruct (history_ends_with_prompt request w Hctx) as (earlier & Hhistory & Hseq & Hpar).
  exists earlier. split; [exact Hhistory|]. split.
  - intros Hstrategy model rest Hmodels.
    rewrite (orchestrate_sequential_world provider JSON_parse request w Hstrategy),
      Hmodels.
    cbn [sequentialLoop]. unfold bind at 1. unfold callProvider at 1.
    rewrite Hhistory, <- app_assoc. cbn [app].
    rewrite afterRead_events, <- (afterUserMessage_providerCalls request w).
    destruct (provider (events (afterUserMessage request w)) _) as [response|e].
    + destruct (sequentialLoop_continues provider request (historySnapshot request w)
                  model rest response
                  [ProviderResponse.mk model response]
                  (mkWorld (contextManager (afterRead request (afterUserMessage request w)))
                     (events (afterUserMessage request w)
                        ++ [ProviderCalled
                              (completeWithContext
                                 (earlier
                                    ++ [ ContextMessage.mk user
                                           (OrchestrationRequest.prompt request);
                                         ContextMessage.mk user
                                           (OrchestrationRequest.prompt request) ])
                                 (withModel (OrchestrationRequest.options request)
                                    model))])))
        as (later & Hlater & _).
      exists later. rewrite Hlater. cbn [events].
      rewrite providerCalls_app, <- app_assoc. reflexivity.
    + exists []. cbn [snd events]. rewrite providerCalls_app. reflexivity.
  - intros Hstrategy. rewrite <- Hpar.
    rewrite (orchestrate_parallel_run provider JSON_parse request w Hstrategy).
    destruct (synthesisOutcome provider request w) as [synthesis|e]; cbn [snd].
    + apply (afterSynthesis_trace provider request w synthesis).
    + apply (afterSynthesisCall_trace provider request w).
Qed.

Lemma prompt_is_sent_twice_witness :
  exists earlier,
    historyMessages (historySnapshot Examples.sequentialABC Examples.world0)
    = earlier ++ [ContextMessage.mk user "p"]
    /\ (OrchestrationRequest.strategy Examples.sequentialABC
        = OrchestrationStrategy_Sequential ->
        forall model rest,
          modelsOf Examples.sequentialABC = model :: rest ->
          exists later,
            providerCalls
              (events (snd (orchestrate Examples.greek JsonSubset.parse
                              Examples.sequentialABC Examples.world0)))
            = providerCalls (events Examples.world0)
                ++ completeWithContext
                     (earlier ++ [ContextMessage.mk user "p"; ContextMessage.mk user "p"])
                     (withModel None model)
                :: later)
    /\ (OrchestrationRequest.strategy Examples.sequentialABC
        = OrchestrationStrategy_Parallel ->
        providerCalls
          (events (snd (orchestrate Examples.greek JsonSubset.parse
                          Examples.sequentialABC Examples.world0)))
        = providerCalls (events Examples.world0)
            ++ map (fun model =>
                      completeWithContext
                        (earlier ++ [ContextMessage.mk user "p"; ContextMessage.mk user "p"])
                        (withModel None model))
                   (modelsOf Examples.sequentialABC)
            ++ [synthesisCall Examples.greek Examples.sequentialABC Examples.world0]).
Proof.
  apply (prompt_is_sent_twice Examples.greek JsonSubset.parse Examples.sequentialABC
           Examples.world0).
  simpl. discriminate.
Defined.

(** ** The tool handlers *)

Lemma formatSteps_embeds (i : nat) (responses : list ProviderResponse.t) r :
  In r responses -> embeds (ProviderResponse.response r) (formatSteps i responses).
Proof.
  revert i. induction responses as [|r0 rest IH]; intros i Hin; [destruct Hin|].
  cbn [formatSteps]. destruct Hin as [->|Hin].
  - apply embeds_cat. simpl. tauto.
  - apply embeds_trans with (formatSteps (S i) rest); [apply IH, Hin|].
    apply embeds_cat. simpl. tauto.
Qed.

Lemma formatSections_embeds (responses : list ProviderResponse.t) r :
  In r responses -> embeds (ProviderResponse.response r) (formatSections responses).
Proof.
  intros Hin. unfold formatSections.
  apply embeds_trans
    with (cat [ "### "; ProviderResponse.model r; nl; ProviderResponse.response r; nl; nl ]).
  - apply embeds_cat. simpl. tauto.
  - apply embeds_cat.
    apply (in_map (fun r => cat [ "### "; ProviderResponse.model r; nl;
                                  ProviderResponse.response r; nl; nl ])).
    exact Hin.
Qed.

Lemma formatRounds_embeds (i : nat) (rounds : list DebateRound.t) round r :
  In round rounds -> In r (DebateRound.responses round) ->
  embeds (ProviderResponse.response r) (formatRounds i rounds).
Proof.
  revert i. induction rounds as [|round0 rest IH]; intros i Hround Hr; [destruct Hround|].
  cbn [formatRounds]. destruct Hround as [->|Hround].
  - apply embeds_trans
      with (cat (map (fun r => cat [ "**"; ProviderResponse.model r; ":** ";
                                     ProviderResponse.response r; nl; nl ])
                     (DebateRound.responses round))).
    + apply embeds_trans
        with (cat [ "**"; ProviderResponse.model r; ":** ";
                    ProviderResponse.response r; nl; nl ]).
      * apply embeds_cat. simpl. tauto.
      * apply embeds_cat.
        apply (in_map (fun r => cat [ "**"; ProviderResponse.model r; ":** ";
                                      ProviderResponse.response r; nl; nl ])).
        exact Hr.
    + apply embeds_cat. simpl. tauto.
  - apply embeds_trans with (formatRounds (S i) rest); [apply IH; assumption|].
    apply embeds_cat. simpl. tauto.
Qed.

Lemma renders_responses strategy title models responses closing c :
  In (strategy, title)
     [ ("parallel", "## Parallel Responses"); ("consensus", "## Individual Perspectives");
       ("specialist", "## Specialist Responses") ] ->
  forall synthesis consensus,
    closing = (if String.eqb strategy "parallel" then formatClosing "Synthesis" synthesis
               else if String.eqb strategy "consensus"
                    then formatClosing "Consensus" consensus
                    else EmptyString) ->
    renders (OrchestrationResult.mk strategy models (Some responses) None
               synthesis consensus None c).
Proof.
  intros Hin synthesis consensus ->.
  destruct Hin as [H|[H|[H|[]]]]; injection H as <- <-; eexists; (split; [reflexivity|]);
    unfold resultTexts; cbn [OrchestrationResult.responses OrchestrationResult.rounds];
    rewrite app_nil_r; intros t Ht; apply in_map_iff in Ht;
    destruct Ht as (r & <- & Hr);
    (apply embeds_trans with (formatSections responses);
     [apply formatSections_embeds, Hr | apply embeds_cat; simpl; tauto]).
Qed.

Lemma renders_sequential models responses c :
  renders (OrchestrationResult.mk "sequential" models (Some responses) None
             None None None c).
Proof.
  eexists. split; [reflexivity|].
  unfold resultTexts. cbn [OrchestrationResult.responses OrchestrationResult.rounds].
  rewrite app_nil_r. intros t Ht. apply in_map_iff in Ht. destruct Ht as (r & <- & Hr).
  apply embeds_trans with (formatSteps 0 responses);
    [apply formatSteps_embeds, Hr | apply embeds_cat; simpl; tauto].
Qed.

Lemma renders_debate models rounds conclusion c :
  renders (OrchestrationResult.mk "debate" models None (Some rounds)
             None None conclusion c).
Proof.
  eexists. split; [reflexivity|].
  unfold resultTexts. cbn [OrchestrationResult.responses OrchestrationResult.rounds app].
  intros t Ht. apply in_flat_map in Ht. destruct Ht as (round & Hround & Ht).
  apply in_map_iff in Ht. destruct Ht as (r & <- & Hr).
  apply embeds_trans with (formatRounds 0 rounds);
    [apply formatRounds_embeds with round; assumption
    | apply embeds_cat; simpl; tauto].
Qed.

Section Rendering.

Variable provider : list Event -> ProviderCall -> Res string.
Variable JSON_parse : string -> Res JsValue.
Variable request : OrchestrationRequest.t.

Lemma dispatch_renders models w w' inner c :
  dispatch provider JSON_parse request models w = (Ok inner, w') ->
  OrchestrationResult.strategy inner = OrchestrationRequest.strategy request
  /\ renders (OrchestrationResult.withConversationId inner c).
Proof.
  unfold dispatch.
  destruct (String.eqb_spec (OrchestrationRequest.strategy request)
              OrchestrationStrategy_Sequential) as [Hs|_].
  { intros H. unfold sequentialProcessing in H. do 2 bind_inv H. ret_inv H.
    split; [symmetry; exact Hs|]. apply renders_sequential. }
  destruct (String.eqb_spec (OrchestrationRequest.strategy request)
              OrchestrationStrategy_Parallel) as [Hs|_].
  { intros H. unfold parallelProcessing in H. do 4 bind_inv H. ret_inv H.
    split; [symmetry; exact Hs|].
    apply (renders_responses "parallel" "## Parallel Responses")
      with (closing := formatClosing "Synthesis" (Some a1));
      [simpl; tauto | reflexivity]. }
  destruct (String.eqb_spec (OrchestrationRequest.strategy request)
              OrchestrationStrategy_Debate) as [Hs|_].
  { intros H. unfold debateMode in H. do 3 bind_inv H. ret_inv H.
    split; [symmetry; exact Hs|]. apply renders_debate. }
  destruct (String.eqb_spec (OrchestrationRequest.strategy request)
              OrchestrationStrategy_Consensus) as [Hs|_].
  { intros H. unfold consensusMode in H. do 3 bind_inv H. ret_inv H.
    split; [symmetry; exact Hs|].
    apply (renders_responses "consensus" "## Individual Perspectives")
      with (closing := formatClosing "Consensus" (Some a0));
      [simpl; tauto | reflexivity]. }
  destruct (String.eqb_spec (OrchestrationRequest.strategy request)
              OrchestrationStrategy_Specialist) as [Hs|_].
  { intros H. unfold specialistRouting in H. do 3 bind_inv H. ret_inv H.
    split; [symmetry; exact Hs|].
    apply (renders_responses "specialist" "## Specialist Responses")
      with (closing := EmptyString);
      [simpl; tauto | reflexivity]. }
  intros H. discriminate.
Qed.

Lemma orchestrate_renders w w' result :
  orchestrate provider JSON_parse request w = (Ok result, w') ->
  OrchestrationResult.strategy result = OrchestrationRequest.strategy request
  /\ renders result.
Proof.
  intros H. apply orchestrate_Ok_dispatch in H. destruct H as (inner & Hd & ->).
  destruct (dispatch_renders _ _ _ _
              (ContextManager.currentConversationId (contextManager w')) Hd) as [Hs Hr].
  split; [exact Hs | exact Hr].
Qed.

End Rendering.

(** X19.  [formatOrchestrationResult] renders every result of [orchestrate]:
    it does not run into a missing [responses] or [rounds], the result has
    the strategy of the request, and the text contains the response of every
    model (of every round, for a debate) verbatim. *)
Theorem formatOrchestrationResult_of_orchestrate
    (provider : list Event -> ProviderCall -> Res string)
    (JSON_parse : string -> Res JsValue)
    (request : OrchestrationRequest.t) (w w' : World)
    (result : OrchestrationResult.t) :
  orchestrate provider JSON_parse request w = (Ok result, w') ->
  OrchestrationResult.strategy result = OrchestrationRequest.strategy request
  /\ exists text,
       formatOrchestrationResult result = Ok text
       /\ forall t, In t (resultTexts result) -> embeds t text.
Proof.
  apply orchestrate_renders.
Qed.

Lemma formatOrchestrationResult_of_orchestrate_witness :
  OrchestrationResult.strategy
    (Examples.resultOf
       (orchestrate Examples.greek JsonSubset.parse (Examples.debateAB 2) Examples.world0))
  = "debate"
  /\ exists text,
       formatOrchestrationResult
         (Examples.resultOf
            (orchestrate Examples.greek JsonSubset.parse (Examples.debateAB 2)
               Examples.world0))
       = Ok text
       /\ forall t,
            In t (resultTexts
                    (Examples.resultOf
                       (orchestrate Examples.greek JsonSubset.parse (Examples.debateAB 2)
                          Examples.world0))) ->
            embeds t text.
Proof.
  apply (formatOrchestrationResult_of_orchestrate Examples.greek JsonSubset.parse
           (Examples.debateAB 2) Examples.world0
           (snd (orchestrate Examples.greek JsonSubset.parse (Examples.debateAB 2)
                   Examples.world0))).
  vm_compute. reflexivity.
Defined.

(** X20.  The [orchestrate] tool never throws.  Its text is the rendering of
    the result when [orchestrate] returns one, and [Error: ] followed by the
    message of the exception when [orchestrate] throws; the rendering itself
    adds no failure.  The tool leaves the world as [orchestrate] left it. *)
Theorem orchestrateTool_text
    (provider : list Event -> ProviderCall -> Res string)
    (JSON_parse : string -> Res JsValue)
    (args : OrchestrateArgs.t) (w : World) :
  (exists text, fst (orchestrateTool provider JSON_parse args w) = Ok text)
  /\ snd (orchestrateTool provider JSON_parse args w)
     = snd (orchestrate provider JSON_parse (orchestrateRequest args) w)
  /\ (forall e,
        fst (orchestrate provider JSON_parse (orchestrateRequest args) w) = Throw e ->
        fst (orchestrateTool provider JSON_parse args w)
        = Ok (cat ["Error: "; messageOf e]))
  /\ (forall result,
        fst (orchestrate provider JSON_parse (orchestrateRequest args) w) = Ok result ->
        fst (orchestrateTool provider JSON_parse args w)
        = formatOrchestrationResult result).
Proof.
  unfold orchestrateTool, handled, tryCatch, bind.
  destruct (orchestrate provider JSON_parse (orchestrateRequest args) w)
    as [[result|e] w'] eqn:Hrun.
  - destruct (orchestrate_renders provider JSON_parse _ _ _ _ Hrun)
      as (_ & text & Htext & _).
    unfold liftRes. rewrite Htext. cbn [fst snd].
    split; [eauto|]. split; [reflexivity|].
    split; [discriminate|]. intros r Hr. injection Hr as <-. auto.
  - unfold ret. cbn [fst snd]. split; [eauto|]. split; [reflexivity|].
    split; [|discriminate]. intros e0 He. injection He as <-. reflexivity.
Qed.

Lemma orchestrateTool_text_witness :
  fst (orchestrateTool Examples.noSynthesis JsonSubset.parse
         (OrchestrateArgs.mk "X" "parallel" (Some ["A"; "B"]) false None) Examples.world0)
  = Ok (cat ["Error: "; messageOf Examples.unavailable]).
Proof.
  apply (proj1 (proj2 (proj2
           (orchestrateTool_text Examples.noSynthesis JsonSubset.parse
              (OrchestrateArgs.mk "X" "parallel" (Some ["A"; "B"]) false None)
              Examples.world0)))).
  vm_compute. reflexivity.
Defined.



Section Ask.

Variable provider : list Event -> ProviderCall -> Res string.
Variable args : AskArgs.t.

Lemma getHistory_run w :
  contextManager_getConversationHistory w
  = (Ok (fst (ContextManager.getConversationHistory None 50 (contextManager w))),
     mkWorld (snd (ContextManager.getConversationHistory None 50 (contextManager w)))
             (events w)).
Proof.
  unfold contextManager_getConversationHistory.
  destruct (ContextManager.getConversationHistory None 50 (contextManager w));
    reflexivity.
Qed.

(** The [ask] tool, step by step. *)
Lemma askTool_run w :
  askTool provider args w
  = let w1 :=
      if AskArgs.useContext args then
        mkWorld
          (snd (ContextManager.addMessage (userMessage (AskArgs.prompt args))
                  (contextManager w)))
          (events w ++ [MessageAdded (userMessage (AskArgs.prompt args));
                        ProviderCalled (askCall args w)])
      else mkWorld (contextManager w) (events w ++ [ProviderCalled (askCall args w)]) in
    match askOutcome provider args w with
    | Throw e => (Ok (cat ["Error: "; messageOf e]), w1)
    | Ok response =>
        if AskArgs.useContext args then
          if ContextManager.accepts (assistantMessage response (askModel args) None) then
            (Ok response,
             mkWorld
               (snd (ContextManager.addMessage
                       (assistantMessage response (askModel args) None)
                       (contextManager w1)))
               (events w1
                  ++ [MessageAdded (assistantMessage response (askModel args) None)]))
          else
            (Ok (cat ["Error: "; messageOf ContextManager.valueTooLong]),
             mkWorld
               (ContextManager.addMessageRefused (contextManager w1))
               (events w1
                  ++ [MessageRefused (assistantMessage response (askModel args) None)]))
        else (Ok response, w1)
    end.
Proof.
  unfold askTool, handled, tryCatch, askOutcome, askCall.
  destruct (AskArgs.useContext args).
  - unfold when. unfold bind at 1. unfold bind at 1.
    rewrite addMessage_run by reflexivity.
    unfold ret at 1. unfold bind at 1.
    rewrite getHistory_run. cbn [contextManager events].
    destruct (addMessage_then_history_aux (userMessage (AskArgs.prompt args))
                (contextManager w) 50) as [Haux _].
    rewrite Haux. cbn [fst snd]. unfold bind at 1, callProvider.
    cbn [contextManager events].
    destruct (provider _ _) as [response|e].
    + unfold bind, ret.
      destruct (ContextManager.accepts (assistantMessage response (askModel args) None))
        eqn:Haccepts.
      * rewrite (addMessage_run _ _ Haccepts). cbn [contextManager events].
        rewrite <- !app_assoc. reflexivity.
      * rewrite (addMessage_refused _ _ Haccepts). cbn [contextManager events].
        rewrite <- !app_assoc. reflexivity.
    + unfold ret. rewrite <- !app_assoc. reflexivity.
  - unfold when, bind, ret, callProvider. cbn [historyMessages map app].
    rewrite ?app_nil_r.
    destruct (provider _ _); reflexivity.
Qed.

End Ask.



(** X23.  The [ask] tool without [useContext] touches neither the store nor
    the history: it sends the prompt alone and returns the answer, or the
    error text. *)
Theorem askTool_without_context
    (provider : list Event -> ProviderCall -> Res string)
    (args : AskArgs.t) (w : World) :
  AskArgs.useContext args = false ->
  askTool provider args w
  = (Ok match provider (events w)
                (completeWithContext [ContextMessage.mk user (AskArgs.prompt args)]
                   (askOptions args)) with
        | Ok response => response
        | Throw e => cat ["Error: "; messageOf e]
        end,
     mkWorld (contextManager w)
       (events w
          ++ [ProviderCalled
                (completeWithContext [ContextMessage.mk user (AskArgs.prompt args)]
                   (askOptions args))])).
Proof.
  intros Hctx. rewrite askTool_run. unfold askOutcome, askCall. rewrite Hctx.
  cbv zeta. cbn [historyMessages map app]. rewrite app_nil_r.
  destruct (provider _ _); reflexivity.
Qed.

Lemma askTool_without_context_witness :
  askTool Examples.greek (AskArgs.mk "p" None (7 # 10) false) Examples.world0
  = (Ok match Examples.greek (events Examples.world0)
                (completeWithContext [ContextMessage.mk user "p"]
                   (askOptions (AskArgs.mk "p" None (7 # 10) false))) with
        | Ok response => response
        | Throw e => cat ["Error: "; messageOf e]
        end,
     mkWorld (contextManager Examples.world0)
       (events Examples.world0
          ++ [ProviderCalled
                (completeWithContext [ContextMessage.mk user "p"]
                   (askOptions (AskArgs.mk "p" None (7 # 10) false)))])).
Proof.
  apply (askTool_without_context Examples.greek (AskArgs.mk "p" None (7 # 10) false)
           Examples.world0).
  reflexivity.
Defined.

(** X24.  [new_conversation] gives a clean context.  After the tool has run,
    whatever the store held, the history that the next [orchestrate] call
    with [useContext] reads holds its own prompt and nothing else, and the
    tool's text names the title, or [Untitled], and the new id. *)
Theorem new_conversation_cleans_context
    (title : option string) (request : OrchestrationRequest.t) (w : World) :
  OrchestrationRequest.useContext request <> Some false ->
  historyMessages (historySnapshot request (snd (newConversationTool title w)))
  = [ContextMessage.mk user (OrchestrationRequest.prompt request)]
  /\ fst (newConversationTool title w)
     = Ok (cat [ "Started new conversation: ";
                 match truthy title with Some t => t | None => "Untitled" end;
                 nl; "ID: ";
                 fst (ContextManager.startNewConversation title (contextManager w)) ])
  /\ events (snd (newConversationTool title w)) = events w.
Proof.
  intros Hctx. apply usesContext_true in Hctx.
  assert (Hrun : newConversationTool title w
                 = (Ok (cat [ "Started new conversation: ";
                              match truthy title with Some t => t | None => "Untitled" end;
                              nl; "ID: ";
                              fst (ContextManager.startNewConversation title
                                     (contextManager w)) ]),
                    mkWorld (snd (ContextManager.startNewConversation title
                                    (contextManager w)))
                            (events w))).
  { unfold newConversationTool, handled, tryCatch.
    destruct (ContextManager.startNewConversation title (contextManager w)); reflexivity. }
  rewrite Hrun. cbn [fst snd events]. split; [|auto].
  unfold historySnapshot, historyAt, afterUserMessage. rewrite Hctx.
  cbn [contextManager].
  destruct (startNewConversation_fields title (contextManager w))
    as (Hcur & Hne & _ & Hcache).
  destruct (addMessage_then_history_aux
              (userMessage (OrchestrationRequest.prompt request))
              (snd (ContextManager.startNewConversation title (contextManager w))) 50)
    as [Hread _].
  destruct (addMessage_messages
              (userMessage (OrchestrationRequest.prompt request))
              (snd (ContextManager.startNewConversation title (contextManager w))))
    as (_ & Hrole & Hcontent).
  rewrite Hread. cbn [fst]. rewrite Hcache.
  destruct (String.eqb _ _); cbn [app historyMessages map];
    rewrite Hrole, Hcontent; reflexivity.
Qed.

Lemma new_conversation_cleans_context_witness :
  historyMessages
    (historySnapshot Examples.sequentialABC
       (snd (newConversationTool (Some "Fresh")
               (mkWorld StoreExamples.expired []))))
  = [ContextMessage.mk user "p"]
  /\ fst (newConversationTool (Some "Fresh") (mkWorld StoreExamples.expired []))
     = Ok (cat [ "Started new conversation: "; "Fresh"; nl; "ID: "; "uuid-3" ])
  /\ events (snd (newConversationTool (Some "Fresh") (mkWorld StoreExamples.expired [])))
     = [].
Proof.
  apply (new_conversation_cleans_context (Some "Fresh") Examples.sequentialABC
           (mkWorld StoreExamples.expired [])).
  simpl. discriminate.
Defined.

(** ** Which models are called *)

Lemma preserves_bind_Ok (R : World -> World -> Prop)
    (R_refl : forall w, R w w)
    (R_trans : forall w1 w2 w3, R w1 w2 -> R w2 w3 -> R w1 w3)
    {A B} (m : M A) (k : A -> M B) :
  preserves R m ->
  (forall a, (exists w w1, m w = (Ok a, w1)) -> preserves R (k a)) ->
  preserves R (bind m k).
Proof.
  intros Hm Hk w. unfold bind. specialize (Hm w).
  destruct (m w) as [[a|e] w1] eqn:Hrun; cbn [snd] in *; [|exact Hm].
  apply R_trans with w1; [exact Hm | apply Hk; eauto].
Qed.

Lemma callsWith_refl Q w : callsWith Q w w.
Proof. exists []. rewrite app_nil_r. auto. Qed.

Lemma callsWith_trans Q w1 w2 w3 :
  callsWith Q w1 w2 -> callsWith Q w2 w3 -> callsWith Q w1 w3.
Proof.
  intros (c1 & H1 & F1) (c2 & H2 & F2). exists (c1 ++ c2).
  rewrite H2, H1, app_assoc. split; [reflexivity | apply Forall_app; auto].
Qed.

Lemma callsWith_add Q message :
  preserves (callsWith Q) (contextManager_addMessage message).
Proof.
  intros w. unfold callsWith, contextManager_addMessage.
  destruct (ContextManager.accepts message);
    [destruct (ContextManager.addMessage message (contextManager w))|];
    cbn [snd events]; exists []; rewrite providerCalls_app; simpl;
    rewrite !app_nil_r; auto.
Qed.

Lemma callsWith_read Q : preserves (callsWith Q) contextManager_getConversationHistory.
Proof.
  intros w. unfold contextManager_getConversationHistory.
  destruct (ContextManager.getConversationHistory None 50 (contextManager w)).
  unfold callsWith. cbn [snd events]. exists []. rewrite app_nil_r. auto.
Qed.

Lemma callsWith_call Q provider call :
  Q call -> preserves (callsWith Q) (callProvider provider call).
Proof.
  intros HQ w. unfold callProvider, callsWith. cbn [snd events]. exists [call].
  rewrite providerCalls_app. simpl. auto.
Qed.

Section Calls.

Variable provider : list Event -> ProviderCall -> Res string.
Variable JSON_parse : string -> Res JsValue.
Variable request : OrchestrationRequest.t.

Let R : World -> World -> Prop := callsWith (expectedCall request).

Lemma called_ret {A} (a : A) : preserves R (ret a).
Proof. intros w. apply callsWith_refl. Qed.

Lemma called_when cond message :
  preserves R (when cond (contextManager_addMessage message)).
Proof.
  apply preserves_when;
    [exact (callsWith_refl _) | exact (callsWith_trans _) | exact (callsWith_add _)].
Qed.

Lemma called_readHistory : preserves R (readHistory request).
Proof.
  unfold readHistory. destruct (usesContext request);
    [apply callsWith_read | apply called_ret].
Qed.

Lemma called_listed call model :
  In model (modelsOf request) ->
  callOptions call = withModel (OrchestrationRequest.options request) model ->
  preserves R (callProvider provider call).
Proof. intros Hin Hcall. apply callsWith_call. left. eauto. Qed.

Lemma called_fixed call model :
  In model fixedModels ->
  callOptions call = fixedModel model ->
  preserves R (callProvider provider call).
Proof. intros Hin Hcall. apply callsWith_call. right. eauto. Qed.

Create HintDb called.

#[local] Hint Resolve called_ret called_when called_readHistory : called.

Ltac call_steps :=
  repeat first
    [ solve [ auto with called ]
    | solve [ eapply called_listed; [ | reflexivity ]; eauto with datatypes ]
    | solve [ eapply called_fixed; [ | reflexivity ]; simpl; tauto ]
    | apply (preserves_bind R (callsWith_trans _)); [ | intros ? ]
    | apply (preserves_tryCatch R (callsWith_trans _)); [ | intros ? ] ].

Lemma called_sequentialLoop history models currentPrompt responses :
  incl models (modelsOf request) ->
  preserves R (sequentialLoop provider request history models currentPrompt responses).
Proof.
  revert currentPrompt responses.
  induction models as [|model rest IH]; intros currentPrompt responses Hincl; simpl.
  - call_steps.
  - assert (In model (modelsOf request)) by (apply Hincl; left; reflexivity).
    assert (incl rest (modelsOf request)) by (intros m Hm; apply Hincl; right; exact Hm).
    call_steps.
Qed.

Lemma called_parallelCalls history models :
  incl models (modelsOf request) ->
  preserves R (promiseAll (parallelCall provider request history) models).
Proof.
  induction models as [|model rest IH]; intros Hincl; simpl.
  - call_steps.
  - assert (In model (modelsOf request)) by (apply Hincl; left; reflexivity).
    assert (incl rest (modelsOf request)) by (intros m Hm; apply Hincl; right; exact Hm).
    unfold parallelCall. call_steps.
Qed.

#[local] Hint Resolve called_sequentialLoop called_parallelCalls incl_refl : called.

Lemma called_parallelProcessing :
  preserves R (parallelProcessing provider request (modelsOf request)).
Proof. unfold parallelProcessing, synthesizeResponses. call_steps. Qed.

Lemma called_debateRound debateContext round rounds models roundResponses :
  incl models (modelsOf request) ->
  preserves R
    (debateRound provider request debateContext round rounds models roundResponses).
Proof.
  revert roundResponses.
  induction models as [|model rest IH]; intros roundResponses Hincl; simpl.
  - call_steps.
  - assert (In model (modelsOf request)) by (apply Hincl; left; reflexivity).
    assert (incl rest (modelsOf request)) by (intros m Hm; apply Hincl; right; exact Hm).
    call_steps.
Qed.

#[local] Hint Resolve called_parallelProcessing called_debateRound : called.

Lemma called_debateLoop debateContext todo round rounds :
  preserves R
    (debateLoop provider request debateContext (modelsOf request) todo round rounds).
Proof.
  revert round rounds.
  induction todo as [|todo IH]; intros; simpl; call_steps.
Qed.

Lemma called_specialistLoop specialists responses :
  (forall s, In s specialists -> In (Specialist.model s) (modelsOf request)) ->
  preserves R (specialistLoop provider request specialists responses).
Proof.
  revert responses.
  induction specialists as [|specialist rest IH]; intros responses Hin; simpl.
  - call_steps.
  - assert (In (Specialist.model specialist) (modelsOf request))
      by (apply Hin; left; reflexivity).
    assert (forall s, In s rest -> In (Specialist.model s) (modelsOf request))
      by (intros s Hs; apply Hin; right; exact Hs).
    call_steps.
Qed.

#[local] Hint Resolve called_debateLoop called_specialistLoop : called.

Lemma called_specialistRouting :
  preserves R (specialistRouting provider JSON_parse request (modelsOf request)).
Proof.
  unfold specialistRouting, analyzePromptType.
  apply (preserves_bind R (callsWith_trans _)).
  { call_steps; intros w; apply callsWith_refl. }
  intros analysis.
  apply (preserves_bind_Ok R (callsWith_refl _) (callsWith_trans _)).
  { intros w. apply callsWith_refl. }
  intros specialists (w & w1 & Hsel). unfold liftRes in Hsel.
  injection Hsel as Hsel _.
  destruct (selectSpecialists_Ok _ _ _ Hsel) as (p & s & c & _ & _ & Hc & _).
  destruct (selectSpecialists_within _ _ _ Hsel c Hc) as [_ Hin].
  call_steps.
Qed.

Lemma called_dispatch :
  preserves R (dispatch provider JSON_parse request (modelsOf request)).
Proof.
  unfold dispatch.
  repeat match goal with |- context [if ?b then _ else _] => destruct b end.
  - unfold sequentialProcessing. call_steps.
  - auto with called.
  - unfold debateMode, generateDebateConclusion. call_steps.
  - unfold consensusMode, findConsensus. call_steps.
  - apply called_specialistRouting.
  - intros w. apply callsWith_refl.
Qed.

Lemma called_orchestrate : preserves R (orchestrate provider JSON_parse request).
Proof.
  pose proof called_dispatch.
  unfold orchestrate. call_steps. intros w. apply callsWith_refl.
Qed.

End Calls.


(** ** The OpenRouter provider under the engine *)

Lemma OpenRouterProvider_run
    (create : list Event -> ChatBody.t -> Res ChatCompletion)
    (evs : list Event) (call : ProviderCall) :
  OpenRouterProvider create evs call
  = match create evs (bodyOf call) with
    | Ok response => Ok (firstContent response)
    | Throw error => Throw (completionFailed error)
    end.
Proof. destruct call; reflexivity. Qed.

Lemma bodyOf_model (call : ProviderCall) :
  ChatBody.model (bodyOf call)
  = match truthy (CompletionOptions.model (callOptions call)) with
    | Some model => model
    | None => "openai/gpt-4o"
    end.
Proof. destruct call; reflexivity. Qed.

Lemma expectedCall_model (request : OrchestrationRequest.t) (call : ProviderCall) :
  expectedCall request call ->
  In (ChatBody.model (bodyOf call)) (modelsOf request ++ fixedModels).
Proof.
  intros [(model & Hin & Hcall)|(model & Hin & Hcall)];
    rewrite bodyOf_model, Hcall; apply in_or_app.
  - assert (Hmodel : CompletionOptions.model
                       (withModel (OrchestrationRequest.options request) model)
                     = Some model)
      by (unfold withModel; destruct (OrchestrationRequest.options request); reflexivity).
    rewrite Hmodel. unfold truthy.
    destruct (String.eqb model EmptyString); [right; simpl; tauto | left; exact Hin].
  - right. simpl in Hin.
    destruct Hin as [<-|[<-|[<-|[<-|[]]]]]; simpl; tauto.
Qed.



(** X27.  With the OpenRouter provider under the engine, every body that
    reaches the client during [orchestrate] names a model of the request's
    list or one of the four models the engine names itself: the provider's
    default, [openai/gpt-4o], stands in only for an empty model name, and is
    one of the four.  The client is asked once for each call of the
    provider, with the body of that call. *)
Theorem openRouter_bodies_name_expected_models
    (create : list Event -> ChatBody.t -> Res ChatCompletion)
    (JSON_parse : string -> Res JsValue)
    (request : OrchestrationRequest.t) (w : World) :
  (forall evs call,
     OpenRouterProvider create evs call
     = match create evs (bodyOf call) with
       | Ok response => Ok (firstContent response)
       | Throw error => Throw (completionFailed error)
       end)
  /\ exists calls,
       providerCalls
         (events (snd (orchestrate (OpenRouterProvider create) JSON_parse request w)))
       = providerCalls (events w) ++ calls
       /\ Forall (fun call =>
                    In (ChatBody.model (bodyOf call)) (modelsOf request ++ fixedModels))
                 calls.
Proof.
  split; [apply OpenRouterProvider_run|].
  destruct (called_orchestrate (OpenRouterProvider create) JSON_parse request w)
    as (calls & Hcalls & Hall).
  exists calls. split; [exact Hcalls|].
  eapply Forall_impl; [|exact Hall]. apply expectedCall_model.
Qed.
